(** * Verification of the BigQuery job agent and of the [pyflyte build] command

    The development embeds two source files of flytekit:

    - [plugins/flytekit-bigquery/flytekitplugins/bigquery/agent.py]
      (the agent with its three operations [create], [get] and [delete]),
      together with the parts of the msgpack and UTF-8 codecs that the
      metadata token goes through;
    - [flytekit/clis/sdk_in_container/build.py]
      ([WorkflowCommand.get_command] and [BuildCommand.list_commands]).

    Python values are modelled as the code has them: a [str] is a list of
    code points, [bytes] is a list of bytes, a raised exception is the
    [Raise] branch of a result, and every call that reaches the backend
    client is recorded in a trace that the operations thread along. *)

From Stdlib Require Import List NArith ZArith Lia Bool String Ascii.
From Stdlib Require Import Strings.Byte.
Import ListNotations.

Set Implicit Arguments.

(* ================================================================= *)
(** ** Python values shared by both files *)

(** A Python [str]: the sequence of its code points. *)
Definition pystr := list N.

(** A [str] literal of the source, written as a Rocq string. *)
Definition lit (s : string) : pystr :=
  map N_of_ascii (list_ascii_of_string s).

(** [bytes]. *)
Definition bytes := list byte.

(** The exception classes that the modelled code can raise.  [ExtraData],
    [FormatError] and [StackError] are msgpack's own classes; with
    [UnicodeDecodeError] and [UnicodeEncodeError] they are subclasses of
    [ValueError].  [BackendError] stands for whatever the backend client
    raises; it carries the client's detail. *)
Inductive exn : Type :=
| ValueError
| ExtraData
| FormatError
| StackError
| UnicodeDecodeError
| UnicodeEncodeError
| OverflowError
| TypeError
| KeyError
| AttributeError
| BackendError (detail : pystr).

(** The outcome of a Python expression: a value, or a raised exception. *)
Inductive result (A : Type) : Type :=
| Ok (a : A)
| Raise (e : exn).
Arguments Ok {A} a.
Arguments Raise {A} e.

Definition rbind {A B} (r : result A) (k : A -> result B) : result B :=
  match r with
  | Ok a => k a
  | Raise e => Raise e
  end.

Declare Scope result_scope.
Delimit Scope result_scope with result.
Notation "x <- r ;; k" := (rbind r (fun x => k))
  (at level 61, r at next level, right associativity) : result_scope.
Notation "' pat <- r ;; k" := (rbind r (fun x => match x with pat => k end))
  (at level 61, pat pattern, r at next level, right associativity) : result_scope.

Definition is_ok {A} (r : result A) : bool :=
  match r with Ok _ => true | Raise _ => false end.

(** [isinstance(e, ValueError)]. *)
Definition is_ValueError (e : exn) : bool :=
  match e with
  | ValueError | ExtraData | FormatError | StackError
  | UnicodeDecodeError | UnicodeEncodeError => true
  | _ => false
  end.

(** [type(e).__name__]; an exception of the backend client is known by its
    detail. *)
Definition class_name (e : exn) : pystr :=
  match e with
  | ValueError => lit "ValueError"
  | ExtraData => lit "ExtraData"
  | FormatError => lit "FormatError"
  | StackError => lit "StackError"
  | UnicodeDecodeError => lit "UnicodeDecodeError"
  | UnicodeEncodeError => lit "UnicodeEncodeError"
  | OverflowError => lit "OverflowError"
  | TypeError => lit "TypeError"
  | KeyError => lit "KeyError"
  | AttributeError => lit "AttributeError"
  | BackendError detail => detail
  end.

Definition pystr_eqb (a b : pystr) : bool :=
  if list_eq_dec N.eq_dec a b then true else false.

(** The byte with a given value below 256. *)
Definition byte_of (n : N) : byte :=
  match Byte.of_N n with
  | Some b => b
  | None => x00
  end.

(* ================================================================= *)
(** ** UTF-8, as [str.encode] and [bytes.decode] apply it (strict) *)

Module Utf8.
Local Open Scope N_scope.
Local Open Scope result_scope.

Definition is_surrogate (c : N) : bool := (0xD800 <=? c) && (c <=? 0xDFFF).

(** The code points that strict UTF-8 can carry. *)
Definition scalar (c : N) : bool := (c <? 0x110000) && negb (is_surrogate c).

(** [str.encode] on one code point.  A lone surrogate is refused; a number
    above 0x10FFFF is no code point at all and is refused likewise. *)
Definition encode_char (c : N) : result bytes :=
  if c <? 0x80 then Ok [byte_of c]
  else if c <? 0x800 then
    Ok [byte_of (0xC0 + c / 64); byte_of (0x80 + c mod 64)]
  else if c <? 0x10000 then
    if is_surrogate c then Raise UnicodeEncodeError
    else Ok [byte_of (0xE0 + c / 4096);
             byte_of (0x80 + (c / 64) mod 64);
             byte_of (0x80 + c mod 64)]
  else if c <? 0x110000 then
    Ok [byte_of (0xF0 + c / 262144);
        byte_of (0x80 + (c / 4096) mod 64);
        byte_of (0x80 + (c / 64) mod 64);
        byte_of (0x80 + c mod 64)]
  else Raise UnicodeEncodeError.

Fixpoint encode (s : pystr) : result bytes :=
  match s with
  | [] => Ok []
  | c :: s' =>
      b <- encode_char c ;;
      bs <- encode s' ;;
      Ok (b ++ bs)
  end.

(** The payload of a continuation byte [10xxxxxx]. *)
Definition cont (b : byte) : option N :=
  let n := Byte.to_N b in
  if (0x80 <=? n) && (n <=? 0xBF) then Some (n - 0x80) else None.

Definition push (c : N) (r : result pystr) : result pystr :=
  s <- r ;; Ok (c :: s).

Fixpoint decode (bs : bytes) : result pystr :=
  match bs with
  | [] => Ok []
  | b0 :: r0 =>
    let n0 := Byte.to_N b0 in
    if n0 <? 0x80 then push n0 (decode r0)
    else if n0 <? 0xC2 then Raise UnicodeDecodeError
    else if n0 <? 0xE0 then
      match r0 with
      | b1 :: r1 =>
        match cont b1 with
        | Some x1 => push ((n0 - 0xC0) * 64 + x1) (decode r1)
        | None => Raise UnicodeDecodeError
        end
      | _ => Raise UnicodeDecodeError
      end
    else if n0 <? 0xF0 then
      match r0 with
      | b1 :: b2 :: r2 =>
        match cont b1, cont b2 with
        | Some x1, Some x2 =>
          let c := (n0 - 0xE0) * 4096 + x1 * 64 + x2 in
          if (c <? 0x800) || is_surrogate c then Raise UnicodeDecodeError
          else push c (decode r2)
        | _, _ => Raise UnicodeDecodeError
        end
      | _ => Raise UnicodeDecodeError
      end
    else if n0 <? 0xF5 then
      match r0 with
      | b1 :: b2 :: b3 :: r3 =>
        match cont b1, cont b2, cont b3 with
        | Some x1, Some x2, Some x3 =>
          let c := (n0 - 0xF0) * 262144 + x1 * 4096 + x2 * 64 + x3 in
          if (c <? 0x10000) || (0x10FFFF <? c) then Raise UnicodeDecodeError
          else push c (decode r3)
        | _, _, _ => Raise UnicodeDecodeError
        end
      | _ => Raise UnicodeDecodeError
      end
    else Raise UnicodeDecodeError
  end.

(** The number of bytes that [encode] gives a code point. *)
Definition width (c : N) : N :=
  if c <? 0x80 then 1 else if c <? 0x800 then 2
  else if c <? 0x10000 then 3 else 4.

(** [len(s.encode())]. *)
Definition encoded_length (s : pystr) : N :=
  fold_right (fun c n => width c + n) 0 s.

End Utf8.

(* ================================================================= *)
(** ** Python objects that travel through the codecs *)

(** The values that [msgpack.unpackb] and [json.loads] can build.  A float
    is kept as the IEEE-754 bytes read from the wire (no floating-point
    arithmetic is modelled); a [dict] is its list of items in insertion
    order, built with [dict_set] so that keys are unique. *)
#[warnings="-register-all"]
Inductive pyobj : Type :=
| PyNone
| PyBool (b : bool)
| PyInt (z : Z)
| PyFloat (bits : bytes)
| PyStr (s : pystr)
| PyBytes (b : bytes)
| PyList (l : list pyobj)
| PyDict (d : list (pyobj * pyobj))
| PyTimestamp (seconds : Z) (nanoseconds : N)
| PyExt (code : Z) (data : bytes).

Definition pydict := list (pyobj * pyobj).

Definition bytes_eqb (a b : bytes) : bool :=
  if list_eq_dec Byte.byte_eq_dec a b then true else false.

(** Equality of dictionary keys; only [str] and [bytes] keys occur. *)
Definition key_eqb (a b : pyobj) : bool :=
  match a, b with
  | PyStr x, PyStr y => pystr_eqb x y
  | PyBytes x, PyBytes y => bytes_eqb x y
  | _, _ => false
  end.

(** [d[k] = v]: an existing key keeps its place and takes the new value. *)
Fixpoint dict_set (k v : pyobj) (d : pydict) : pydict :=
  match d with
  | [] => [(k, v)]
  | (k', v') :: d' =>
      if key_eqb k k' then (k', v) :: d' else (k', v') :: dict_set k v d'
  end.

Fixpoint dict_get (k : pyobj) (d : pydict) : option pyobj :=
  match d with
  | [] => None
  | (k', v') :: d' => if key_eqb k k' then Some v' else dict_get k d'
  end.

(* ================================================================= *)
(** ** msgpack: [msgpack.packb] and [msgpack.unpackb] with their defaults
       ([use_bin_type=True], [raw=False], [strict_map_key=True]) *)

Module Msgpack.
Local Open Scope N_scope.
Local Open Scope result_scope.

(** Big-endian integers. *)
Fixpoint be_value (bs : bytes) (acc : N) : N :=
  match bs with
  | [] => acc
  | b :: r => be_value r (acc * 256 + Byte.to_N b)
  end.

Fixpoint be_bytes (k : nat) (n : N) : bytes :=
  match k with
  | O => []
  | S k' => be_bytes k' (n / 256) ++ [byte_of (n mod 256)]
  end.

(** The next [n] bytes of the buffer; a short buffer is msgpack's
    "incomplete input", a [ValueError]. *)
Definition take (n : N) (bs : bytes) : result (bytes * bytes) :=
  if N.of_nat (List.length bs) <? n then Raise ValueError
  else Ok (firstn (N.to_nat n) bs, skipn (N.to_nat n) bs).

Definition uint (k : N) (bs : bytes) : result (N * bytes) :=
  '(h, r) <- take k bs ;; Ok (be_value h 0, r).

(** Two's complement on [8 * k] bits. *)
Definition signed (k : N) (u : N) : Z :=
  if u <? 2 ^ (8 * k - 1) then Z.of_N u else (Z.of_N u - Z.of_N (2 ^ (8 * k)))%Z.

Definition sint (k : N) (bs : bytes) : result (Z * bytes) :=
  '(u, r) <- uint k bs ;; Ok (signed k u, r).

(* ----------------------------------------------------------------- *)
(** *** Packing *)

Definition pack_int (z : Z) : result bytes :=
  if (0 <=? z)%Z then
    let n := Z.to_N z in
    if n <? 0x80 then Ok [byte_of n]
    else if n <? 0x100 then Ok (xcc :: be_bytes 1 n)
    else if n <? 0x10000 then Ok (xcd :: be_bytes 2 n)
    else if n <? 0x100000000 then Ok (xce :: be_bytes 4 n)
    else if n <? 0x10000000000000000 then Ok (xcf :: be_bytes 8 n)
    else Raise OverflowError
  else
    if (-32 <=? z)%Z then Ok [byte_of (Z.to_N (z + 256))]
    else if (-0x80 <=? z)%Z then Ok (xd0 :: be_bytes 1 (Z.to_N (z + 0x100)))
    else if (-0x8000 <=? z)%Z then Ok (xd1 :: be_bytes 2 (Z.to_N (z + 0x10000)))
    else if (-0x80000000 <=? z)%Z then
      Ok (xd2 :: be_bytes 4 (Z.to_N (z + 0x100000000)))
    else if (-0x8000000000000000 <=? z)%Z then
      Ok (xd3 :: be_bytes 8 (Z.to_N (z + 0x10000000000000000)))
    else Raise OverflowError.

(** The header of a [str] of [n] UTF-8 bytes. *)
Definition str_header (n : N) : result bytes :=
  if n <? 32 then Ok [byte_of (0xa0 + n)]
  else if n <? 0x100 then Ok (xd9 :: be_bytes 1 n)
  else if n <? 0x10000 then Ok (xda :: be_bytes 2 n)
  else if n <? 0x100000000 then Ok (xdb :: be_bytes 4 n)
  else Raise ValueError.

Definition bin_header (n : N) : result bytes :=
  if n <? 0x100 then Ok (xc4 :: be_bytes 1 n)
  else if n <? 0x10000 then Ok (xc5 :: be_bytes 2 n)
  else if n <? 0x100000000 then Ok (xc6 :: be_bytes 4 n)
  else Raise ValueError.

Definition array_header (n : N) : result bytes :=
  if n <? 16 then Ok [byte_of (0x90 + n)]
  else if n <? 0x10000 then Ok (xdc :: be_bytes 2 n)
  else if n <? 0x100000000 then Ok (xdd :: be_bytes 4 n)
  else Raise ValueError.

Definition map_header (n : N) : result bytes :=
  if n <? 16 then Ok [byte_of (0x80 + n)]
  else if n <? 0x10000 then Ok (xde :: be_bytes 2 n)
  else if n <? 0x100000000 then Ok (xdf :: be_bytes 4 n)
  else Raise ValueError.

Definition ext_header (n : N) : result bytes :=
  if n =? 1 then Ok [xd4]
  else if n =? 2 then Ok [xd5]
  else if n =? 4 then Ok [xd6]
  else if n =? 8 then Ok [xd7]
  else if n =? 16 then Ok [xd8]
  else if n <? 0x100 then Ok (xc7 :: be_bytes 1 n)
  else if n <? 0x10000 then Ok (xc8 :: be_bytes 2 n)
  else if n <? 0x100000000 then Ok (xc9 :: be_bytes 4 n)
  else Raise ValueError.

Definition pack_str (s : pystr) : result bytes :=
  u <- Utf8.encode s ;;
  h <- str_header (N.of_nat (List.length u)) ;;
  Ok (h ++ u).

Definition pack_ext (code : Z) (data : bytes) : result bytes :=
  if ((code <? -128) || (127 <? code))%Z then Raise ValueError
  else
    h <- ext_header (N.of_nat (List.length data)) ;;
    Ok (h ++ byte_of (Z.to_N (code mod 256)) :: data).

(** [Timestamp.to_bytes]. *)
Definition timestamp_bytes (seconds : Z) (nanoseconds : N) : bytes :=
  if ((0 <=? seconds) && (seconds <? 2 ^ 34))%Z then
    let data64 := N.shiftl nanoseconds 34 + Z.to_N seconds in
    if data64 <? 0x100000000 then be_bytes 4 data64 else be_bytes 8 data64
  else
    be_bytes 4 nanoseconds ++ be_bytes 8 (Z.to_N (seconds mod 2 ^ 64)).

(** [Packer._pack]: [nest_limit] starts at 511 and drops by one inside
    every list and dict. *)
Fixpoint pack (nest_limit : Z) (o : pyobj) {struct o} : result bytes :=
  if (nest_limit <? 0)%Z then Raise ValueError
  else
    match o with
    | PyNone => Ok [xc0]
    | PyBool false => Ok [xc2]
    | PyBool true => Ok [xc3]
    | PyInt z => pack_int z
    | PyFloat bits =>
        Ok ((if Nat.eqb (List.length bits) 4 then xca else xcb) :: bits)
    | PyStr s => pack_str s
    | PyBytes b =>
        h <- bin_header (N.of_nat (List.length b)) ;; Ok (h ++ b)
    | PyList l =>
        h <- array_header (N.of_nat (List.length l)) ;;
        (fix each (l : list pyobj) (acc : bytes) : result bytes :=
           match l with
           | [] => Ok acc
           | x :: l' =>
               bx <- pack (nest_limit - 1) x ;; each l' (acc ++ bx)
           end) l h
    | PyDict d =>
        h <- map_header (N.of_nat (List.length d)) ;;
        (fix each (d : pydict) (acc : bytes) : result bytes :=
           match d with
           | [] => Ok acc
           | (k, v) :: d' =>
               bk <- pack (nest_limit - 1) k ;;
               bv <- pack (nest_limit - 1) v ;;
               each d' (acc ++ bk ++ bv)
           end) d h
    | PyTimestamp s ns => pack_ext (-1) (timestamp_bytes s ns)
    | PyExt code data =>
        if (code <? 0)%Z then Raise ValueError else pack_ext code data
    end.

Definition packb (o : pyobj) : result bytes := pack 511 o.

(* ----------------------------------------------------------------- *)
(** *** Unpacking *)

(** The unpacker keeps at most 1024 open containers. *)
Definition max_depth : nat := 1024.

Definition is_map_key (k : pyobj) : bool :=
  match k with
  | PyStr _ | PyBytes _ => true
  | _ => false
  end.

Definition unpack_str (n : N) (bs : bytes) : result (pyobj * bytes) :=
  '(h, r) <- take n bs ;;
  s <- Utf8.decode h ;;
  Ok (PyStr s, r).

Definition unpack_bin (n : N) (bs : bytes) : result (pyobj * bytes) :=
  '(h, r) <- take n bs ;; Ok (PyBytes h, r).

(** An extension value of [n] data bytes after its type byte; type -1 is
    the timestamp, whose nanoseconds must stay below 10^9.  Every other
    type goes to the default [ext_hook], the constructor [ExtType], which
    raises [ValueError] unless the type code is within 0..127. *)
Definition unpack_ext (n : N) (bs : bytes) : result (pyobj * bytes) :=
  '(c, r0) <- sint 1 bs ;;
  '(data, r) <- take n r0 ;;
  if (c =? -1)%Z then
    if n =? 4 then Ok (PyTimestamp (Z.of_N (be_value data 0)) 0, r)
    else if n =? 8 then
      let v := be_value data 0 in
      let ns := N.shiftr v 34 in
      if ns <? 1000000000
      then Ok (PyTimestamp (Z.of_N (N.land v 0x3ffffffff)) ns, r)
      else Raise ValueError
    else if n =? 12 then
      let ns := be_value (firstn 4 data) 0 in
      if ns <? 1000000000
      then Ok (PyTimestamp (signed 8 (be_value (skipn 4 data) 0)) ns, r)
      else Raise ValueError
    else Raise ValueError
  else if (c <? 0)%Z then Raise ValueError
  else Ok (PyExt c data, r).

Fixpoint items (f : bytes -> result (pyobj * bytes)) (k : nat) (bs : bytes)
  : result (list pyobj * bytes) :=
  match k with
  | O => Ok ([], bs)
  | S k' =>
      '(x, r1) <- f bs ;;
      '(xs, r2) <- items f k' r1 ;;
      Ok (x :: xs, r2)
  end.

(** The entries of a map: key, then value, then the key check and the
    insertion into the dict under construction. *)
Fixpoint entries (f : bytes -> result (pyobj * bytes)) (k : nat) (bs : bytes)
  (d : pydict) : result (pydict * bytes) :=
  match k with
  | O => Ok (d, bs)
  | S k' =>
      '(key, r1) <- f bs ;;
      '(v, r2) <- f r1 ;;
      if is_map_key key then entries f k' r2 (dict_set key v d)
      else Raise ValueError
  end.

Definition unpack_array (f : bytes -> result (pyobj * bytes)) (limit n : N)
  (bs : bytes) : result (pyobj * bytes) :=
  if limit <? n then Raise ValueError
  else '(l, r) <- items f (N.to_nat n) bs ;; Ok (PyList l, r).

Definition unpack_map (f : bytes -> result (pyobj * bytes)) (limit n : N)
  (bs : bytes) : result (pyobj * bytes) :=
  if limit / 2 <? n then Raise ValueError
  else '(d, r) <- entries f (N.to_nat n) bs [] ;; Ok (PyDict d, r).

(** One object off the front of the buffer.  [limit] is the length of the
    whole input (the default of every [max_*_len]); [depth] is the number
    of containers that may still be opened. *)
Fixpoint unpack (limit : N) (depth : nat) (bs : bytes) {struct depth}
  : result (pyobj * bytes) :=
  let array n r :=
    match depth with
    | O => Raise StackError
    | S d => unpack_array (unpack limit d) limit n r
    end in
  let map n r :=
    match depth with
    | O => Raise StackError
    | S d => unpack_map (unpack limit d) limit n r
    end in
  match bs with
  | [] => Raise ValueError
  | b :: r =>
    let n := Byte.to_N b in
    if n <? 0x80 then Ok (PyInt (Z.of_N n), r)
    else if n <? 0x90 then map (n - 0x80) r
    else if n <? 0xa0 then array (n - 0x90) r
    else if n <? 0xc0 then unpack_str (n - 0xa0) r
    else if 0xe0 <=? n then Ok (PyInt (Z.of_N n - 256), r)
    else
      match n with
      | 0xc0 => Ok (PyNone, r)
      | 0xc2 => Ok (PyBool false, r)
      | 0xc3 => Ok (PyBool true, r)
      | 0xc4 => '(k, r') <- uint 1 r ;; unpack_bin k r'
      | 0xc5 => '(k, r') <- uint 2 r ;; unpack_bin k r'
      | 0xc6 => '(k, r') <- uint 4 r ;; unpack_bin k r'
      | 0xc7 => '(k, r') <- uint 1 r ;; unpack_ext k r'
      | 0xc8 => '(k, r') <- uint 2 r ;; unpack_ext k r'
      | 0xc9 => '(k, r') <- uint 4 r ;; unpack_ext k r'
      | 0xca => '(h, r') <- take 4 r ;; Ok (PyFloat h, r')
      | 0xcb => '(h, r') <- take 8 r ;; Ok (PyFloat h, r')
      | 0xcc => '(k, r') <- uint 1 r ;; Ok (PyInt (Z.of_N k), r')
      | 0xcd => '(k, r') <- uint 2 r ;; Ok (PyInt (Z.of_N k), r')
      | 0xce => '(k, r') <- uint 4 r ;; Ok (PyInt (Z.of_N k), r')
      | 0xcf => '(k, r') <- uint 8 r ;; Ok (PyInt (Z.of_N k), r')
      | 0xd0 => '(z, r') <- sint 1 r ;; Ok (PyInt z, r')
      | 0xd1 => '(z, r') <- sint 2 r ;; Ok (PyInt z, r')
      | 0xd2 => '(z, r') <- sint 4 r ;; Ok (PyInt z, r')
      | 0xd3 => '(z, r') <- sint 8 r ;; Ok (PyInt z, r')
      | 0xd4 => unpack_ext 1 r
      | 0xd5 => unpack_ext 2 r
      | 0xd6 => unpack_ext 4 r
      | 0xd7 => unpack_ext 8 r
      | 0xd8 => unpack_ext 16 r
      | 0xd9 => '(k, r') <- uint 1 r ;; unpack_str k r'
      | 0xda => '(k, r') <- uint 2 r ;; unpack_str k r'
      | 0xdb => '(k, r') <- uint 4 r ;; unpack_str k r'
      | 0xdc => '(k, r') <- uint 2 r ;; array k r'
      | 0xdd => '(k, r') <- uint 4 r ;; array k r'
      | 0xde => '(k, r') <- uint 2 r ;; map k r'
      | 0xdf => '(k, r') <- uint 4 r ;; map k r'
      | _ => Raise FormatError
      end
  end.

(** [msgpack.unpackb(data)]: one object, and nothing after it. *)
Definition unpackb (data : bytes) : result pyobj :=
  '(o, rest) <- unpack (N.of_nat (List.length data)) max_depth data ;;
  match rest with
  | [] => Ok o
  | _ :: _ => Raise ExtraData
  end.

End Msgpack.

(* ================================================================= *)
(** ** The agent: [flytekitplugins/bigquery/agent.py] *)

Module Agent.
Local Open Scope result_scope.

(* ----------------------------------------------------------------- *)
(** *** Data model *)

(** The generic job states. *)
Inductive State : Type := QUEUED | RUNNING | SUCCEEDED | FAILED.

Definition State_eqb (a b : State) : bool :=
  match a, b with
  | QUEUED, QUEUED | RUNNING, RUNNING
  | SUCCEEDED, SUCCEEDED | FAILED, FAILED => true
  | _, _ => false
  end.

(** The types that key [pythonTypeToBigQueryType]; [py_other] is any other
    class ([datetime.timedelta], [dict], [typing.List[int]], ...). *)
Inductive pytype : Type :=
| py_list | py_bool | py_bytes | py_datetime | py_float | py_int | py_str
| py_other (name : pystr).

Definition pytype_eqb (a b : pytype) : bool :=
  match a, b with
  | py_list, py_list | py_bool, py_bool | py_bytes, py_bytes
  | py_datetime, py_datetime | py_float, py_float | py_int, py_int
  | py_str, py_str => true
  | py_other x, py_other y => pystr_eqb x y
  | _, _ => false
  end.

Definition pythonTypeToBigQueryType : list (pytype * pystr) :=
  [ (py_list, lit "ARRAY");
    (py_bool, lit "BOOL");
    (py_bytes, lit "BYTES");
    (py_datetime, lit "DATETIME");
    (py_float, lit "FLOAT64");
    (py_int, lit "INT64");
    (py_str, lit "STRING") ].

(** [@dataclass class Metadata: job_id: str].  The annotation is not
    enforced by Python, so the field holds whatever object it is given. *)
Record Metadata : Type := { job_id : pyobj }.

(** [dataclasses.asdict]. *)
Definition asdict (m : Metadata) : pyobj :=
  PyDict [(PyStr (lit "job_id"), job_id m)].

(** The constructor call with [o] unpacked as keyword arguments: [o] must
    be a mapping, its keys must be strings, and they must be exactly the
    one field name; anything else is a [TypeError]. *)
Definition Metadata_kwargs (o : pyobj) : result Metadata :=
  match o with
  | PyDict d =>
      if forallb (fun kv => match fst kv with PyStr _ => true | _ => false end) d
      then
        match dict_get (PyStr (lit "job_id")) d with
        | Some v =>
            if Nat.eqb (List.length d) 1 then Ok {| job_id := v |}
            else Raise TypeError
        | None => Raise TypeError
        end
      else Raise TypeError
  | _ => Raise TypeError
  end.

(** [flytekit.models.types]. *)
Inductive SimpleType : Type :=
| NONE | INTEGER | FLOAT | STRING | BOOLEAN | DATETIME | DURATION | BINARY
| ERROR | STRUCT.

Record StructuredDatasetType : Type := { format : pystr }.

Inductive LiteralType : Type :=
| LtSimple (s : SimpleType)
| LtCollection (t : LiteralType)
| LtMapValue (t : LiteralType)
| LtStructuredDataset (t : StructuredDatasetType).

(** [flytekit.models.literals]: a generic tagged value. *)
#[warnings="-register-all"]
Inductive Literal : Type :=
| LitPrimitive (v : pyobj)
| LitStructuredDataset (uri : pystr) (metadata : StructuredDatasetType)
| LitCollection (l : list Literal).

(** An ordered mapping from parameter name to tagged value. *)
Definition LiteralMap := list (pystr * Literal).

(** [flytekit.StructuredDataset(uri=...)]: a reference, no dataframe. *)
Record StructuredDataset : Type := { uri : pystr }.

Record Sql : Type := { statement : pystr }.

Record TaskTemplate : Type := {
  interface_inputs : list (pystr * LiteralType);
  custom : option (list (pystr * pystr));
  sql : option Sql
}.

Record ScalarQueryParameter : Type := {
  sqp_name : pystr;
  sqp_type : pystr;
  sqp_value : pyobj
}.

Record QueryJobConfig : Type := {
  query_parameters : list ScalarQueryParameter
}.

Record TableReference : Type := {
  project : pystr;
  dataset_id : pystr;
  table_id : pystr
}.

(** What [get] reads of a backend job: [str(job.state)] and
    [job.destination], which the client leaves [None] when unset. *)
Record Job : Type := {
  state : pystr;
  destination : option TableReference
}.

Record CreateTaskResponse : Type := { resource_meta : bytes }.

Record Resource : Type := {
  res_state : State;
  outputs : option LiteralMap
}.

Record GetTaskResponse : Type := { resource : Resource }.

Inductive DeleteTaskResponse : Type := DeleteTaskResponse_ok.

(* ----------------------------------------------------------------- *)
(** *** The capabilities the agent calls *)

(** The conversions of [TypeEngine] that [create] uses. *)
Record TypeEngine : Type := {
  guess_python_type : LiteralType -> result pytype;
  literal_map_to_kwargs :
    LiteralMap -> list (pystr * pytype) -> result (list (pystr * pyobj))
}.

(** The backend behind [bigquery.Client]: what a submitted query, a status
    request and a cancellation answer. *)
Record JobBackend : Type := {
  query : pystr -> option QueryJobConfig -> result pystr;
  get_job : pyobj -> result Job;
  cancel_job : pyobj -> result unit
}.

(** Every interaction with the backend client, in order. *)
Inductive event : Type :=
| EvClient (args : option (pystr * pystr))
| EvQuery (stmt : pystr) (job_config : option QueryJobConfig)
| EvGetJob (id : pyobj)
| EvCancelJob (id : pyobj).

(** A computation that may raise and that extends the trace of backend
    interactions. *)
Definition trace (A : Type) : Type := list event -> result A * list event.

Definition tret {A} (a : A) : trace A := fun t => (Ok a, t).

Definition tbind {A B} (m : trace A) (k : A -> trace B) : trace B :=
  fun t =>
    match m t with
    | (Ok a, t') => k a t'
    | (Raise e, t') => (Raise e, t')
    end.

Definition lift {A} (r : result A) : trace A := fun t => (r, t).

Definition emit (e : event) : trace unit := fun t => (Ok tt, t ++ [e]).

Declare Scope trace_scope.
Delimit Scope trace_scope with trace.
Notation "x <- m ;; k" := (tbind m (fun x => k))
  (at level 61, m at next level, right associativity) : trace_scope.

(** [d[k]] on a dict with [str] keys. *)
Fixpoint getitem {V} (k : pystr) (d : list (pystr * V)) : result V :=
  match d with
  | [] => Raise KeyError
  | (k', v) :: d' => if pystr_eqb k k' then Ok v else getitem k d'
  end.

Fixpoint getitem_type {V} (k : pytype) (d : list (pytype * V)) : result V :=
  match d with
  | [] => Raise KeyError
  | (k', v) :: d' => if pytype_eqb k k' then Ok v else getitem_type k d'
  end.

(** A comprehension whose element expression may raise: the first
    exception ends it. *)
Fixpoint comprehension {A B} (f : A -> result B) (l : list A)
  : result (list B) :=
  match l with
  | [] => Ok []
  | x :: l' => y <- f x ;; ys <- comprehension f l' ;; Ok (y :: ys)
  end.

(* ----------------------------------------------------------------- *)
(** *** The three operations *)

Section Operations.

Variable type_engine : TypeEngine.
Variable backend : JobBackend.

(** The lookup table of the State Translator: backend status to generic
    state.  Its keys are the mapped status domain. *)
Variable status_table : list (pystr * State).

(** [json.loads]. *)
Variable json_loads : pystr -> result pyobj.

(** Modelled from the spec: [convert_to_flyte_state] of
    [flytekit.extend.backend.base_agent] is not among the sources.  The
    State Translator is a pure lookup in a table, with a default of
    RUNNING for every status the table does not map. *)
Definition convert_to_flyte_state (s : pystr) : State :=
  match getitem s status_table with
  | Ok st => st
  | Raise _ => RUNNING
  end.

(** Modelled from the spec: [TypeEngine.to_literal] is not among the
    sources.  Given a backend-native result location and the declared
    structured-dataset type, the Type Bridge produces a generic tagged
    value that wraps the locator; the data itself is not read. *)
Definition to_literal (python_val : StructuredDataset) (expected : LiteralType)
  : result Literal :=
  match expected with
  | LtStructuredDataset sdt => Ok (LitStructuredDataset (uri python_val) sdt)
  | _ => Raise TypeError
  end.

(** [bigquery.Client(...)]. *)
Definition Client (args : option (pystr * pystr)) : trace unit :=
  emit (EvClient args).

Definition client_query (stmt : pystr) (job_config : option QueryJobConfig)
  : trace pystr :=
  (_ <- emit (EvQuery stmt job_config) ;; lift (query backend stmt job_config))%trace.

Definition client_get_job (id : pyobj) : trace Job :=
  (_ <- emit (EvGetJob id) ;; lift (get_job backend id))%trace.

Definition client_cancel_job (id : pyobj) : trace unit :=
  (_ <- emit (EvCancelJob id) ;; lift (cancel_job backend id))%trace.

(** The dict [python_interface_inputs] of [create]: the Python type
    guessed for every input that the interface of the template declares. *)
Definition python_interface_inputs (task_template : TaskTemplate)
  : result (list (pystr * pytype)) :=
  comprehension
    (fun nlt => t <- guess_python_type type_engine (snd nlt) ;; Ok (fst nlt, t))
    (interface_inputs task_template).

(** The BigQuery parameter type of the input called [name]: the entry of
    [pythonTypeToBigQueryType] for its declared Python type. *)
Definition bigquery_type (types : list (pystr * pytype)) (name : pystr)
  : result pystr :=
  t <- getitem name types ;; getitem_type t pythonTypeToBigQueryType.

(** The body of [if inputs:] in [create], up to the job configuration. *)
Definition job_config_of_inputs (task_template : TaskTemplate)
  (inputs : LiteralMap) : result QueryJobConfig :=
  python_interface_inputs <- python_interface_inputs task_template ;;
  native_inputs <-
    literal_map_to_kwargs type_engine inputs python_interface_inputs ;;
  params <-
    comprehension
      (fun nv =>
         bq <- bigquery_type python_interface_inputs (fst nv) ;;
         Ok {| sqp_name := fst nv; sqp_type := bq; sqp_value := snd nv |})
      native_inputs ;;
  Ok {| query_parameters := params |}.

(** [BigQueryAgent.create].  A [LiteralMap] object is truthy whenever it
    is not [None]. *)
Definition create (output_prefix : pystr) (task_template : TaskTemplate)
  (inputs : option LiteralMap) : trace CreateTaskResponse :=
  (job_config <-
     match inputs with
     | Some lm =>
         lift (c <- job_config_of_inputs task_template lm ;; Ok (Some c))%result
     | None => tret None
     end ;;
   project_id <-
     lift (match custom task_template with
           | Some c => getitem (lit "ProjectID") c
           | None => Raise TypeError
           end) ;;
   location <-
     lift (match custom task_template with
           | Some c => getitem (lit "Location") c
           | None => Raise TypeError
           end) ;;
   _ <- Client (Some (project_id, location)) ;;
   stmt <-
     lift (match sql task_template with
           | Some q => Ok (statement q)
           | None => Raise AttributeError
           end) ;;
   query_job_id <- client_query stmt job_config ;;
   meta <- lift (Msgpack.packb (asdict {| job_id := PyStr query_job_id |})) ;;
   tret {| resource_meta := meta |})%trace.

(** [BigQueryAgent.get]. *)
Definition get (resource_meta : bytes) : trace GetTaskResponse :=
  (_ <- Client None ;;
   metadata <-
     lift (o <- Msgpack.unpackb resource_meta ;; Metadata_kwargs o)%result ;;
   job <- client_get_job (job_id metadata) ;;
   let cur_state := convert_to_flyte_state (state job) in
   res <-
     (if State_eqb cur_state SUCCEEDED then
        d <-
          lift (match destination job with
                | Some d => Ok d
                | None => Raise AttributeError
                end) ;;
        let output_location :=
          lit "bq://" ++ project d ++ lit ":" ++ dataset_id d
            ++ lit "." ++ table_id d in
        l <-
          lift (to_literal {| uri := output_location |}
                  (LtStructuredDataset {| format := lit EmptyString |})) ;;
        tret (Some [(lit "results", l)])
      else tret None) ;;
   idl <-
     lift (match res with
           | Some lm => Ok lm
           | None => Raise AttributeError
           end) ;;
   tret {| resource := {| res_state := cur_state; outputs := Some idl |} |})%trace.

(** [BigQueryAgent.delete]. *)
Definition delete (resource_meta : bytes) : trace DeleteTaskResponse :=
  (_ <- Client None ;;
   metadata <-
     lift (s <- Utf8.decode resource_meta ;;
           o <- json_loads s ;;
           Metadata_kwargs o)%result ;;
   _ <- client_cancel_job (job_id metadata) ;;
   tret DeleteTaskResponse_ok)%trace.

(** The metadata codec as [create] and [get] use it. *)
Definition encode_metadata (m : Metadata) : result bytes :=
  Msgpack.packb (asdict m).

Definition decode_metadata (token : bytes) : result Metadata :=
  o <- Msgpack.unpackb token ;; Metadata_kwargs o.

(** The key of the one field, packed: [msgpack.packb("job_id")]. *)
Definition job_id_key : bytes := [xa6; x6a; x6f; x62; x5f; x69; x64].

(** A valid record: its job identifier is a [str] without lone surrogates
    whose UTF-8 form is shorter than 2^32 bytes, the longest that msgpack
    can carry. *)
Definition valid_metadata (m : Metadata) : Prop :=
  exists s : pystr,
    job_id m = PyStr s
    /\ forallb Utf8.scalar s = true
    /\ (Utf8.encoded_length s < 0x100000000)%N.

(** [n] polls with the same token, one after the other. *)
Fixpoint poll (n : nat) (token : bytes) (t : list event)
  : list (result GetTaskResponse) * list event :=
  match n with
  | O => ([], t)
  | S n' =>
      let '(r, t1) := get token t in
      let '(rs, t2) := poll n' token t1 in
      (r :: rs, t2)
  end.

End Operations.

End Agent.

(* ================================================================= *)
(** ** The build command: [flytekit/clis/sdk_in_container/build.py] *)

Module Build.
Local Open Scope string_scope.
Local Open Scope result_scope.

(* ----------------------------------------------------------------- *)
(** *** [posixpath] and [pathlib] on path strings *)

(** [s.split("/")]. *)
Fixpoint split (s : string) : list string :=
  match s with
  | EmptyString => [EmptyString]
  | String c s' =>
      if Ascii.eqb c "/" then EmptyString :: split s'
      else
        match split s' with
        | [] => [String c EmptyString]
        | h :: t => String c h :: t
        end
  end.

(** [[x for x in p.split(sep) if x]]. *)
Definition components (p : string) : list string :=
  filter (fun x => negb (String.eqb x EmptyString)) (split p).

(** [os.path.commonprefix] of two component lists. *)
Fixpoint commonprefix (a b : list string) : list string :=
  match a, b with
  | x :: a', y :: b' => if String.eqb x y then x :: commonprefix a' b' else []
  | _, _ => []
  end.

Definition endswith (suffix s : string) : bool :=
  (String.length suffix <=? String.length s)%nat
  && String.eqb
       (substring (String.length s - String.length suffix)
          (String.length suffix) s)
       suffix.

(** One step of [posixpath.join]. *)
Definition join_step (path b : string) : string :=
  if String.prefix "/" b then b
  else if String.eqb path EmptyString || endswith "/" path then path ++ b
  else path ++ "/" ++ b.

Definition join (a : string) (p : list string) : string :=
  fold_left join_step p a.

(** [os.path.relpath(path, start)] for two absolute, normalised paths (on
    those [abspath] is the identity). *)
Definition relpath (path start : string) : string :=
  let start_list := components start in
  let path_list := components path in
  let i := List.length (commonprefix start_list path_list) in
  let rel_list :=
    (repeat ".." (List.length start_list - i) ++ skipn i path_list)%list in
  match rel_list with
  | [] => "."
  | a :: p => join a p
  end.

Fixpoint is_prefix (a b : list string) : bool :=
  match a, b with
  | [], _ => true
  | x :: a', y :: b' => String.eqb x y && is_prefix a' b'
  | _ :: _, [] => false
  end.

(** [PurePath.relative_to] between two absolute paths, as a string. *)
Definition relative_to (p other : string) : result string :=
  let pl := components p in
  let ol := components other in
  if is_prefix ol pl then
    match skipn (List.length ol) pl with
    | [] => Ok "."
    | a :: r => Ok (join a r)
    end
  else Raise ValueError.

(** [s.rfind(c)], [None] for -1. *)
Fixpoint rfind_from (c : ascii) (s : string) (i : nat) (last : option nat)
  : option nat :=
  match s with
  | EmptyString => last
  | String x s' =>
      rfind_from c s' (S i) (if Ascii.eqb x c then Some i else last)
  end.

Definition rfind (c : ascii) (s : string) : option nat :=
  rfind_from c s 0 None.

Fixpoint all_dots (s : string) : bool :=
  match s with
  | EmptyString => true
  | String x s' => Ascii.eqb x "." && all_dots s'
  end.

(** [os.path.splitext]: the extension starts at the last dot of the last
    component, unless only dots precede it there. *)
Definition splitext (p : string) : string * string :=
  let filenameIndex :=
    match rfind "/" p with Some s => S s | None => O end in
  match rfind "." p with
  | Some dotIndex =>
      if (filenameIndex <=? dotIndex)%nat
         && negb (all_dots (substring filenameIndex (dotIndex - filenameIndex) p))
      then (substring 0 dotIndex p,
            substring dotIndex (String.length p - dotIndex) p)
      else (p, EmptyString)
  | None => (p, EmptyString)
  end.

(** [s.replace(old, new)] for one-character [old] and [new]. *)
Fixpoint replace (old new : ascii) (s : string) : string :=
  match s with
  | EmptyString => EmptyString
  | String x s' => String (if Ascii.eqb x old then new else x) (replace old new s')
  end.

(* ----------------------------------------------------------------- *)
(** *** [fnmatch] patterns, as [Path.glob] compiles them *)

Inductive token : Type :=
| Star
| AnyChar
| Char (c : ascii).

(** [fnmatch.translate] on a pattern without brackets. *)
Fixpoint translate (pat : string) : list token :=
  match pat with
  | EmptyString => []
  | String c pat' =>
      (if Ascii.eqb c "*" then Star
       else if Ascii.eqb c "?" then AnyChar
       else Char c) :: translate pat'
  end.

(** A full match of the name against the compiled pattern. *)
Fixpoint fullmatch (p : list token) (s : string) {struct p} : bool :=
  match p with
  | [] => match s with EmptyString => true | _ => false end
  | Star :: p' =>
      (fix star (s : string) : bool :=
         fullmatch p' s
         || match s with
            | EmptyString => false
            | String _ s' => star s'
            end) s
  | AnyChar :: p' =>
      match s with
      | EmptyString => false
      | String _ s' => fullmatch p' s'
      end
  | Char c :: p' =>
      match s with
      | EmptyString => false
      | String x s' => Ascii.eqb c x && fullmatch p' s'
      end
  end.

(** What [os.scandir] sees in a directory. *)
#[warnings="-register-all"]
Inductive node : Type :=
| File (name : string)
| Dir (name : string) (children : list node).

Definition node_name (e : node) : string :=
  match e with
  | File n => n
  | Dir n _ => n
  end.

(** [Path(".").glob(pattern)] for a one-component wildcard pattern: the
    entries of the directory whose name matches, files and directories
    alike, in the order of the scan; [str] of each is its name. *)
Definition glob (pattern : string) (entries : list node) : list string :=
  filter (fullmatch (translate pattern)) (map node_name entries).

(** [BuildCommand.list_commands]. *)
Definition list_commands (cwd_entries : list node) : list string :=
  filter (fun p => negb (String.eqb p "__init__.py")) (glob "*.py" cwd_entries).

(** A component that [posixpath.join] appends instead of restarting from. *)
Definition unanchored (x : string) : Prop := String.prefix "/" x = false.

(** The wording of the documentation: a name that ends in [.py]. *)
Definition ends_with_py (name : string) : Prop :=
  exists stem : string, name = stem ++ ".py".

(* ----------------------------------------------------------------- *)
(** *** [WorkflowCommand.get_command] *)

(** A value of the run-level parameters. *)
Inductive cval : Type :=
| CStr (s : string)
| CBool (b : bool)
| CNone.

Definition params := list (string * cval).

(** What [get_command] can change: [ctx.obj] of the click context (a dict
    of parameter dicts once it is set) and the entities loaded so far,
    each with the module, the name and the project root it was asked
    with. *)
Record world : Type := {
  ctx_obj : option (list (string * params));
  loaded : list (string * string * string)
}.

(** A command step: it may raise, and it may change the world. *)
Definition step (A : Type) : Type := world -> result A * world.

Definition sret {A} (a : A) : step A := fun w => (Ok a, w).

Definition sraise {A} (e : exn) : step A := fun w => (Raise e, w).

Definition sbind {A B} (m : step A) (k : A -> step B) : step B :=
  fun w =>
    match m w with
    | (Ok a, w') => k a w'
    | (Raise e, w') => (Raise e, w')
    end.

Declare Scope step_scope.
Delimit Scope step_scope with step.
Notation "x <- m ;; k" := (sbind m (fun x => k))
  (at level 61, m at next level, right associativity) : step_scope.

Fixpoint lookup {V} (k : string) (d : list (string * V)) : option V :=
  match d with
  | [] => None
  | (k', v) :: d' => if String.eqb k k' then Some v else lookup k d'
  end.

Fixpoint setitem {V} (k : string) (v : V) (d : list (string * V))
  : list (string * V) :=
  match d with
  | [] => [(k, v)]
  | (k', v') :: d' =>
      if String.eqb k k' then (k', v) :: d' else (k', v') :: setitem k v d'
  end.

(** [d.get(k)]: the value, or [None] when the key is absent. *)
Definition get_param (k : string) (d : params) : cval :=
  match lookup k d with
  | Some v => v
  | None => CNone
  end.

(** The truth value of a parameter value. *)
Definition truthy (v : cval) : bool :=
  match v with
  | CStr s => negb (String.eqb s EmptyString)
  | CBool b => b
  | CNone => false
  end.

(** The module name that [get_command] derives from the path relative to
    the project root: the extension is dropped and every separator becomes
    a dot. *)
Definition module_name (rel_path : string) : string :=
  replace "/" "." (fst (splitext rel_path)).

(** A path component: not empty, and without a separator in it. *)
Fixpoint no_sep (s : string) : bool :=
  match s with
  | EmptyString => true
  | String c s' => negb (Ascii.eqb c "/") && no_sep s'
  end.

Definition plain (c : string) : Prop := c <> EmptyString /\ no_sep c = true.

(** The character [c] does not occur in [s]. *)
Fixpoint without (c : ascii) (s : string) : bool :=
  match s with
  | EmptyString => true
  | String x s' => negb (Ascii.eqb x c) && without c s'
  end.

(** The parameter names that [_build] reads. *)
Definition build_params : list string :=
  ["service_account"; "project"; "domain"; "fast"]%string.

(** The command object: [self._filename] is the resolved path. *)
Record WorkflowCommand : Type := { _filename : string }.

Section GetCommand.

(** A loaded workflow or task. *)
Variable entity : Type.

(** The constants of [constants.py] and [run.py]. *)
Variable RUN_LEVEL_PARAMS_KEY : string.
Variable CTX_PROJECT_ROOT : string.
Variable CTX_MODULE : string.

(** [flytekit.tools.script_mode._find_project_root]. *)
Variable _find_project_root : string -> string.

(** What [run.load_naive_entity] finds for a module, a name and a root. *)
Variable load_naive_entity : string -> string -> string -> result entity.

Record Command : Type := {
  name : string;
  callback : entity;
  help : string
}.

(** [ctx.obj[RUN_LEVEL_PARAMS_KEY][key] = v]. *)
Definition set_run_level_param (key : string) (v : cval) : step unit :=
  fun w =>
    match ctx_obj w with
    | None => (Raise TypeError, w)
    | Some o =>
        match lookup RUN_LEVEL_PARAMS_KEY o with
        | None => (Raise KeyError, w)
        | Some ps =>
            (Ok tt,
             {| ctx_obj := Some (setitem RUN_LEVEL_PARAMS_KEY (setitem key v ps) o);
                loaded := loaded w |})
        end
    end.

Definition load (module exe_entity project_root : string) : step entity :=
  fun w =>
    (load_naive_entity module exe_entity project_root,
     {| ctx_obj := ctx_obj w;
        loaded := (loaded w ++ [(module, exe_entity, project_root)])%list |}).

(** [WorkflowCommand.get_command]; [cwd] is [os.getcwd()]. *)
Definition get_command (self : WorkflowCommand) (cwd : string)
  (exe_entity : string) : step Command :=
  let rel_path := relpath (_filename self) cwd in
  if String.prefix ".." rel_path then sraise ValueError
  else
    (let project_root := _find_project_root (_filename self) in
     match relative_to (_filename self) project_root with
     | Raise e => sraise e
     | Ok rel_path =>
         let module := replace "/" "." (fst (splitext rel_path)) in
         _ <- set_run_level_param CTX_PROJECT_ROOT (CStr project_root) ;;
         _ <- set_run_level_param CTX_MODULE (CStr module) ;;
         entity <- load module exe_entity project_root ;;
         sret {| name := exe_entity;
                 callback := entity;
                 help := "Build an image for " ++ module ++ "." ++ exe_entity ++ "." |}
     end)%step.

(** [BuildCommand.get_command]: a truthy [ctx.obj] (a dict that is not
    empty) receives the parameters of the build command under
    [RUN_LEVEL_PARAMS_KEY]; the command for the file holds its resolved
    path.  [resolve] is [pathlib.Path.resolve]. *)
Definition build_get_command (resolve : string -> string)
  (ctx_params : params) (filename : string) : step WorkflowCommand :=
  fun w =>
    (Ok {| _filename := resolve filename |},
     match ctx_obj w with
     | Some (kv :: o) =>
         {| ctx_obj := Some (setitem RUN_LEVEL_PARAMS_KEY ctx_params (kv :: o));
            loaded := loaded w |}
     | _ => w
     end).

(** [ImageConfig.auto_default_image()]. *)
Variable image : Type.
Variable auto_default_image : image.

Record Options : Type := { k8s_service_account : cval }.

Record SerializationSettings : Type := {
  project : cval;
  domain : cval;
  image_config : image;
  source_root : cval
}.

(** The call of [get_serializable] that the callback ends with. *)
Record serialize_call : Type := {
  settings : SerializationSettings;
  call_entity : entity;
  options : option Options
}.

(** The callback [_build] that [build_command] returns for an entity, up
    to its call of [get_serializable]. *)
Definition _build (e : entity) (w : world) : result serialize_call :=
  match ctx_obj w with
  | None => Raise TypeError
  | Some o =>
      match lookup RUN_LEVEL_PARAMS_KEY o with
      | None => Raise KeyError
      | Some run_level_params =>
          let service_account := get_param "service_account" run_level_params in
          let opts :=
            if truthy service_account
            then Some {| k8s_service_account := service_account |}
            else None in
          Ok {| settings :=
                  {| project := get_param "project" run_level_params;
                     domain := get_param "domain" run_level_params;
                     image_config := auto_default_image;
                     source_root :=
                       if negb (truthy (get_param "fast" run_level_params))
                       then get_param CTX_PROJECT_ROOT run_level_params
                       else CNone |};
                call_entity := e;
                options := opts |}
      end
  end.

End GetCommand.

End Build.

(* ================================================================= *)
(** ** Stub collaborators and sample inputs *)

Module Examples.
Import Agent.

(** A translator table for the statuses of the stub backend. *)
Definition stub_table : list (pystr * State) :=
  [ (lit "PENDING", QUEUED);
    (lit "RUNNING", RUNNING);
    (lit "DONE", SUCCEEDED);
    (lit "FAILED", FAILED) ].

Definition stub_destination : TableReference :=
  {| project := lit "proj"; dataset_id := lit "ds"; table_id := lit "tbl" |}.

(** A backend that accepts every query as job [job-1], reports every job
    in the given status, and accepts every cancellation. *)
Definition stub_backend (status : pystr) : JobBackend :=
  {| query := fun _ _ => Ok (lit "job-1");
     get_job := fun _ =>
       Ok {| state := status; destination := Some stub_destination |};
     cancel_job := fun _ => Ok tt |}.

(** A type engine for the simple types and for primitive literals. *)
Definition stub_type_engine : TypeEngine :=
  {| guess_python_type := fun lt =>
       match lt with
       | LtSimple INTEGER => Ok py_int
       | LtSimple FLOAT => Ok py_float
       | LtSimple STRING => Ok py_str
       | LtSimple BOOLEAN => Ok py_bool
       | LtSimple DATETIME => Ok py_datetime
       | LtSimple DURATION => Ok (py_other (lit "datetime.timedelta"))
       | LtSimple STRUCT => Ok (py_other (lit "dict"))
       | _ => Raise ValueError
       end;
     literal_map_to_kwargs := fun lm _ =>
       comprehension
         (fun nl =>
            match snd nl with
            | LitPrimitive v => Ok (fst nl, v)
            | _ => Raise TypeError
            end)
         lm |}.

Definition stub_json_loads (s : pystr) : result pyobj := Raise ValueError.

Definition stub_custom : option (list (pystr * pystr)) :=
  Some [(lit "ProjectID", lit "p"); (lit "Location", lit "US")].

(** A query task with one integer input [x]. *)
Definition int_template : TaskTemplate :=
  {| interface_inputs := [(lit "x", LtSimple INTEGER)];
     custom := stub_custom;
     sql := Some {| statement := lit "SELECT @x" |} |}.

Definition int_inputs : LiteralMap := [(lit "x", LitPrimitive (PyInt 5))].

(** A query task with one input [d] of a duration type, which has no
    BigQuery parameter type. *)
Definition duration_template : TaskTemplate :=
  {| interface_inputs := [(lit "d", LtSimple DURATION)];
     custom := stub_custom;
     sql := Some {| statement := lit "SELECT @d" |} |}.

Definition duration_inputs : LiteralMap :=
  [(lit "d", LitPrimitive (PyInt 60))].

(** [msgpack.packb({"job_id": "job-1"})]. *)
Definition token_job1 : bytes :=
  [x81; xa6; x6a; x6f; x62; x5f; x69; x64; xa5; x6a; x6f; x62; x2d; x31].

End Examples.

(* ================================================================= *)
(** * Properties *)

(* ----------------------------------------------------------------- *)
(** ** The build command *)

Module BuildFacts.
Import Build.
Local Open Scope string_scope.

Lemma prefix_app (s a x : string) :
  String.prefix s a = true -> String.prefix s (a ++ x) = true.
Proof.
  revert a. induction s as [|c s IH]; intros a H.
  - now destruct (a ++ x).
  - destruct a as [|d a]; simpl in *; [discriminate|].
    destruct (ascii_dec c d); [now apply IH | discriminate].
Qed.

Lemma unanchored_cons (c : ascii) (h : string) :
  Ascii.eqb c "/" = false -> unanchored (String c h).
Proof.
  intros E. unfold unanchored.
  change (String.prefix "/" (String c h))
    with (if ascii_dec "/" c then String.prefix EmptyString h else false).
  destruct (ascii_dec "/" c) as [e|]; [|reflexivity].
  rewrite <- e in E. discriminate E.
Qed.

Lemma split_unanchored (s : string) : Forall unanchored (split s).
Proof.
  induction s as [|c s IH]; simpl.
  - repeat constructor.
  - destruct (Ascii.eqb c "/") eqn:E.
    + constructor; [reflexivity | exact IH].
    + destruct (split s) as [|h t].
      * constructor; [|constructor]. now apply unanchored_cons.
      * inversion IH; subst. constructor; [|assumption].
        now apply unanchored_cons.
Qed.

Lemma components_unanchored (p : string) : Forall unanchored (components p).
Proof.
  unfold components. apply Forall_forall. intros x Hx.
  apply filter_In in Hx. destruct Hx as [Hx _].
  pose proof (split_unanchored p) as H.
  rewrite Forall_forall in H. now apply H.
Qed.

Lemma Forall_skipn {A} (P : A -> Prop) (n : nat) (l : list A) :
  Forall P l -> Forall P (skipn n l).
Proof.
  revert l. induction n as [|n IH]; intros l H; simpl; [exact H|].
  destruct l; [constructor|]. inversion H; subst. now apply IH.
Qed.

Lemma join_keeps_prefix (s a : string) (p : list string) :
  String.prefix s a = true -> Forall unanchored p ->
  String.prefix s (join a p) = true.
Proof.
  revert a. induction p as [|b p IH]; intros a Ha Hp; simpl; [exact Ha|].
  inversion Hp as [|? ? Hb Hp']; subst.
  apply IH; [|exact Hp'].
  unfold join_step. rewrite Hb.
  destruct (String.eqb a EmptyString || endswith "/" a); now apply prefix_app.
Qed.

Lemma commonprefix_short (a b : list string) :
  is_prefix a b = false ->
  (List.length (commonprefix a b) < List.length a)%nat.
Proof.
  revert b. induction a as [|x a IH]; intros b H; simpl in *; [discriminate|].
  destruct b as [|y b]; simpl; [lia|].
  destruct (String.eqb x y); simpl in *; [|lia].
  specialize (IH b H). lia.
Qed.

(** A path that is not below the start has a relative path that climbs. *)
Lemma relpath_climbs (path start : string) :
  is_prefix (components start) (components path) = false ->
  String.prefix ".." (relpath path start) = true.
Proof.
  intros H. unfold relpath.
  pose proof (commonprefix_short _ _ H) as Hlt.
  set (i := List.length (commonprefix (components start) (components path))) in *.
  destruct (List.length (components start) - i)%nat as [|k] eqn:Ek; [lia|].
  simpl. apply join_keeps_prefix; [reflexivity|].
  apply Forall_app. split.
  - apply Forall_forall. intros x Hx. apply repeat_spec in Hx. now subst.
  - apply Forall_skipn, components_unanchored.
Qed.

(** The guard of [get_command]: a relative path that starts with [..]
    ends the call with [ValueError] in the world it started in. *)
Lemma get_command_guard (entity : Type) (k_run k_root k_module : string)
  (find_root : string -> string)
  (load_entity : string -> string -> string -> result entity)
  (self : WorkflowCommand) (cwd exe_entity : string) (w : world) :
  String.prefix ".." (relpath (_filename self) cwd) = true ->
  get_command k_run k_root k_module find_root load_entity self cwd exe_entity w
  = (Raise ValueError, w).
Proof.
  intros H. unfold get_command. now rewrite H.
Qed.

Lemma filter_filter {A} (f g : A -> bool) (l : list A) :
  filter f (filter g l) = filter (fun x => g x && f x) l.
Proof.
  induction l as [|x l IH]; [reflexivity|].
  cbn [filter]. destruct (g x); cbn [filter andb]; now rewrite IH.
Qed.

Lemma fullmatch_star (p : list token) (s : string) :
  fullmatch (Star :: p) s
  = fullmatch p s
    || match s with
       | EmptyString => false
       | String _ s' => fullmatch (Star :: p) s'
       end.
Proof. destruct s; reflexivity. Qed.

(** A star matches any prefix of the name. *)
Lemma fullmatch_star_spec (p : list token) (s : string) :
  fullmatch (Star :: p) s = true
  <-> exists pre suf : string, s = pre ++ suf /\ fullmatch p suf = true.
Proof.
  induction s as [|c s IH]; rewrite fullmatch_star.
  - rewrite orb_false_r. split.
    + intros H. now exists EmptyString, EmptyString.
    + intros (pre & suf & E & H).
      destruct pre; [|discriminate]. simpl in E. now subst.
  - rewrite orb_true_iff, IH. split.
    + intros [H | (pre & suf & E & H)].
      * now exists EmptyString, (String c s).
      * exists (String c pre), suf. simpl. now rewrite E.
    + intros (pre & suf & E & H). destruct pre as [|d pre]; simpl in E.
      * left. now subst.
      * right. injection E as _ E. now exists pre, suf.
Qed.

Lemma fullmatch_char (c : ascii) (p : list token) (s : string) :
  fullmatch (Char c :: p) s
  = match s with
    | EmptyString => false
    | String x s' => Ascii.eqb c x && fullmatch p s'
    end.
Proof. destruct s; reflexivity. Qed.

Ltac match_char H s :=
  rewrite fullmatch_char in H;
  let a := fresh "a" in
  let Ha := fresh "Ha" in
  destruct s as [|a s]; [discriminate H|];
  apply andb_true_iff in H; destruct H as [Ha H];
  apply Ascii.eqb_eq in Ha; subst a.

Lemma fullmatch_dot_py (s : string) :
  fullmatch [Char "."; Char "p"; Char "y"] s = true <-> s = ".py".
Proof.
  split.
  - intros H. match_char H s. match_char H s. match_char H s.
    destruct s; [reflexivity | discriminate H].
  - now intros ->.
Qed.

(** The pattern of [list_commands] selects the names that end in [.py]. *)
Lemma fullmatch_star_dot_py (name : string) :
  fullmatch (translate "*.py") name = true <-> ends_with_py name.
Proof.
  change (translate "*.py") with [Star; Char "."; Char "p"; Char "y"].
  rewrite fullmatch_star_spec. unfold ends_with_py. split.
  - intros (pre & suf & E & H). apply fullmatch_dot_py in H. subst. now exists pre.
  - intros (stem & E). exists stem, ".py". now split.
Qed.

End BuildFacts.

(** C9.  [WorkflowCommand.get_command]: when the resolved path of the file
    is not below the current working directory, its relative path from
    there starts with [..] and the call raises [ValueError] at once: the
    world it returns is the world it was given, so the click context is
    not changed and no entity has been loaded. *)
Theorem get_command_outside_cwd_raises
  (entity : Type) (k_run k_root k_module : string)
  (find_root : string -> string)
  (load_entity : string -> string -> string -> result entity)
  (self : Build.WorkflowCommand) (cwd exe_entity : string) (w : Build.world) :
  Build.is_prefix (Build.components cwd)
    (Build.components (Build._filename self)) = false ->
  String.prefix ".." (Build.relpath (Build._filename self) cwd) = true
  /\ Build.get_command k_run k_root k_module find_root load_entity
       self cwd exe_entity w
     = (Raise ValueError, w).
Proof.
  intros H. apply BuildFacts.relpath_climbs in H. split; [exact H|].
  now apply BuildFacts.get_command_guard.
Qed.

Lemma get_command_outside_cwd_witness :
  Build.is_prefix (Build.components "/home/u/proj")
    (Build.components "/home/u/other/wf.py") = false
  /\ (String.prefix ".." (Build.relpath "/home/u/other/wf.py" "/home/u/proj") = true
      /\ Build.get_command "run_level_params" "project_root" "module"
           (fun _ => "/home/u/other"%string) (fun _ _ _ => Ok tt)
           {| Build._filename := "/home/u/other/wf.py" |} "/home/u/proj" "wf"
           {| Build.ctx_obj := Some [("run_level_params"%string, [])];
              Build.loaded := [] |}
         = (Raise ValueError,
            {| Build.ctx_obj := Some [("run_level_params"%string, [])];
               Build.loaded := [] |})).
Proof.
  split; [reflexivity|].
  exact (@get_command_outside_cwd_raises unit
           "run_level_params" "project_root" "module"
           (fun _ => "/home/u/other"%string) (fun _ _ _ => Ok tt)
           {| Build._filename := "/home/u/other/wf.py" |} "/home/u/proj" "wf"
           {| Build.ctx_obj := Some [("run_level_params"%string, [])];
              Build.loaded := [] |}
           eq_refl).
Defined.

(** C10.  [BuildCommand.list_commands] returns exactly the names of the
    entries of the current directory that match [*.py], without
    [__init__.py]: a name is listed if and only if it is the name of an
    entry of the directory, ends in [.py] and is not [__init__.py]; the
    list is the directory listing with the other names dropped; and what
    the subdirectories contain has no influence on it. *)
Theorem list_commands_exact (cwd_entries : list Build.node) :
  (forall n : string,
     In n (Build.list_commands cwd_entries)
     <-> In n (map Build.node_name cwd_entries)
         /\ Build.ends_with_py n /\ n <> "__init__.py"%string)
  /\ (exists keep : string -> bool,
        (forall n : string,
           keep n = true
           <-> Build.ends_with_py n /\ n <> "__init__.py"%string)
        /\ Build.list_commands cwd_entries
           = filter keep (map Build.node_name cwd_entries))
  /\ (forall other : list Build.node,
        map Build.node_name other = map Build.node_name cwd_entries ->
        Build.list_commands other = Build.list_commands cwd_entries).
Proof.
  split; [|split].
  - intros n. unfold Build.list_commands, Build.glob.
    rewrite !filter_In, BuildFacts.fullmatch_star_dot_py, negb_true_iff.
    rewrite String.eqb_neq. tauto.
  - exists (fun n => Build.fullmatch (Build.translate "*.py") n
                     && negb (String.eqb n "__init__.py")).
    split.
    + intros n.
      now rewrite andb_true_iff, BuildFacts.fullmatch_star_dot_py,
        negb_true_iff, String.eqb_neq.
    + unfold Build.list_commands, Build.glob. apply BuildFacts.filter_filter.
  - intros other H. unfold Build.list_commands, Build.glob. now rewrite H.
Qed.

(* ----------------------------------------------------------------- *)
(** ** The codecs *)

Ltac dlia := zify; Z.to_euclidean_division_equations; lia.

Lemma pystr_eqb_eq (a b : pystr) : pystr_eqb a b = true <-> a = b.
Proof.
  unfold pystr_eqb. destruct (list_eq_dec N.eq_dec a b); split; congruence.
Qed.

Lemma pystr_eqb_refl (a : pystr) : pystr_eqb a a = true.
Proof. now apply pystr_eqb_eq. Qed.

Lemma to_N_byte_of (n : N) : (n < 256)%N -> Byte.to_N (byte_of n) = n.
Proof.
  intros Hn. unfold byte_of.
  destruct (Byte.of_N n) as [b|] eqn:E.
  - now apply Byte.to_of_N.
  - apply Byte.of_N_None_iff in E. lia.
Qed.

Lemma Ok_inj {A} (a b : A) : Ok a = Ok b -> a = b.
Proof. now intros [= ->]. Qed.

Lemma to_N_lt_256 (b : byte) : (Byte.to_N b < 256)%N.
Proof. pose proof (Byte.to_N_bounded b). lia. Qed.

Module Utf8Facts.
Import Utf8.
Local Open Scope N_scope.

Lemma cont_byte_of (x : N) : x < 64 -> cont (byte_of (0x80 + x)) = Some x.
Proof.
  intros H. unfold cont. rewrite to_N_byte_of by lia.
  replace (0x80 <=? 0x80 + x) with true by (symmetry; apply N.leb_le; lia).
  replace (0x80 + x <=? 0xBF) with true by (symmetry; apply N.leb_le; lia).
  cbv [andb]. f_equal. lia.
Qed.

Ltac decide_ltb :=
  repeat match goal with
  | |- context [N.ltb ?a ?b] =>
      let H := fresh "H" in
      destruct (N.ltb_spec a b) as [H|H]; try (exfalso; dlia)
  | |- context [N.leb ?a ?b] =>
      let H := fresh "H" in
      destruct (N.leb_spec a b) as [H|H]; try (exfalso; dlia)
  end.

(** Decoding undoes the encoding of one code point. *)
Lemma decode_encode_char (c : N) (bs rest : bytes) :
  encode_char c = Ok bs -> decode (bs ++ rest) = push c (decode rest).
Proof.
  unfold encode_char.
  destruct (N.ltb_spec c 0x80) as [H1|H1].
  { intros E. apply Ok_inj in E. rewrite <- E. cbn [app decode].
    rewrite to_N_byte_of by lia. cbv zeta.
    destruct (N.ltb_spec c 0x80); [reflexivity | lia]. }
  destruct (N.ltb_spec c 0x800) as [H2|H2].
  { intros E. apply Ok_inj in E. rewrite <- E. cbn [app decode].
    rewrite cont_byte_of by dlia.
    rewrite to_N_byte_of by dlia. cbv zeta.
    decide_ltb. f_equal. dlia. }
  destruct (N.ltb_spec c 0x10000) as [H3|H3].
  { destruct (is_surrogate c) eqn:Es; [discriminate|].
    intros E. apply Ok_inj in E. rewrite <- E. cbn [app decode].
    rewrite !cont_byte_of by dlia.
    rewrite to_N_byte_of by dlia. cbv zeta.
    replace ((0xE0 + c / 4096 - 0xE0) * 4096 + (c / 64) mod 64 * 64 + c mod 64)
      with c by dlia.
    rewrite Es.
    decide_ltb. reflexivity. }
  destruct (N.ltb_spec c 0x110000) as [H4|H4]; [|discriminate].
  intros E. apply Ok_inj in E. rewrite <- E. cbn [app decode].
  rewrite !cont_byte_of by dlia.
  rewrite to_N_byte_of by dlia. cbv zeta.
  replace ((0xF0 + c / 262144 - 0xF0) * 262144 + (c / 4096) mod 64 * 4096
           + (c / 64) mod 64 * 64 + c mod 64)
    with c by dlia.
  decide_ltb. reflexivity.
Qed.

(** [bytes.decode] undoes [str.encode]. *)
Lemma decode_encode (s : pystr) (bs : bytes) :
  encode s = Ok bs -> decode bs = Ok s.
Proof.
  revert bs. induction s as [|c s IH]; intros bs; simpl.
  - now intros [= <-].
  - destruct (encode_char c) as [b|] eqn:Ec; [|discriminate]. simpl.
    destruct (encode s) as [bs'|] eqn:Es; [|discriminate]. simpl.
    intros [= <-]. rewrite (decode_encode_char _ _ Ec), (IH _ eq_refl).
    reflexivity.
Qed.

(** Every string of scalar values has an encoding. *)
Lemma encode_scalar (s : pystr) :
  forallb scalar s = true -> exists bs : bytes, encode s = Ok bs.
Proof.
  induction s as [|c s IH]; simpl; [now exists []|].
  rewrite andb_true_iff. intros [Hc Hs].
  destruct (IH Hs) as [bs ->].
  unfold scalar in Hc. apply andb_true_iff in Hc as [Hlt Hsur].
  apply negb_true_iff in Hsur. unfold encode_char. rewrite Hsur, Hlt.
  destruct (c <? 0x80); [eexists; reflexivity|].
  destruct (c <? 0x800); [eexists; reflexivity|].
  destruct (c <? 0x10000); eexists; reflexivity.
Qed.

Lemma push_raise (c : N) (r : result pystr) (e : exn) :
  push c r = Raise e -> r = Raise e.
Proof. destruct r; [discriminate | exact (fun H => H)]. Qed.

Ltac break_decode :=
  repeat match goal with
  | |- context [match ?x with _ => _ end] =>
      lazymatch x with
      | context [decode] => fail
      | _ => destruct x
      end
  end.

(** [bytes.decode] raises nothing but [UnicodeDecodeError]. *)
Lemma decode_raises (bs : bytes) (e : exn) :
  decode bs = Raise e -> e = UnicodeDecodeError.
Proof.
  assert (G : forall (n : nat) (bs : bytes), (List.length bs <= n)%nat ->
              decode bs = Raise e -> e = UnicodeDecodeError).
  { clear bs. induction n as [|n IH]; intros bs Hlen.
    - destruct bs; [discriminate | cbn in Hlen; lia].
    - destruct bs as [|b0 r0]; [discriminate|].
      cbn [decode]. cbv zeta. break_decode;
        intros H;
        first [ discriminate H
              | injection H as <-; reflexivity
              | apply push_raise in H; eapply IH; [|exact H];
                cbn [List.length] in Hlen |- *; lia ]. }
  exact (G _ bs (le_n _)).
Qed.

(** No UTF-8 text starts with the byte 0x81. *)
Lemma decode_x81 (rest : bytes) : decode (x81 :: rest) = Raise UnicodeDecodeError.
Proof. reflexivity. Qed.

End Utf8Facts.

Module MsgpackFacts.
Import Msgpack.
Local Open Scope N_scope.

Lemma firstn_skipn_exact {A} (u rest : list A) :
  firstn (List.length u) (u ++ rest) = u
  /\ skipn (List.length u) (u ++ rest) = rest.
Proof.
  induction u as [|x u [IH1 IH2]]; simpl; [now split|].
  split; [now rewrite IH1 | exact IH2].
Qed.

Lemma take_app (u rest : bytes) :
  take (N.of_nat (List.length u)) (u ++ rest) = Ok (u, rest).
Proof.
  unfold take. rewrite length_app, Nat2N.id.
  destruct (N.ltb_spec (N.of_nat (List.length u + List.length rest))
              (N.of_nat (List.length u))) as [H|H]; [lia|].
  destruct (firstn_skipn_exact u rest) as [-> ->]. reflexivity.
Qed.

Lemma be_value_snoc (l : bytes) (b : byte) (acc : N) :
  be_value (l ++ [b]) acc = be_value l acc * 256 + Byte.to_N b.
Proof.
  revert acc. induction l as [|x l IH]; intros acc; simpl; [reflexivity|].
  apply IH.
Qed.

Lemma length_be_bytes (k : nat) (n : N) : List.length (be_bytes k n) = k.
Proof.
  revert n. induction k as [|k IH]; intros n; simpl; [reflexivity|].
  rewrite length_app, IH. simpl. lia.
Qed.

(** A big-endian field reads back the number written into it. *)
Lemma be_value_be_bytes (k : nat) (n : N) :
  n < 256 ^ N.of_nat k -> be_value (be_bytes k n) 0 = n.
Proof.
  revert n. induction k as [|k IH]; intros n Hn.
  - simpl in *. lia.
  - cbn [be_bytes]. rewrite be_value_snoc.
    rewrite Nat2N.inj_succ, N.pow_succ_r' in Hn.
    rewrite IH by (apply N.Div0.div_lt_upper_bound; lia).
    rewrite to_N_byte_of by (apply N.mod_lt; lia).
    pose proof (N.div_mod n 256). lia.
Qed.

Lemma uint_be_bytes (k : nat) (n : N) (rest : bytes) :
  n < 256 ^ N.of_nat k ->
  uint (N.of_nat k) (be_bytes k n ++ rest) = Ok (n, rest).
Proof.
  intros Hn. unfold uint.
  rewrite <- (length_be_bytes k n) at 1. rewrite take_app. simpl.
  now rewrite be_value_be_bytes.
Qed.

(** The cases of [unpack] that a packed [str] goes through. *)
Lemma unpack_fixstr (limit : N) (d : nat) (b : byte) (r : bytes) :
  0xa0 <= Byte.to_N b < 0xc0 ->
  unpack limit d (b :: r) = unpack_str (Byte.to_N b - 0xa0) r.
Proof.
  intros H.
  destruct d; cbn [unpack]; cbv zeta;
    repeat match goal with
    | |- context [N.ltb ?a ?b] =>
        destruct (N.ltb_spec a b); try (exfalso; lia)
    end; reflexivity.
Qed.

Lemma unpack_str8 (limit : N) (d : nat) (r : bytes) :
  unpack limit d (xd9 :: r)
  = rbind (uint 1 r) (fun kr => unpack_str (fst kr) (snd kr)).
Proof. destruct d; cbn; destruct (uint 1 r) as [[k r']|]; reflexivity. Qed.

Lemma unpack_str16 (limit : N) (d : nat) (r : bytes) :
  unpack limit d (xda :: r)
  = rbind (uint 2 r) (fun kr => unpack_str (fst kr) (snd kr)).
Proof. destruct d; cbn; destruct (uint 2 r) as [[k r']|]; reflexivity. Qed.

Lemma unpack_str32 (limit : N) (d : nat) (r : bytes) :
  unpack limit d (xdb :: r)
  = rbind (uint 4 r) (fun kr => unpack_str (fst kr) (snd kr)).
Proof. destruct d; cbn; destruct (uint 4 r) as [[k r']|]; reflexivity. Qed.

Lemma unpack_fixmap (limit : N) (d : nat) (b : byte) (r : bytes) :
  0x80 <= Byte.to_N b < 0x90 ->
  unpack limit (S d) (b :: r)
  = unpack_map (unpack limit d) limit (Byte.to_N b - 0x80) r.
Proof.
  intros H. cbn [unpack]; cbv zeta;
    repeat match goal with
    | |- context [N.ltb ?a ?b] =>
        destruct (N.ltb_spec a b); try (exfalso; lia)
    end; reflexivity.
Qed.

(** The exceptions of the unpacker all derive from [ValueError]. *)
Lemma take_raises (n : N) (bs : bytes) (e : exn) :
  take n bs = Raise e -> is_ValueError e = true.
Proof.
  unfold take. destruct (N.of_nat (List.length bs) <? n); [|discriminate].
  now intros [= <-].
Qed.

Lemma uint_raises (k : N) (bs : bytes) (e : exn) :
  uint k bs = Raise e -> is_ValueError e = true.
Proof.
  unfold uint. destruct (take k bs) as [[h r]|e'] eqn:E; [discriminate|].
  cbn [rbind]. intros [= <-]. exact (take_raises _ _ E).
Qed.

Lemma sint_raises (k : N) (bs : bytes) (e : exn) :
  sint k bs = Raise e -> is_ValueError e = true.
Proof.
  unfold sint. destruct (uint k bs) as [[h r]|e'] eqn:E; [discriminate|].
  cbn [rbind]. intros [= <-]. exact (uint_raises _ _ E).
Qed.

Lemma unpack_str_raises (n : N) (bs : bytes) (e : exn) :
  unpack_str n bs = Raise e -> is_ValueError e = true.
Proof.
  unfold unpack_str. destruct (take n bs) as [[h r]|e'] eqn:E; cbn [rbind].
  - destruct (Utf8.decode h) as [s|e'] eqn:Ed; [discriminate|].
    cbn [rbind]. intros [= <-].
    now rewrite (Utf8Facts.decode_raises _ Ed).
  - intros [= <-]. exact (take_raises _ _ E).
Qed.

Lemma unpack_bin_raises (n : N) (bs : bytes) (e : exn) :
  unpack_bin n bs = Raise e -> is_ValueError e = true.
Proof.
  unfold unpack_bin. destruct (take n bs) as [[h r]|e'] eqn:E; [discriminate|].
  cbn [rbind]. intros [= <-]. exact (take_raises _ _ E).
Qed.

Lemma unpack_ext_raises (n : N) (bs : bytes) (e : exn) :
  unpack_ext n bs = Raise e -> is_ValueError e = true.
Proof.
  unfold unpack_ext. destruct (sint 1 bs) as [[c r0]|e'] eqn:E; cbn [rbind].
  - destruct (take n r0) as [[data r]|e'] eqn:Et; cbn [rbind].
    + repeat match goal with
             | |- context [if ?c then _ else _] => destruct c
             end; first [discriminate | now intros [= <-]].
    + intros [= <-]. exact (take_raises _ _ Et).
  - intros [= <-]. exact (sint_raises _ _ E).
Qed.

Section Containers.

Variable f : bytes -> result (pyobj * bytes).
Hypothesis f_raises :
  forall (bs : bytes) (e : exn), f bs = Raise e -> is_ValueError e = true.

Lemma items_raises (k : nat) (bs : bytes) (e : exn) :
  items f k bs = Raise e -> is_ValueError e = true.
Proof.
  revert bs. induction k as [|k IH]; intros bs; cbn [items]; [discriminate|].
  destruct (f bs) as [[x r1]|e'] eqn:E; cbn [rbind].
  - destruct (items f k r1) as [[xs r2]|e'] eqn:Ei; [discriminate|].
    cbn [rbind]. intros [= <-]. exact (IH _ Ei).
  - intros [= <-]. eapply f_raises; exact E.
Qed.

Lemma entries_raises (k : nat) (bs : bytes) (d : pydict) (e : exn) :
  entries f k bs d = Raise e -> is_ValueError e = true.
Proof.
  revert bs d. induction k as [|k IH]; intros bs d; cbn [entries];
    [discriminate|].
  destruct (f bs) as [[key r1]|e'] eqn:E; cbn [rbind].
  - destruct (f r1) as [[v r2]|e'] eqn:Ev; cbn [rbind].
    + destruct (is_map_key key); [apply IH | now intros [= <-]].
    + intros [= <-]. eapply f_raises; exact Ev.
  - intros [= <-]. eapply f_raises; exact E.
Qed.

Lemma unpack_array_raises (limit n : N) (bs : bytes) (e : exn) :
  unpack_array f limit n bs = Raise e -> is_ValueError e = true.
Proof.
  unfold unpack_array. destruct (limit <? n); [now intros [= <-]|].
  destruct (items f (N.to_nat n) bs) as [[l r]|e'] eqn:E; [discriminate|].
  cbn [rbind]. intros [= <-]. exact (items_raises _ _ E).
Qed.

Lemma unpack_map_raises (limit n : N) (bs : bytes) (e : exn) :
  unpack_map f limit n bs = Raise e -> is_ValueError e = true.
Proof.
  unfold unpack_map. destruct (limit / 2 <? n); [now intros [= <-]|].
  destruct (entries f (N.to_nat n) bs []) as [[l r]|e'] eqn:E; [discriminate|].
  cbn [rbind]. intros [= <-]. exact (entries_raises _ _ _ E).
Qed.

End Containers.

Lemma rbind_raises {A B} (x : result A) (k : A -> result B) (e : exn) :
  rbind x k = Raise e ->
  x = Raise e \/ exists a : A, x = Ok a /\ k a = Raise e.
Proof.
  destruct x as [a|e']; cbn [rbind]; intros H.
  - right. now exists a.
  - left. now injection H as <-.
Qed.

Ltac raises_step H :=
  first
    [ discriminate H
    | injection H as <-; reflexivity
    | apply rbind_raises in H;
      let a := fresh "a" in
      destruct H as [H | (a & _ & H)];
      [| destruct a; cbv beta iota in H ] ].

Ltac raises_leaf IH H :=
  first
    [ exact (take_raises _ _ H)
    | exact (uint_raises _ _ H)
    | exact (sint_raises _ _ H)
    | exact (unpack_str_raises _ _ H)
    | exact (unpack_bin_raises _ _ H)
    | exact (unpack_ext_raises _ _ H)
    | solve [eapply unpack_array_raises; [exact IH | exact H]]
    | solve [eapply unpack_map_raises; [exact IH | exact H]] ].

Lemma unpack_raises (limit : N) (d : nat) (bs : bytes) (e : exn) :
  unpack limit d bs = Raise e -> is_ValueError e = true.
Proof.
  revert bs e. induction d as [|d IH]; intros bs e;
    (destruct bs as [|b r]; [now intros [= <-]|]);
    destruct b; intros H;
    cbn [unpack Byte.to_N N.ltb N.leb N.compare Pos.compare Pos.compare_cont
         N.sub Pos.sub_mask Pos.pred_double Pos.double_mask
         Pos.succ_double_mask Pos.double_pred_mask Pos.sub_mask_carry] in H;
    repeat (first [ raises_leaf IH H | raises_step H ]).
Qed.

(** [msgpack.unpackb] raises nothing outside the [ValueError] family. *)
Lemma unpackb_raises (data : bytes) (e : exn) :
  unpackb data = Raise e -> is_ValueError e = true.
Proof.
  unfold unpackb. intros H. apply rbind_raises in H.
  destruct H as [H | ([o rest] & _ & H)].
  - exact (unpack_raises _ _ _ H).
  - destruct rest; [discriminate H | now injection H as <-].
Qed.

Lemma unpack_str_app (s : pystr) (u rest : bytes) :
  Utf8.encode s = Ok u ->
  unpack_str (N.of_nat (List.length u)) (u ++ rest) = Ok (PyStr s, rest).
Proof.
  intros E. unfold unpack_str. rewrite take_app. cbn [rbind].
  now rewrite (Utf8Facts.decode_encode _ E).
Qed.

(** Unpacking reads a packed [str] back, whatever follows it. *)
Lemma unpack_pack_str (limit : N) (d : nat) (s : pystr) (bs rest : bytes) :
  pack_str s = Ok bs -> unpack limit d (bs ++ rest) = Ok (PyStr s, rest).
Proof.
  unfold pack_str. destruct (Utf8.encode s) as [u|] eqn:Eu; [|discriminate].
  cbn [rbind]. unfold str_header.
  set (n := N.of_nat (List.length u)).
  destruct (N.ltb_spec n 32) as [H1|H1].
  { cbn [rbind]. intros E. apply Ok_inj in E. rewrite <- E. cbn [app].
    rewrite unpack_fixstr by (rewrite to_N_byte_of; lia).
    rewrite to_N_byte_of by lia.
    replace (0xa0 + n - 0xa0) with n by lia.
    now apply unpack_str_app. }
  destruct (N.ltb_spec n 0x100) as [H2|H2].
  { cbn [rbind]. intros E. apply Ok_inj in E. rewrite <- E.
    rewrite <- app_assoc, <- app_comm_cons, unpack_str8.
    rewrite (uint_be_bytes 1) by (cbn; lia). cbn [rbind fst snd].
    now apply unpack_str_app. }
  destruct (N.ltb_spec n 0x10000) as [H3|H3].
  { cbn [rbind]. intros E. apply Ok_inj in E. rewrite <- E.
    rewrite <- app_assoc, <- app_comm_cons, unpack_str16.
    rewrite (uint_be_bytes 2) by (cbn; lia). cbn [rbind fst snd].
    now apply unpack_str_app. }
  destruct (N.ltb_spec n 0x100000000) as [H4|H4]; [|discriminate].
  cbn [rbind]. intros E. apply Ok_inj in E. rewrite <- E.
  rewrite <- app_assoc, <- app_comm_cons, unpack_str32.
  rewrite (uint_be_bytes 4) by (cbn; lia). cbn [rbind fst snd].
  now apply unpack_str_app.
Qed.

(** A [str] packs whenever it encodes to fewer than 2^32 bytes. *)
Lemma pack_str_total (s : pystr) (u : bytes) :
  Utf8.encode s = Ok u -> N.of_nat (List.length u) < 0x100000000 ->
  exists bs : bytes, pack_str s = Ok bs.
Proof.
  intros E H. unfold pack_str, str_header. rewrite E. cbn [rbind].
  destruct (N.of_nat (List.length u) <? 32); [eexists; reflexivity|].
  destruct (N.of_nat (List.length u) <? 0x100); [eexists; reflexivity|].
  destruct (N.of_nat (List.length u) <? 0x10000); [eexists; reflexivity|].
  destruct (N.ltb_spec (N.of_nat (List.length u)) 0x100000000); [|lia].
  eexists; reflexivity.
Qed.

End MsgpackFacts.

(* ----------------------------------------------------------------- *)
(** ** The agent *)

Module AgentFacts.
Import Agent.
Local Open Scope N_scope.

Lemma encoded_length_spec (s : pystr) (u : bytes) :
  Utf8.encode s = Ok u -> N.of_nat (List.length u) = Utf8.encoded_length s.
Proof.
  revert u. induction s as [|c s IH]; intros u; simpl.
  - now intros [= <-].
  - destruct (Utf8.encode_char c) as [b|] eqn:Ec; [|discriminate]. simpl.
    destruct (Utf8.encode s) as [bs|] eqn:Es; [|discriminate]. simpl.
    intros E. apply Ok_inj in E. subst u.
    rewrite length_app, Nat2N.inj_add, (IH _ eq_refl). f_equal.
    unfold Utf8.encode_char in Ec. unfold Utf8.width.
    destruct (c <? 0x80); [apply Ok_inj in Ec; now subst b|].
    destruct (c <? 0x800); [apply Ok_inj in Ec; now subst b|].
    destruct (c <? 0x10000).
    + destruct (Utf8.is_surrogate c); [discriminate|].
      apply Ok_inj in Ec; now subst b.
    + destruct (c <? 0x110000); [|discriminate].
      apply Ok_inj in Ec; now subst b.
Qed.

Lemma pack_job_id_key : Msgpack.pack_str (lit "job_id") = Ok job_id_key.
Proof. reflexivity. Qed.

(** The token of a record with a [str] identifier: the header of a map of
    one entry, the key, and the packed identifier. *)
Lemma encode_metadata_str (s : pystr) :
  encode_metadata {| job_id := PyStr s |}
  = rbind (Msgpack.pack_str s) (fun bv => Ok (x81 :: job_id_key ++ bv)).
Proof.
  unfold encode_metadata, Msgpack.packb, asdict. cbn [job_id].
  destruct (Msgpack.pack_str s) as [bv|] eqn:E.
  - cbn. rewrite E. reflexivity.
  - cbn. rewrite E. reflexivity.
Qed.

Lemma unpack_singleton_map (limit : N) (d : nat) (k v : pystr)
  (kb vb : bytes) :
  Msgpack.pack_str k = Ok kb -> Msgpack.pack_str v = Ok vb -> 2 <= limit ->
  Msgpack.unpack limit (S d) (x81 :: kb ++ vb)
  = Ok (PyDict [(PyStr k, PyStr v)], []).
Proof.
  intros Hk Hv Hl.
  rewrite MsgpackFacts.unpack_fixmap by (cbn; lia).
  unfold Msgpack.unpack_map.
  change (Byte.to_N x81 - 0x80) with 1.
  destruct (N.ltb_spec (limit / 2) 1) as [H|H]; [exfalso; dlia|].
  change (N.to_nat 1) with 1%nat. cbn [Msgpack.entries].
  rewrite (MsgpackFacts.unpack_pack_str _ _ _ _ Hk). cbn [rbind].
  rewrite <- (app_nil_r vb).
  rewrite (MsgpackFacts.unpack_pack_str _ _ _ _ Hv). reflexivity.
Qed.

(** Decoding undoes the encoding of a record with a [str] identifier. *)
Lemma decode_encode_metadata (s : pystr) (token : bytes) :
  encode_metadata {| job_id := PyStr s |} = Ok token ->
  decode_metadata token = Ok {| job_id := PyStr s |}.
Proof.
  rewrite encode_metadata_str.
  destruct (Msgpack.pack_str s) as [bv|] eqn:E; [|discriminate].
  cbn [rbind]. intros H. apply Ok_inj in H. subst token.
  unfold decode_metadata, Msgpack.unpackb.
  change Msgpack.max_depth with (S 1023).
  rewrite (@unpack_singleton_map _ _ (lit "job_id") s job_id_key bv
             pack_job_id_key E)
    by (cbn [List.length job_id_key app]; lia).
  cbn [rbind]. unfold Metadata_kwargs. cbn [forallb fst andb dict_get key_eqb].
  rewrite pystr_eqb_refl. reflexivity.
Qed.

(** Every valid record has an encoding. *)
Lemma encode_metadata_total (m : Metadata) :
  valid_metadata m -> exists token : bytes, encode_metadata m = Ok token.
Proof.
  intros (s & Hs & Hsc & Hlen). destruct m as [j]. cbn in Hs. subst j.
  destruct (Utf8Facts.encode_scalar _ Hsc) as [u Hu].
  destruct (@MsgpackFacts.pack_str_total s u Hu) as [bv Hbv].
  - now rewrite (encoded_length_spec _ Hu).
  - rewrite encode_metadata_str, Hbv. eexists; reflexivity.
Qed.

(** A token of [create] starts with the byte 0x81. *)
Lemma encode_metadata_head (s : pystr) (token : bytes) :
  encode_metadata {| job_id := PyStr s |} = Ok token ->
  exists rest : bytes, token = x81 :: rest.
Proof.
  rewrite encode_metadata_str.
  destruct (Msgpack.pack_str s) as [bv|]; [|discriminate].
  cbn [rbind]. intros H. apply Ok_inj in H. subst token. eexists; reflexivity.
Qed.

(** Every token starts with the header of a map of one entry, whatever
    the record holds. *)
Lemma encode_metadata_starts (m : Metadata) (token : bytes) :
  encode_metadata m = Ok token ->
  exists rest : bytes, token = x81 :: rest.
Proof.
  destruct m as [j]. unfold encode_metadata, Msgpack.packb, asdict.
  cbn [job_id].
  change (Msgpack.pack 511 (PyDict [(PyStr (lit "job_id"), j)]))
    with (rbind (Msgpack.pack_str (lit "job_id"))
            (fun bk => rbind (Msgpack.pack 510 j)
               (fun bv => Ok (([x81] ++ bk ++ bv)%list)))).
  destruct (Msgpack.pack_str (lit "job_id")) as [bk|]; [|discriminate].
  cbn [rbind]. destruct (Msgpack.pack 510 j) as [bv|]; [|discriminate].
  cbn [rbind]. intros H. apply Ok_inj in H. subst token.
  eexists; reflexivity.
Qed.

Ltac run_trace :=
  cbv beta iota zeta delta
    [get delete create tbind tret lift emit Client client_query
     client_get_job client_cancel_job].

(** [get], case by case. *)
Lemma get_cases (backend : JobBackend) (table : list (pystr * State))
  (token : bytes) (t : list event) :
  get backend table token t
  = match decode_metadata token with
    | Raise e => (Raise e, t ++ [EvClient None])
    | Ok m =>
        let t2 := (t ++ [EvClient None]) ++ [EvGetJob (job_id m)] in
        match get_job backend (job_id m) with
        | Raise e => (Raise e, t2)
        | Ok job =>
            let cur_state := convert_to_flyte_state table (state job) in
            if State_eqb cur_state SUCCEEDED then
              match destination job with
              | None => (Raise AttributeError, t2)
              | Some d =>
                  (Ok {| resource :=
                           {| res_state := cur_state;
                              outputs :=
                                Some [(lit "results",
                                       LitStructuredDataset
                                         (lit "bq://" ++ project d ++ lit ":"
                                          ++ dataset_id d ++ lit "."
                                          ++ table_id d)
                                         {| format := lit EmptyString |})] |} |},
                   t2)
              end
            else (Raise AttributeError, t2)
        end
    end.
Proof.
  unfold decode_metadata. run_trace.
  destruct (rbind (Msgpack.unpackb token) Metadata_kwargs) as [m|e];
    [|reflexivity].
  cbv zeta. destruct (get_job backend (job_id m)) as [job|e]; [|reflexivity].
  destruct (State_eqb (convert_to_flyte_state table (state job)) SUCCEEDED);
    [|reflexivity].
  destruct (destination job) as [d|]; reflexivity.
Qed.

(** [delete], case by case. *)
Lemma delete_cases (backend : JobBackend) (json_loads : pystr -> result pyobj)
  (token : bytes) (t : list event) :
  delete backend json_loads token t
  = match rbind (Utf8.decode token)
            (fun s => rbind (json_loads s) Metadata_kwargs) with
    | Raise e => (Raise e, t ++ [EvClient None])
    | Ok m =>
        (rbind (cancel_job backend (job_id m)) (fun _ => Ok DeleteTaskResponse_ok),
         (t ++ [EvClient None]) ++ [EvCancelJob (job_id m)])
    end.
Proof.
  run_trace.
  destruct (rbind (Utf8.decode token)
              (fun s => rbind (json_loads s) Metadata_kwargs)) as [m|e];
    [|reflexivity].
  destruct (cancel_job backend (job_id m)) as [[]|e]; reflexivity.
Qed.

(** [create] up to the construction of the client: an exception while the
    inputs are converted ends the call with the trace it started with. *)
Lemma create_inputs_raise (te : TypeEngine) (backend : JobBackend)
  (output_prefix : pystr) (task_template : TaskTemplate) (lm : LiteralMap)
  (e : exn) (t : list event) :
  job_config_of_inputs te task_template lm = Raise e ->
  create te backend output_prefix task_template (Some lm) t = (Raise e, t).
Proof.
  intros H. run_trace. now rewrite H.
Qed.

(** What a token returned by [create] is: the encoding of the record that
    holds the identifier the backend gave to the submitted query. *)
Lemma create_token (te : TypeEngine) (backend : JobBackend)
  (output_prefix : pystr) (task_template : TaskTemplate)
  (inputs : option LiteralMap) (t t' : list event)
  (resp : CreateTaskResponse) :
  create te backend output_prefix task_template inputs t = (Ok resp, t') ->
  exists (stmt : pystr) (cfg : option QueryJobConfig) (id : pystr),
    query backend stmt cfg = Ok id
    /\ In (EvQuery stmt cfg) t'
    /\ encode_metadata {| job_id := PyStr id |} = Ok (resource_meta resp).
Proof.
  run_trace. unfold encode_metadata.
  destruct inputs as [lm|];
    [destruct (job_config_of_inputs te task_template lm) as [c|];
     cbn [rbind]; [|discriminate]|];
    (destruct (custom task_template) as [cu|]; [|discriminate];
     destruct (getitem (lit "ProjectID") cu) as [pid|]; [|discriminate];
     destruct (getitem (lit "Location") cu) as [loc|]; [|discriminate];
     destruct (sql task_template) as [q|]; [|discriminate];
     match goal with
     | |- context [query backend ?st ?cfg] =>
         destruct (query backend st cfg) as [id|] eqn:Eq; [|discriminate];
         destruct (Msgpack.packb (asdict {| job_id := PyStr id |}))
           as [tok|] eqn:Et; [|discriminate];
         intros H; injection H as <- <-;
         exists st, cfg, id;
         split; [exact Eq|]; split; [|exact Et];
         apply in_or_app; right; now left
     end).
Qed.

(** Once the token is decoded, [get] asks the backend for the job of the
    decoded identifier and for nothing else. *)
Lemma get_trace (backend : JobBackend) (table : list (pystr * State))
  (token : bytes) (m : Metadata) (t : list event) :
  decode_metadata token = Ok m ->
  snd (get backend table token t)
  = (t ++ [EvClient None]) ++ [EvGetJob (job_id m)].
Proof.
  intros H. rewrite get_cases, H. cbv zeta.
  destruct (get_job backend (job_id m)) as [job|]; [|reflexivity].
  destruct (State_eqb _ _); [|reflexivity].
  destruct (destination job); reflexivity.
Qed.

(** The last line of [get] calls a method of [res]; with [res = None],
    in every state but SUCCEEDED, that is an [AttributeError]. *)
Lemma get_not_succeeded (backend : JobBackend) (table : list (pystr * State))
  (token : bytes) (m : Metadata) (job : Job) (t : list event) :
  decode_metadata token = Ok m ->
  get_job backend (job_id m) = Ok job ->
  convert_to_flyte_state table (state job) <> SUCCEEDED ->
  get backend table token t
  = (Raise AttributeError, (t ++ [EvClient None]) ++ [EvGetJob (job_id m)]).
Proof.
  intros Hd Hj Hs. rewrite get_cases, Hd, Hj. cbv zeta.
  destruct (convert_to_flyte_state table (state job)); try reflexivity.
  now elim Hs.
Qed.

Lemma get_succeeded (backend : JobBackend) (table : list (pystr * State))
  (token : bytes) (m : Metadata) (job : Job) (d : TableReference)
  (t : list event) :
  decode_metadata token = Ok m ->
  get_job backend (job_id m) = Ok job ->
  convert_to_flyte_state table (state job) = SUCCEEDED ->
  destination job = Some d ->
  get backend table token t
  = (Ok {| resource :=
             {| res_state := SUCCEEDED;
                outputs :=
                  Some [(lit "results",
                         LitStructuredDataset
                           (lit "bq://" ++ project d ++ lit ":"
                            ++ dataset_id d ++ lit "." ++ table_id d)
                           {| format := lit EmptyString |})] |} |},
     (t ++ [EvClient None]) ++ [EvGetJob (job_id m)]).
Proof.
  intros Hd Hj Hs Hdest. rewrite get_cases, Hd, Hj. cbv zeta.
  now rewrite Hs, Hdest.
Qed.

(** The translator on a status that the table maps, and on one it does
    not. *)
Lemma convert_mapped (table : list (pystr * State)) (s : pystr) (st : State) :
  getitem s table = Ok st -> convert_to_flyte_state table s = st.
Proof. unfold convert_to_flyte_state. now intros ->. Qed.

Lemma convert_unmapped (table : list (pystr * State)) (s : pystr) :
  is_ok (getitem s table) = false -> convert_to_flyte_state table s = RUNNING.
Proof.
  unfold convert_to_flyte_state. now destruct (getitem s table).
Qed.

(** Polling a job that the backend keeps reporting as succeeded gives the
    same answer every time. *)
Lemma poll_succeeded (backend : JobBackend) (table : list (pystr * State))
  (token : bytes) (m : Metadata) (job : Job) (d : TableReference) (n : nat)
  (t : list event) :
  decode_metadata token = Ok m ->
  get_job backend (job_id m) = Ok job ->
  convert_to_flyte_state table (state job) = SUCCEEDED ->
  destination job = Some d ->
  fst (poll backend table n token t)
  = repeat (fst (get backend table token [])) n
  /\ exists r : GetTaskResponse,
       fst (get backend table token []) = Ok r
       /\ res_state (resource r) = SUCCEEDED.
Proof.
  intros Hd Hj Hs Hdest. split.
  - revert t. induction n as [|n IH]; intros t; [reflexivity|].
    cbn [poll repeat].
    rewrite (get_succeeded _ _ _ t Hd Hj Hs Hdest).
    specialize (IH ((t ++ [EvClient None]) ++ [EvGetJob (job_id m)])).
    destruct (poll backend table n token _) as [rs t2]. cbn [fst] in *.
    rewrite IH, (get_succeeded _ _ _ [] Hd Hj Hs Hdest). reflexivity.
  - rewrite (get_succeeded _ _ _ [] Hd Hj Hs Hdest). eexists. split; reflexivity.
Qed.

Lemma comprehension_raises {A B} (f : A -> result B) (l : list A) (x : A)
  (e : exn) :
  In x l -> is_ok (f x) = false ->
  (forall (y : A) (e' : exn), f y = Raise e' -> e' = e) ->
  comprehension f l = Raise e.
Proof.
  intros Hin Hx Hf. induction l as [|y l IH]; [destruct Hin|].
  cbn [comprehension]. destruct (f y) as [b|e'] eqn:Ey.
  - cbn [rbind]. destruct Hin as [->|Hin].
    + rewrite Ey in Hx. discriminate.
    + now rewrite (IH Hin).
  - cbn [rbind]. now rewrite (Hf _ _ Ey).
Qed.

Lemma getitem_raises {V} (k : pystr) (d : list (pystr * V)) (e : exn) :
  getitem k d = Raise e -> e = KeyError.
Proof.
  induction d as [|[k' v] d IH]; cbn [getitem]; [now intros [= <-]|].
  destruct (pystr_eqb k k'); [discriminate | exact IH].
Qed.

Lemma getitem_type_raises {V} (k : pytype) (d : list (pytype * V)) (e : exn) :
  getitem_type k d = Raise e -> e = KeyError.
Proof.
  induction d as [|[k' v] d IH]; cbn [getitem_type]; [now intros [= <-]|].
  destruct (pytype_eqb k k'); [discriminate | exact IH].
Qed.

(** The constructor raises nothing but [TypeError], and it accepts
    exactly the dicts with the one key [job_id]. *)
Lemma Metadata_kwargs_raises (o : pyobj) (e : exn) :
  Metadata_kwargs o = Raise e -> e = TypeError.
Proof.
  unfold Metadata_kwargs. destruct o; try (now intros [= <-]).
  destruct (forallb _ d); [|now intros [= <-]].
  destruct (dict_get _ d); [|now intros [= <-]].
  destruct (Nat.eqb _ 1); [discriminate | now intros [= <-]].
Qed.

Lemma Metadata_kwargs_ok (o : pyobj) (m : Metadata) :
  Metadata_kwargs o = Ok m <-> o = PyDict [(PyStr (lit "job_id"), job_id m)].
Proof.
  split.
  - unfold Metadata_kwargs. destruct o; try discriminate.
    destruct d as [|[k v] [|kv d]]; try discriminate.
    + cbn [forallb fst andb dict_get List.length Nat.eqb].
      destruct k; try discriminate. cbn [key_eqb].
      destruct (pystr_eqb (lit "job_id") s) eqn:E; [|discriminate].
      apply pystr_eqb_eq in E. subst s. now intros [= <-].
    + destruct (forallb _ _); [|discriminate].
      destruct (dict_get _ _); discriminate.
  - intros ->. unfold Metadata_kwargs.
    cbn [forallb fst andb dict_get key_eqb List.length Nat.eqb].
    rewrite pystr_eqb_refl. now destruct m.
Qed.

Lemma decode_metadata_raises (token : bytes) (e : exn) :
  decode_metadata token = Raise e -> is_ValueError e = true \/ e = TypeError.
Proof.
  unfold decode_metadata. intros H.
  apply MsgpackFacts.rbind_raises in H. destruct H as [H | (o & _ & H)].
  - left. exact (MsgpackFacts.unpackb_raises _ H).
  - right. exact (Metadata_kwargs_raises _ H).
Qed.

Lemma decode_metadata_ok (token : bytes) (m : Metadata) :
  decode_metadata token = Ok m
  <-> Msgpack.unpackb token = Ok (PyDict [(PyStr (lit "job_id"), job_id m)]).
Proof.
  unfold decode_metadata. split.
  - destruct (Msgpack.unpackb token) as [o|]; [|discriminate].
    cbn [rbind]. intros H. apply Metadata_kwargs_ok in H. now subst o.
  - intros ->. cbn [rbind]. now apply Metadata_kwargs_ok.
Qed.

Lemma bigquery_type_raises (types : list (pystr * pytype)) (name : pystr)
  (e : exn) :
  bigquery_type types name = Raise e -> e = KeyError.
Proof.
  unfold bigquery_type. intros H. apply MsgpackFacts.rbind_raises in H.
  destruct H as [H | (ty & _ & H)].
  - exact (getitem_raises _ _ H).
  - exact (getitem_type_raises _ _ H).
Qed.

(** An input without a BigQuery parameter type makes the conversion of the
    inputs raise [KeyError]. *)
Lemma job_config_unmapped (te : TypeEngine) (task_template : TaskTemplate)
  (lm : LiteralMap) (types : list (pystr * pytype))
  (natives : list (pystr * pyobj)) (name : pystr) (val : pyobj) :
  python_interface_inputs te task_template = Ok types ->
  literal_map_to_kwargs te lm types = Ok natives ->
  In (name, val) natives ->
  is_ok (bigquery_type types name) = false ->
  job_config_of_inputs te task_template lm = Raise KeyError.
Proof.
  intros Ht Hn Hin Hty. unfold job_config_of_inputs.
  rewrite Ht. cbn [rbind]. rewrite Hn. cbn [rbind].
  rewrite (@comprehension_raises _ _ _ natives (name, val) KeyError Hin).
  - reflexivity.
  - cbn [fst]. now destruct (bigquery_type types name).
  - intros [n v] e' H. apply MsgpackFacts.rbind_raises in H.
    destruct H as [H | (bq & _ & H)]; [|discriminate H].
    exact (bigquery_type_raises _ _ H).
Qed.

End AgentFacts.

(** C1.  Every token that [create] returns makes [delete] fail: [delete]
    reads the token as UTF-8 text for [json.loads], and a msgpack map
    starts with the byte 0x81, which no UTF-8 text starts with.  The call
    ends with [UnicodeDecodeError] after the client is made; the backend
    is never asked to cancel anything. *)
Theorem delete_rejects_created_token
  (te : Agent.TypeEngine) (backend : Agent.JobBackend)
  (json_loads : pystr -> result pyobj) (output_prefix : pystr)
  (task_template : Agent.TaskTemplate) (inputs : option Agent.LiteralMap)
  (t t' u : list Agent.event) (resp : Agent.CreateTaskResponse) :
  Agent.create te backend output_prefix task_template inputs t = (Ok resp, t') ->
  Agent.delete backend json_loads (Agent.resource_meta resp) u
  = (Raise UnicodeDecodeError, u ++ [Agent.EvClient None]).
Proof.
  intros H. apply AgentFacts.create_token in H.
  destruct H as (stmt & cfg & id & _ & _ & H).
  apply AgentFacts.encode_metadata_head in H. destruct H as [rest ->].
  rewrite AgentFacts.delete_cases, Utf8Facts.decode_x81. reflexivity.
Qed.

Lemma delete_rejects_created_token_witness :
  Agent.create Examples.stub_type_engine (Examples.stub_backend (lit "RUNNING"))
    (lit "s3://out") Examples.int_template (Some Examples.int_inputs) []
  = (Ok {| Agent.resource_meta := Examples.token_job1 |},
     [Agent.EvClient (Some (lit "p", lit "US"));
      Agent.EvQuery (lit "SELECT @x")
        (Some {| Agent.query_parameters :=
                   [{| Agent.sqp_name := lit "x";
                       Agent.sqp_type := lit "INT64";
                       Agent.sqp_value := PyInt 5 |}] |})])
  /\ Agent.delete (Examples.stub_backend (lit "RUNNING"))
       Examples.stub_json_loads Examples.token_job1 []
     = (Raise UnicodeDecodeError, [Agent.EvClient None]).
Proof.
  assert (H : Agent.create Examples.stub_type_engine
                (Examples.stub_backend (lit "RUNNING"))
                (lit "s3://out") Examples.int_template
                (Some Examples.int_inputs) []
              = (Ok {| Agent.resource_meta := Examples.token_job1 |},
                 [Agent.EvClient (Some (lit "p", lit "US"));
                  Agent.EvQuery (lit "SELECT @x")
                    (Some {| Agent.query_parameters :=
                               [{| Agent.sqp_name := lit "x";
                                   Agent.sqp_type := lit "INT64";
                                   Agent.sqp_value := PyInt 5 |}] |})])).
  { vm_compute. reflexivity. }
  split; [exact H|].
  exact (@delete_rejects_created_token _ _ Examples.stub_json_loads _ _ _ _ _
           [] _ H).
Defined.

(** C2.  When the status of the job translates to any state but SUCCEEDED
    (QUEUED, RUNNING or FAILED), [get] does not return that state with the
    outputs absent: [res] is still [None] when the last line calls
    [res.to_flyte_idl()], and the call ends with [AttributeError] after the
    status request. *)
Theorem get_raises_unless_succeeded
  (backend : Agent.JobBackend) (table : list (pystr * Agent.State))
  (token : bytes) (m : Agent.Metadata) (job : Agent.Job)
  (t : list Agent.event) :
  Agent.decode_metadata token = Ok m ->
  Agent.get_job backend (Agent.job_id m) = Ok job ->
  Agent.convert_to_flyte_state table (Agent.state job) <> Agent.SUCCEEDED ->
  Agent.get backend table token t
  = (Raise AttributeError,
     (t ++ [Agent.EvClient None]) ++ [Agent.EvGetJob (Agent.job_id m)]).
Proof.
  intros Hd Hj Hs. rewrite AgentFacts.get_cases, Hd, Hj. cbv zeta.
  destruct (Agent.convert_to_flyte_state table (Agent.state job)) eqn:E;
    cbn [Agent.State_eqb]; try reflexivity.
  now elim Hs.
Qed.

Lemma get_raises_unless_succeeded_witness :
  Agent.get (Examples.stub_backend (lit "RUNNING")) Examples.stub_table
    Examples.token_job1 []
  = (Raise AttributeError,
     [Agent.EvClient None; Agent.EvGetJob (PyStr (lit "job-1"))]).
Proof.
  refine (@get_raises_unless_succeeded
            (Examples.stub_backend (lit "RUNNING")) Examples.stub_table
            Examples.token_job1 {| Agent.job_id := PyStr (lit "job-1") |}
            {| Agent.state := lit "RUNNING";
               Agent.destination := Some Examples.stub_destination |}
            [] _ _ _).
  - vm_compute. reflexivity.
  - reflexivity.
  - vm_compute. discriminate.
Defined.

(** C3.  The metadata codec round-trips: every valid record has an
    encoding, decoding that encoding gives the record back, and [get]
    called with it asks the backend for the job of exactly the identifier
    that was encoded. *)
Theorem metadata_roundtrip (m : Agent.Metadata) :
  Agent.valid_metadata m ->
  exists token : bytes,
    Agent.encode_metadata m = Ok token
    /\ Agent.decode_metadata token = Ok m
    /\ forall (backend : Agent.JobBackend) (table : list (pystr * Agent.State))
              (t : list Agent.event),
         snd (Agent.get backend table token t)
         = (t ++ [Agent.EvClient None]) ++ [Agent.EvGetJob (Agent.job_id m)].
Proof.
  intros Hv. destruct (AgentFacts.encode_metadata_total Hv) as [token Ht].
  exists token. split; [exact Ht|].
  assert (Hd : Agent.decode_metadata token = Ok m).
  { destruct Hv as (s & Hs & _). destruct m as [j]. cbn in Hs. subst j.
    now apply AgentFacts.decode_encode_metadata. }
  split; [exact Hd|].
  intros backend table t. now apply AgentFacts.get_trace.
Qed.

Lemma metadata_roundtrip_witness :
  Agent.valid_metadata {| Agent.job_id := PyStr (lit "job-1") |}
  /\ exists token : bytes,
       Agent.encode_metadata {| Agent.job_id := PyStr (lit "job-1") |} = Ok token
       /\ Agent.decode_metadata token = Ok {| Agent.job_id := PyStr (lit "job-1") |}
       /\ forall (backend : Agent.JobBackend)
                 (table : list (pystr * Agent.State)) (t : list Agent.event),
            snd (Agent.get backend table token t)
            = (t ++ [Agent.EvClient None])
              ++ [Agent.EvGetJob (PyStr (lit "job-1"))].
Proof.
  assert (Hv : Agent.valid_metadata {| Agent.job_id := PyStr (lit "job-1") |}).
  { exists (lit "job-1"). split; [reflexivity|]. split; reflexivity. }
  split; [exact Hv|].
  exact (metadata_roundtrip Hv).
Defined.

(** C4.  The State Translator maps a status of its table to the state that
    the table gives, and every other status to RUNNING; but on such an
    unmapped status [get] does not return normally: the state is not
    SUCCEEDED, so the call ends with [AttributeError]. *)
Theorem get_unmapped_status_raises
  (backend : Agent.JobBackend) (table : list (pystr * Agent.State))
  (token : bytes) (m : Agent.Metadata) (job : Agent.Job)
  (t : list Agent.event) :
  Agent.decode_metadata token = Ok m ->
  Agent.get_job backend (Agent.job_id m) = Ok job ->
  is_ok (Agent.getitem (Agent.state job) table) = false ->
  Agent.convert_to_flyte_state table (Agent.state job) = Agent.RUNNING
  /\ Agent.get backend table token t
     = (Raise AttributeError,
        (t ++ [Agent.EvClient None]) ++ [Agent.EvGetJob (Agent.job_id m)])
  /\ forall (s : pystr) (st : Agent.State),
       Agent.getitem s table = Ok st ->
       Agent.convert_to_flyte_state table s = st.
Proof.
  intros Hd Hj Hu. pose proof (AgentFacts.convert_unmapped _ _ Hu) as Hr.
  split; [exact Hr|]. split.
  - apply (AgentFacts.get_not_succeeded _ _ _ t Hd Hj). rewrite Hr. discriminate.
  - intros s st. apply AgentFacts.convert_mapped.
Qed.

Lemma get_unmapped_status_raises_witness :
  Agent.convert_to_flyte_state Examples.stub_table (lit "UNKNOWN_EXOTIC")
  = Agent.RUNNING
  /\ Agent.get (Examples.stub_backend (lit "UNKNOWN_EXOTIC"))
       Examples.stub_table Examples.token_job1 []
     = (Raise AttributeError,
        [Agent.EvClient None; Agent.EvGetJob (PyStr (lit "job-1"))])
  /\ forall (s : pystr) (st : Agent.State),
       Agent.getitem s Examples.stub_table = Ok st ->
       Agent.convert_to_flyte_state Examples.stub_table s = st.
Proof.
  refine (@get_unmapped_status_raises
            (Examples.stub_backend (lit "UNKNOWN_EXOTIC")) Examples.stub_table
            Examples.token_job1 {| Agent.job_id := PyStr (lit "job-1") |}
            {| Agent.state := lit "UNKNOWN_EXOTIC";
               Agent.destination := Some Examples.stub_destination |}
            [] _ _ _).
  - vm_compute. reflexivity.
  - reflexivity.
  - vm_compute. reflexivity.
Defined.

(** C5, as stated, fails: the byte [0xc1], which msgpack assigns to no
    value and which is the encoding of no record, makes [get] fail, but
    with the [FormatError] of the unpacker; the exception is not named
    [MalformedMetadataError]. *)
Lemma get_garbage_raises_format_error :
  (forall m : Agent.Metadata, Agent.encode_metadata m <> Ok [xc1])
  /\ Agent.decode_metadata [xc1] = Raise FormatError
  /\ Agent.get (Examples.stub_backend (lit "DONE")) Examples.stub_table
       [xc1] []
     = (Raise FormatError, [Agent.EvClient None])
  /\ class_name FormatError <> lit "MalformedMetadataError".
Proof.
  split; [|split; [|split]].
  - intros m H. destruct (AgentFacts.encode_metadata_starts _ H) as [rest E].
    discriminate E.
  - vm_compute. reflexivity.
  - vm_compute. reflexivity.
  - vm_compute. discriminate.
Qed.

(** C5, amended.  When [msgpack.unpackb] does not turn the token into a
    map with the single string key [job_id], [get] raises the exception of
    the decoding step, an exception of the [ValueError] family from the
    unpacker or the [TypeError] of the constructor and none of the name
    [MalformedMetadataError], right after the client is made: the backend
    is not asked for any job and no state is returned. *)
Theorem get_undecodable_token_raises
  (backend : Agent.JobBackend) (table : list (pystr * Agent.State))
  (token : bytes) (t : list Agent.event) :
  (forall v : pyobj,
     Msgpack.unpackb token <> Ok (PyDict [(PyStr (lit "job_id"), v)])) ->
  exists e : exn,
    (is_ValueError e = true \/ e = TypeError)
    /\ class_name e <> lit "MalformedMetadataError"
    /\ Agent.get backend table token t = (Raise e, t ++ [Agent.EvClient None]).
Proof.
  intros H. destruct (Agent.decode_metadata token) as [m|e] eqn:E.
  - apply AgentFacts.decode_metadata_ok in E. now elim (H (Agent.job_id m)).
  - exists e. pose proof (AgentFacts.decode_metadata_raises _ E) as He.
    split; [exact He|]. split.
    + destruct He as [He|He].
      * destruct e; try discriminate He; vm_compute; discriminate.
      * subst e. vm_compute. discriminate.
    + now rewrite AgentFacts.get_cases, E.
Qed.

Lemma get_undecodable_token_raises_witness :
  (forall v : pyobj,
     Msgpack.unpackb [xc1] <> Ok (PyDict [(PyStr (lit "job_id"), v)]))
  /\ exists e : exn,
       (is_ValueError e = true \/ e = TypeError)
       /\ class_name e <> lit "MalformedMetadataError"
       /\ Agent.get (Examples.stub_backend (lit "DONE")) Examples.stub_table
            [xc1] []
          = (Raise e, [] ++ [Agent.EvClient None]).
Proof.
  assert (H : forall v : pyobj,
            Msgpack.unpackb [xc1] <> Ok (PyDict [(PyStr (lit "job_id"), v)])).
  { intros v E. vm_compute in E. discriminate E. }
  split; [exact H|].
  exact (@get_undecodable_token_raises
           (Examples.stub_backend (lit "DONE")) Examples.stub_table [xc1] [] H).
Defined.

(** C6, as stated, fails: an input of type [datetime.timedelta] has no
    entry in [pythonTypeToBigQueryType], and [create] raises the
    [KeyError] of the failed lookup, the same exception that a template
    without [Location] gets; the exception is not named
    [UnsupportedTypeError]. *)
Lemma create_unmapped_type_raises_key_error :
  Agent.create Examples.stub_type_engine (Examples.stub_backend (lit "RUNNING"))
    (lit "s3://out") Examples.duration_template
    (Some Examples.duration_inputs) []
  = (Raise KeyError, [])
  /\ class_name KeyError <> lit "UnsupportedTypeError"
  /\ Agent.create Examples.stub_type_engine
       (Examples.stub_backend (lit "RUNNING")) (lit "s3://out")
       {| Agent.interface_inputs := [];
          Agent.custom := Some [(lit "ProjectID", lit "p")];
          Agent.sql := Some {| Agent.statement := lit "SELECT 1" |} |}
       None []
     = (Raise KeyError, []).
Proof.
  split; [|split].
  - vm_compute. reflexivity.
  - vm_compute. discriminate.
  - vm_compute. reflexivity.
Qed.

(** C6, amended.  [create] fails fast on an input whose declared Python
    type has no entry in [pythonTypeToBigQueryType]: the lookup raises
    [KeyError] while the query parameters are built, and the trace is the
    one the call started with, so no client was constructed and no query
    was submitted. *)
Theorem create_unmapped_type_fails_fast
  (te : Agent.TypeEngine) (backend : Agent.JobBackend) (output_prefix : pystr)
  (task_template : Agent.TaskTemplate) (lm : Agent.LiteralMap)
  (types : list (pystr * Agent.pytype)) (natives : list (pystr * pyobj))
  (name : pystr) (val : pyobj) (t : list Agent.event) :
  Agent.python_interface_inputs te task_template = Ok types ->
  Agent.literal_map_to_kwargs te lm types = Ok natives ->
  In (name, val) natives ->
  is_ok (Agent.bigquery_type types name) = false ->
  Agent.create te backend output_prefix task_template (Some lm) t
  = (Raise KeyError, t).
Proof.
  intros Ht Hn Hin Hty. apply AgentFacts.create_inputs_raise.
  exact (@AgentFacts.job_config_unmapped te task_template lm types natives
           name val Ht Hn Hin Hty).
Qed.

Lemma create_unmapped_type_fails_fast_witness :
  Agent.create Examples.stub_type_engine (Examples.stub_backend (lit "RUNNING"))
    (lit "s3://out") Examples.duration_template
    (Some Examples.duration_inputs) []
  = (Raise KeyError, []).
Proof.
  refine (@create_unmapped_type_fails_fast
            Examples.stub_type_engine (Examples.stub_backend (lit "RUNNING"))
            (lit "s3://out") Examples.duration_template
            Examples.duration_inputs
            [(lit "d", Agent.py_other (lit "datetime.timedelta"))]
            [(lit "d", PyInt 60)] (lit "d") (PyInt 60) [] _ _ _ _).
  - reflexivity.
  - reflexivity.
  - simpl. left. reflexivity.
  - vm_compute. reflexivity.
Defined.

(** C7, as stated, fails: a job that the backend reports as done, which
    translates to SUCCEEDED, but that has no destination table.  [get]
    reads [job.destination.project] on [None] and raises [AttributeError];
    no outputs are returned. *)
Lemma get_succeeded_job_needs_destination :
  Agent.convert_to_flyte_state Examples.stub_table (lit "DONE")
  = Agent.SUCCEEDED
  /\ Agent.get
       {| Agent.query := fun _ _ => Ok (lit "job-1");
          Agent.get_job := fun _ =>
            Ok {| Agent.state := lit "DONE"; Agent.destination := None |};
          Agent.cancel_job := fun _ => Ok tt |}
       Examples.stub_table Examples.token_job1 []
     = (Raise AttributeError,
        [Agent.EvClient None; Agent.EvGetJob (PyStr (lit "job-1"))]).
Proof.
  split; vm_compute; reflexivity.
Qed.

(** C7, amended.  When the status translates to SUCCEEDED and the job has
    a destination table, [get] returns that state with an output map of
    exactly one entry, [results], whose value is a structured-dataset
    literal that wraps the locator [bq://project:dataset.table] of the
    destination; the trace shows the status request and nothing else, so
    no data was read. *)
Theorem get_succeeded_outputs
  (backend : Agent.JobBackend) (table : list (pystr * Agent.State))
  (token : bytes) (m : Agent.Metadata) (job : Agent.Job)
  (d : Agent.TableReference) (t : list Agent.event) :
  Agent.decode_metadata token = Ok m ->
  Agent.get_job backend (Agent.job_id m) = Ok job ->
  Agent.convert_to_flyte_state table (Agent.state job) = Agent.SUCCEEDED ->
  Agent.destination job = Some d ->
  Agent.get backend table token t
  = (Ok {| Agent.resource :=
             {| Agent.res_state := Agent.SUCCEEDED;
                Agent.outputs :=
                  Some [(lit "results",
                         Agent.LitStructuredDataset
                           (lit "bq://" ++ Agent.project d ++ lit ":"
                            ++ Agent.dataset_id d ++ lit "."
                            ++ Agent.table_id d)
                           {| Agent.format := lit EmptyString |})] |} |},
     (t ++ [Agent.EvClient None]) ++ [Agent.EvGetJob (Agent.job_id m)]).
Proof.
  intros Hd Hj Hs Hdest. rewrite AgentFacts.get_cases, Hd, Hj. cbv zeta.
  rewrite Hs, Hdest. cbn [Agent.State_eqb]. reflexivity.
Qed.

Lemma get_succeeded_outputs_witness :
  Agent.get (Examples.stub_backend (lit "DONE")) Examples.stub_table
    Examples.token_job1 []
  = (Ok {| Agent.resource :=
             {| Agent.res_state := Agent.SUCCEEDED;
                Agent.outputs :=
                  Some [(lit "results",
                         Agent.LitStructuredDataset (lit "bq://proj:ds.tbl")
                           {| Agent.format := lit EmptyString |})] |} |},
     [Agent.EvClient None; Agent.EvGetJob (PyStr (lit "job-1"))]).
Proof.
  refine (@get_succeeded_outputs
            (Examples.stub_backend (lit "DONE")) Examples.stub_table
            Examples.token_job1 {| Agent.job_id := PyStr (lit "job-1") |}
            {| Agent.state := lit "DONE";
               Agent.destination := Some Examples.stub_destination |}
            Examples.stub_destination [] _ _ _ _).
  - vm_compute. reflexivity.
  - reflexivity.
  - vm_compute. reflexivity.
  - reflexivity.
Defined.

(** C8.  While the backend keeps reporting a status that translates to
    FAILED, no poll returns FAILED: each of the [n] calls of [get] with
    the token ends with [AttributeError], because [res] is [None] in that
    state. *)
Theorem poll_failed_job_raises
  (backend : Agent.JobBackend) (table : list (pystr * Agent.State))
  (token : bytes) (m : Agent.Metadata) (job : Agent.Job) (n : nat)
  (t : list Agent.event) :
  Agent.decode_metadata token = Ok m ->
  Agent.get_job backend (Agent.job_id m) = Ok job ->
  Agent.convert_to_flyte_state table (Agent.state job) = Agent.FAILED ->
  fst (Agent.poll backend table n token t) = repeat (Raise AttributeError) n.
Proof.
  intros Hd Hj Hs. revert t. induction n as [|n IH]; intros t; [reflexivity|].
  cbn [Agent.poll repeat].
  rewrite (AgentFacts.get_not_succeeded _ _ _ t Hd Hj)
    by (rewrite Hs; discriminate).
  specialize (IH ((t ++ [Agent.EvClient None])
                  ++ [Agent.EvGetJob (Agent.job_id m)])).
  destruct (Agent.poll backend table n token _) as [rs t2].
  cbn [fst] in *. now rewrite IH.
Qed.

Lemma poll_failed_job_raises_witness :
  fst (Agent.poll (Examples.stub_backend (lit "FAILED")) Examples.stub_table 3
         Examples.token_job1 [])
  = [Raise AttributeError; Raise AttributeError; Raise AttributeError].
Proof.
  refine (@poll_failed_job_raises
            (Examples.stub_backend (lit "FAILED")) Examples.stub_table
            Examples.token_job1 {| Agent.job_id := PyStr (lit "job-1") |}
            {| Agent.state := lit "FAILED";
               Agent.destination := Some Examples.stub_destination |}
            3 [] _ _ _).
  - vm_compute. reflexivity.
  - reflexivity.
  - vm_compute. reflexivity.
Defined.

(* ----------------------------------------------------------------- *)
(** ** Further properties of the agent *)

Module AgentMore.
Import Agent.
Local Open Scope N_scope.

Lemma State_eqb_eq (a b : State) : State_eqb a b = true <-> a = b.
Proof. destruct a, b; cbn; split; congruence. Qed.

(** A map of one entry unpacks to the dict of that entry, whatever
    follows it. *)
Lemma unpack_singleton_map_rest (limit : N) (d : nat) (k v : pystr)
  (kb vb rest : bytes) :
  Msgpack.pack_str k = Ok kb -> Msgpack.pack_str v = Ok vb -> 2 <= limit ->
  Msgpack.unpack limit (S d) (x81 :: kb ++ vb ++ rest)
  = Ok (PyDict [(PyStr k, PyStr v)], rest).
Proof.
  intros Hk Hv Hl.
  rewrite MsgpackFacts.unpack_fixmap by (cbn; lia).
  unfold Msgpack.unpack_map.
  change (Byte.to_N x81 - 0x80) with 1.
  destruct (N.ltb_spec (limit / 2) 1) as [H|H]; [exfalso; dlia|].
  change (N.to_nat 1) with 1%nat. cbn [Msgpack.entries].
  rewrite (MsgpackFacts.unpack_pack_str _ _ _ _ Hk). cbn [rbind].
  rewrite (MsgpackFacts.unpack_pack_str _ _ _ _ Hv). reflexivity.
Qed.

(** The shape of a token: map header, key, packed identifier. *)
Lemma token_shape (s : pystr) (token : bytes) :
  encode_metadata {| job_id := PyStr s |} = Ok token ->
  exists bv : bytes,
    Msgpack.pack_str s = Ok bv /\ token = x81 :: job_id_key ++ bv.
Proof.
  rewrite AgentFacts.encode_metadata_str.
  destruct (Msgpack.pack_str s) as [bv|]; [|discriminate].
  cbn [rbind]. intros H. apply Ok_inj in H. now exists bv.
Qed.

End AgentMore.

(** X2.  [get] returns a response in one case only: whenever the call
    returns, the state is SUCCEEDED and the outputs are present, a map
    with the single entry [results] holding a structured-dataset literal.
    No other state is ever returned. *)
Theorem get_returns_only_succeeded
  (backend : Agent.JobBackend) (table : list (pystr * Agent.State))
  (token : bytes) (t t' : list Agent.event) (r : Agent.GetTaskResponse) :
  Agent.get backend table token t = (Ok r, t') ->
  Agent.res_state (Agent.resource r) = Agent.SUCCEEDED
  /\ exists loc : pystr,
       Agent.outputs (Agent.resource r)
       = Some [(lit "results",
                Agent.LitStructuredDataset loc
                  {| Agent.format := lit EmptyString |})].
Proof.
  rewrite AgentFacts.get_cases.
  destruct (Agent.decode_metadata token) as [m|]; [|discriminate].
  cbv zeta. destruct (Agent.get_job backend (Agent.job_id m)) as [job|];
    [|discriminate].
  destruct (Agent.State_eqb _ Agent.SUCCEEDED) eqn:E; [|discriminate].
  apply AgentMore.State_eqb_eq in E.
  destruct (Agent.destination job) as [d|]; [|discriminate].
  intros H. injection H as <- _. cbn. split; [exact E|].
  eexists. reflexivity.
Qed.

Lemma get_returns_only_succeeded_witness :
  Agent.get (Examples.stub_backend (lit "DONE")) Examples.stub_table
    Examples.token_job1 []
  = (Ok {| Agent.resource :=
             {| Agent.res_state := Agent.SUCCEEDED;
                Agent.outputs :=
                  Some [(lit "results",
                         Agent.LitStructuredDataset (lit "bq://proj:ds.tbl")
                           {| Agent.format := lit EmptyString |})] |} |},
     [Agent.EvClient None; Agent.EvGetJob (PyStr (lit "job-1"))])
  /\ Agent.SUCCEEDED = Agent.SUCCEEDED
  /\ exists loc : pystr,
       Some [(lit "results",
              Agent.LitStructuredDataset (lit "bq://proj:ds.tbl")
                {| Agent.format := lit EmptyString |})]
       = Some [(lit "results",
                Agent.LitStructuredDataset loc
                  {| Agent.format := lit EmptyString |})].
Proof.
  assert (H : Agent.get (Examples.stub_backend (lit "DONE"))
                Examples.stub_table Examples.token_job1 []
              = (Ok {| Agent.resource :=
                         {| Agent.res_state := Agent.SUCCEEDED;
                            Agent.outputs :=
                              Some [(lit "results",
                                     Agent.LitStructuredDataset
                                       (lit "bq://proj:ds.tbl")
                                       {| Agent.format := lit EmptyString |})]
                         |} |},
                 [Agent.EvClient None; Agent.EvGetJob (PyStr (lit "job-1"))])).
  { vm_compute. reflexivity. }
  split; [exact H|].
  exact (@get_returns_only_succeeded _ _ _ _ _ _ H).
Defined.

(** X3.  [get] is read-only against the backend: on every token and in
    every outcome, all it adds to the trace is the construction of the
    client and at most one status request; it never submits a query and
    never cancels a job. *)
Theorem get_is_read_only
  (backend : Agent.JobBackend) (table : list (pystr * Agent.State))
  (token : bytes) (t : list Agent.event) :
  snd (Agent.get backend table token t) = t ++ [Agent.EvClient None]
  \/ exists id : pyobj,
       snd (Agent.get backend table token t)
       = (t ++ [Agent.EvClient None]) ++ [Agent.EvGetJob id].
Proof.
  destruct (Agent.decode_metadata token) as [m|e] eqn:E.
  - right. exists (Agent.job_id m). now apply AgentFacts.get_trace.
  - left. now rewrite AgentFacts.get_cases, E.
Qed.

(** X4.  An error of the backend on the status request, such as a job it
    has no record of, is what [get] raises: the exception is passed on as
    it is, after the one request, and no state is returned. *)
Theorem get_passes_backend_error_on
  (backend : Agent.JobBackend) (table : list (pystr * Agent.State))
  (token : bytes) (m : Agent.Metadata) (e : exn) (t : list Agent.event) :
  Agent.decode_metadata token = Ok m ->
  Agent.get_job backend (Agent.job_id m) = Raise e ->
  Agent.get backend table token t
  = (Raise e, (t ++ [Agent.EvClient None]) ++ [Agent.EvGetJob (Agent.job_id m)]).
Proof.
  intros Hd Hj. now rewrite AgentFacts.get_cases, Hd, Hj.
Qed.

(** X5.  A succeeded job without a destination table cannot be reported:
    building the locator reads [job.destination.project], and with
    [destination] unset [get] raises [AttributeError] although the job
    succeeded. *)
Theorem get_succeeded_without_destination
  (backend : Agent.JobBackend) (table : list (pystr * Agent.State))
  (token : bytes) (m : Agent.Metadata) (job : Agent.Job)
  (t : list Agent.event) :
  Agent.decode_metadata token = Ok m ->
  Agent.get_job backend (Agent.job_id m) = Ok job ->
  Agent.convert_to_flyte_state table (Agent.state job) = Agent.SUCCEEDED ->
  Agent.destination job = None ->
  Agent.get backend table token t
  = (Raise AttributeError,
     (t ++ [Agent.EvClient None]) ++ [Agent.EvGetJob (Agent.job_id m)]).
Proof.
  intros Hd Hj Hs Hn. rewrite AgentFacts.get_cases, Hd, Hj. cbv zeta.
  now rewrite Hs, Hn.
Qed.

Lemma get_passes_backend_error_on_witness :
  Agent.get
    {| Agent.query := fun _ _ => Ok (lit "job-1");
       Agent.get_job := fun _ => Raise (BackendError (lit "NotFound"));
       Agent.cancel_job := fun _ => Ok tt |}
    Examples.stub_table Examples.token_job1 []
  = (Raise (BackendError (lit "NotFound")),
     [Agent.EvClient None; Agent.EvGetJob (PyStr (lit "job-1"))]).
Proof.
  refine (@get_passes_backend_error_on
            {| Agent.query := fun _ _ => Ok (lit "job-1");
               Agent.get_job := fun _ => Raise (BackendError (lit "NotFound"));
               Agent.cancel_job := fun _ => Ok tt |}
            Examples.stub_table Examples.token_job1
            {| Agent.job_id := PyStr (lit "job-1") |}
            (BackendError (lit "NotFound")) [] _ _).
  - vm_compute. reflexivity.
  - reflexivity.
Defined.

Lemma get_succeeded_without_destination_witness :
  Agent.get
    {| Agent.query := fun _ _ => Ok (lit "job-1");
       Agent.get_job := fun _ =>
         Ok {| Agent.state := lit "DONE"; Agent.destination := None |};
       Agent.cancel_job := fun _ => Ok tt |}
    Examples.stub_table Examples.token_job1 []
  = (Raise AttributeError,
     [Agent.EvClient None; Agent.EvGetJob (PyStr (lit "job-1"))]).
Proof.
  refine (@get_succeeded_without_destination
            {| Agent.query := fun _ _ => Ok (lit "job-1");
               Agent.get_job := fun _ =>
                 Ok {| Agent.state := lit "DONE"; Agent.destination := None |};
               Agent.cancel_job := fun _ => Ok tt |}
            Examples.stub_table Examples.token_job1
            {| Agent.job_id := PyStr (lit "job-1") |}
            {| Agent.state := lit "DONE"; Agent.destination := None |}
            [] _ _ _ _).
  - vm_compute. reflexivity.
  - reflexivity.
  - vm_compute. reflexivity.
  - reflexivity.
Defined.

Module TokenFacts.
Import Agent.
Local Open Scope N_scope.

Lemma take_short (n : N) (bs : bytes) :
  N.of_nat (List.length bs) < n -> Msgpack.take n bs = Raise ValueError.
Proof.
  intros H. unfold Msgpack.take.
  destruct (N.ltb_spec (N.of_nat (List.length bs)) n); [reflexivity | lia].
Qed.

Lemma uint_short (k : N) (bs : bytes) :
  N.of_nat (List.length bs) < k -> Msgpack.uint k bs = Raise ValueError.
Proof. intros H. unfold Msgpack.uint. now rewrite take_short. Qed.

Lemma unpack_str_short (n : N) (bs : bytes) :
  N.of_nat (List.length bs) < n -> Msgpack.unpack_str n bs = Raise ValueError.
Proof. intros H. unfold Msgpack.unpack_str. now rewrite take_short. Qed.

Lemma unpack_nil (limit : N) (d : nat) :
  Msgpack.unpack limit d [] = Raise ValueError.
Proof. destruct d; reflexivity. Qed.

(** A header with a length field of [k] bytes, cut anywhere before the end
    of the payload. *)
Lemma cut_after_tag (k : nat) (n : N) (u : bytes) (j : nat) :
  n < 256 ^ N.of_nat k -> n = N.of_nat (List.length u) ->
  (j < k + List.length u)%nat ->
  rbind (Msgpack.uint (N.of_nat k) (firstn j (Msgpack.be_bytes k n ++ u)))
    (fun kr => Msgpack.unpack_str (fst kr) (snd kr))
  = Raise ValueError.
Proof.
  intros Hn Hu Hj. destruct (Nat.ltb_spec j k) as [Hlt|Hge].
  - rewrite uint_short; [reflexivity|].
    rewrite length_firstn, length_app, MsgpackFacts.length_be_bytes. lia.
  - rewrite firstn_app, MsgpackFacts.length_be_bytes.
    rewrite (firstn_all2 (n := j) (Msgpack.be_bytes k n))
      by (rewrite MsgpackFacts.length_be_bytes; lia).
    rewrite MsgpackFacts.uint_be_bytes by exact Hn. cbn [rbind fst snd].
    apply unpack_str_short. rewrite length_firstn. lia.
Qed.

(** A packed [str] cut short does not unpack: the input is incomplete. *)
Lemma unpack_cut_str (limit : N) (d : nat) (s : pystr) (bv : bytes) (j : nat) :
  Msgpack.pack_str s = Ok bv -> (j < List.length bv)%nat ->
  Msgpack.unpack limit d (firstn j bv) = Raise ValueError.
Proof.
  unfold Msgpack.pack_str.
  destruct (Utf8.encode s) as [u|]; [|discriminate].
  cbn [rbind]. unfold Msgpack.str_header.
  set (n := N.of_nat (List.length u)).
  destruct j as [|j]; [intros _ _; apply unpack_nil|].
  destruct (N.ltb_spec n 32) as [H1|H1].
  { cbn [rbind]. intros E. apply Ok_inj in E. rewrite <- E.
    cbn [app List.length firstn]. intros Hj.
    rewrite MsgpackFacts.unpack_fixstr by (rewrite to_N_byte_of; lia).
    rewrite to_N_byte_of by lia.
    apply unpack_str_short. rewrite length_firstn. lia. }
  destruct (N.ltb_spec n 0x100) as [H2|H2].
  { cbn [rbind]. intros E. apply Ok_inj in E. rewrite <- E.
    rewrite <- app_comm_cons. cbn [List.length firstn].
    rewrite length_app, MsgpackFacts.length_be_bytes. intros Hj.
    rewrite MsgpackFacts.unpack_str8.
    apply (@cut_after_tag 1 n u j); [cbn; lia | reflexivity | lia]. }
  destruct (N.ltb_spec n 0x10000) as [H3|H3].
  { cbn [rbind]. intros E. apply Ok_inj in E. rewrite <- E.
    rewrite <- app_comm_cons. cbn [List.length firstn].
    rewrite length_app, MsgpackFacts.length_be_bytes. intros Hj.
    rewrite MsgpackFacts.unpack_str16.
    apply (@cut_after_tag 2 n u j); [cbn; lia | reflexivity | lia]. }
  destruct (N.ltb_spec n 0x100000000) as [H4|H4]; [|discriminate].
  cbn [rbind]. intros E. apply Ok_inj in E. rewrite <- E.
  rewrite <- app_comm_cons. cbn [List.length firstn].
  rewrite length_app, MsgpackFacts.length_be_bytes. intros Hj.
  rewrite MsgpackFacts.unpack_str32.
  apply (@cut_after_tag 4 n u j); [cbn; lia | reflexivity | lia].
Qed.

(** A packed [str] has at least its header byte. *)
Lemma pack_str_nonempty (s : pystr) (bv : bytes) :
  Msgpack.pack_str s = Ok bv -> (1 <= List.length bv)%nat.
Proof.
  unfold Msgpack.pack_str, Msgpack.str_header.
  destruct (Utf8.encode s) as [u|]; [|discriminate]. cbn [rbind].
  repeat match goal with
         | |- context [if ?c then _ else _] => destruct c
         end; cbn [rbind]; try discriminate;
    intros E; apply Ok_inj in E; rewrite <- E; cbn [app List.length]; lia.
Qed.

(** A token of [create] cut short does not decode. *)
Lemma decode_cut_token (s : pystr) (token : bytes) (k : nat) :
  encode_metadata {| job_id := PyStr s |} = Ok token ->
  (k < List.length token)%nat ->
  decode_metadata (firstn k token) = Raise ValueError.
Proof.
  intros He Hk. apply AgentMore.token_shape in He.
  destruct He as (bv & Hbv & ->).
  do 8 (destruct k as [|k]; [vm_compute; reflexivity|]).
  cbn [List.length app job_id_key] in Hk.
  change (firstn (S (S (S (S (S (S (S (S k))))))))
            (x81 :: job_id_key ++ bv))
    with (x81 :: job_id_key ++ firstn k bv).
  unfold decode_metadata, Msgpack.unpackb.
  change Msgpack.max_depth with (S 1023).
  rewrite MsgpackFacts.unpack_fixmap by (cbn; lia).
  unfold Msgpack.unpack_map.
  change (Byte.to_N x81 - 0x80) with 1.
  match goal with
  | |- context [N.ltb ?a 1] => destruct (N.ltb_spec a 1) as [H|H]
  end; [reflexivity|].
  change (N.to_nat 1) with 1%nat. cbn [Msgpack.entries].
  rewrite (MsgpackFacts.unpack_pack_str _ _ _ _ AgentFacts.pack_job_id_key).
  cbn [rbind].
  rewrite (unpack_cut_str _ _ _ Hbv) by lia.
  reflexivity.
Qed.

End TokenFacts.

(** X6.  A token of [create] with anything appended to it is refused: the
    unpacker finds data after the record and [get] raises msgpack's
    [ExtraData] before it asks the backend for any job. *)
Theorem get_rejects_trailing_bytes
  (backend : Agent.JobBackend) (table : list (pystr * Agent.State))
  (s : pystr) (token : bytes) (b : byte) (rest : bytes)
  (t : list Agent.event) :
  Agent.encode_metadata {| Agent.job_id := PyStr s |} = Ok token ->
  Agent.get backend table (token ++ b :: rest) t
  = (Raise ExtraData, t ++ [Agent.EvClient None]).
Proof.
  intros He. apply AgentMore.token_shape in He.
  destruct He as (bv & Hbv & ->).
  rewrite AgentFacts.get_cases.
  assert (Hd : Agent.decode_metadata
                 ((x81 :: Agent.job_id_key ++ bv) ++ b :: rest)
               = Raise ExtraData).
  { unfold Agent.decode_metadata, Msgpack.unpackb.
    change Msgpack.max_depth with (S 1023).
    rewrite <- app_comm_cons, <- app_assoc.
    rewrite (@AgentMore.unpack_singleton_map_rest _ _ (lit "job_id") s
               Agent.job_id_key bv (b :: rest)
               AgentFacts.pack_job_id_key Hbv)
      by (cbn [List.length Agent.job_id_key app]; lia).
    reflexivity. }
  now rewrite Hd.
Qed.

Lemma get_rejects_trailing_bytes_witness :
  Agent.get (Examples.stub_backend (lit "DONE")) Examples.stub_table
    (Examples.token_job1 ++ [x00]) []
  = (Raise ExtraData, [Agent.EvClient None]).
Proof.
  refine (@get_rejects_trailing_bytes
            (Examples.stub_backend (lit "DONE")) Examples.stub_table
            (lit "job-1") Examples.token_job1 x00 [] [] _).
  vm_compute. reflexivity.
Defined.

(** X7.  A token of [create] that lost its end is refused: for every
    proper prefix of the token the unpacker reports incomplete input, and
    [get] raises [ValueError] before it asks the backend for any job. *)
Theorem get_rejects_truncated_token
  (backend : Agent.JobBackend) (table : list (pystr * Agent.State))
  (s : pystr) (token : bytes) (k : nat) (t : list Agent.event) :
  Agent.encode_metadata {| Agent.job_id := PyStr s |} = Ok token ->
  (k < List.length token)%nat ->
  Agent.get backend table (firstn k token) t
  = (Raise ValueError, t ++ [Agent.EvClient None]).
Proof.
  intros He Hk. rewrite AgentFacts.get_cases.
  now rewrite (TokenFacts.decode_cut_token _ He Hk).
Qed.

Lemma get_rejects_truncated_token_witness :
  Agent.get (Examples.stub_backend (lit "DONE")) Examples.stub_table
    (firstn 11 Examples.token_job1) []
  = (Raise ValueError, [Agent.EvClient None]).
Proof.
  refine (@get_rejects_truncated_token
            (Examples.stub_backend (lit "DONE")) Examples.stub_table
            (lit "job-1") Examples.token_job1 11 [] _ _).
  - vm_compute. reflexivity.
  - vm_compute. lia.
Defined.

(** X8.  The record admits no second field: a map that carries another
    string field beside [job_id] unpacks, but the constructor refuses the
    unexpected keyword, and [get] raises [TypeError] before it asks the
    backend for any job. *)
Theorem get_rejects_extra_field
  (backend : Agent.JobBackend) (table : list (pystr * Agent.State))
  (s k v : pystr) (sb kb vb : bytes) (t : list Agent.event) :
  Msgpack.pack_str s = Ok sb ->
  Msgpack.pack_str k = Ok kb ->
  Msgpack.pack_str v = Ok vb ->
  k <> lit "job_id" ->
  Agent.get backend table (x82 :: Agent.job_id_key ++ sb ++ kb ++ vb) t
  = (Raise TypeError, t ++ [Agent.EvClient None]).
Proof.
  intros Hs Hk Hv Hne. rewrite AgentFacts.get_cases.
  assert (Hd : Agent.decode_metadata
                 (x82 :: Agent.job_id_key ++ sb ++ kb ++ vb)
               = Raise TypeError).
  { pose proof (TokenFacts.pack_str_nonempty _ Hs) as Ls.
    pose proof (TokenFacts.pack_str_nonempty _ Hk) as Lk.
    pose proof (TokenFacts.pack_str_nonempty _ Hv) as Lv.
    unfold Agent.decode_metadata, Msgpack.unpackb.
    change Msgpack.max_depth with (S 1023).
    rewrite MsgpackFacts.unpack_fixmap by (cbn; lia).
    unfold Msgpack.unpack_map.
    change (Byte.to_N x82 - 0x80)%N with 2%N.
    match goal with
    | |- context [N.ltb ?a 2%N] => destruct (N.ltb_spec a 2%N) as [H|H]
    end.
    { exfalso. revert H. cbn [List.length Agent.job_id_key app].
      rewrite !length_app. intros H. dlia. }
    change (N.to_nat 2) with 2%nat. cbn [Msgpack.entries].
    rewrite (MsgpackFacts.unpack_pack_str _ _ _ _ AgentFacts.pack_job_id_key).
    cbn [rbind].
    rewrite (MsgpackFacts.unpack_pack_str _ _ _ _ Hs). cbn [rbind].
    cbn [Msgpack.is_map_key dict_set].
    rewrite (MsgpackFacts.unpack_pack_str _ _ _ _ Hk). cbn [rbind].
    rewrite <- (app_nil_r vb).
    rewrite (MsgpackFacts.unpack_pack_str _ _ _ _ Hv). cbn [rbind].
    cbn [Msgpack.is_map_key dict_set key_eqb].
    destruct (pystr_eqb k (lit "job_id")) eqn:E.
    { apply pystr_eqb_eq in E. contradiction. }
    cbn [rbind]. unfold Agent.Metadata_kwargs.
    cbn [forallb fst andb dict_get key_eqb].
    rewrite pystr_eqb_refl. reflexivity. }
  now rewrite Hd.
Qed.

Lemma get_rejects_extra_field_witness :
  Agent.get (Examples.stub_backend (lit "DONE")) Examples.stub_table
    (x82 :: Agent.job_id_key
       ++ [xa5; x6a; x6f; x62; x2d; x31] ++ [xa1; x76] ++ [xa1; x32]) []
  = (Raise TypeError, [] ++ [Agent.EvClient None]).
Proof.
  refine (@get_rejects_extra_field
            (Examples.stub_backend (lit "DONE")) Examples.stub_table
            (lit "job-1") (lit "v") (lit "2") _ _ _ [] _ _ _ _).
  - reflexivity.
  - reflexivity.
  - reflexivity.
  - discriminate.
Defined.

Module CreateFacts.
Import Agent.

(** The job configuration that [create] passes to the query: none without
    inputs, the converted inputs otherwise. *)
Lemma create_cases (te : TypeEngine) (backend : JobBackend)
  (output_prefix : pystr) (task_template : TaskTemplate)
  (inputs : option LiteralMap) (t : list event) :
  create te backend output_prefix task_template inputs t
  = match
      match inputs with
      | Some lm =>
          rbind (job_config_of_inputs te task_template lm)
            (fun c => Ok (Some c))
      | None => Ok None
      end
    with
    | Raise e => (Raise e, t)
    | Ok cfg =>
        match custom task_template with
        | None => (Raise TypeError, t)
        | Some c =>
            match getitem (lit "ProjectID") c with
            | Raise e => (Raise e, t)
            | Ok p =>
                match getitem (lit "Location") c with
                | Raise e => (Raise e, t)
                | Ok l =>
                    let t1 := t ++ [EvClient (Some (p, l))] in
                    match sql task_template with
                    | None => (Raise AttributeError, t1)
                    | Some q =>
                        let t2 := t1 ++ [EvQuery (statement q) cfg] in
                        match query backend (statement q) cfg with
                        | Raise e => (Raise e, t2)
                        | Ok id =>
                            match encode_metadata {| job_id := PyStr id |} with
                            | Raise e => (Raise e, t2)
                            | Ok tok => (Ok {| resource_meta := tok |}, t2)
                            end
                        end
                    end
                end
            end
        end
    end.
Proof.
  unfold encode_metadata. AgentFacts.run_trace.
  destruct inputs as [lm|];
    [destruct (job_config_of_inputs te task_template lm) as [c|];
     cbn [rbind]; [|reflexivity]|];
    (destruct (custom task_template) as [cu|]; [|reflexivity];
     destruct (getitem (lit "ProjectID") cu) as [pid|]; [|reflexivity];
     destruct (getitem (lit "Location") cu) as [loc|]; [|reflexivity];
     destruct (sql task_template) as [q|]; [|reflexivity];
     match goal with
     | |- context [query backend ?st ?cfg] =>
         destruct (query backend st cfg) as [id|]; [|reflexivity];
         destruct (Msgpack.packb (asdict {| job_id := PyStr id |}));
         reflexivity
     end).
Qed.

(** The query parameters built from the native inputs, when every input
    has a BigQuery parameter type. *)
Lemma parameters_of_natives (types : list (pystr * pytype))
  (natives : list (pystr * pyobj)) :
  (forall nv : pystr * pyobj,
     In nv natives -> is_ok (bigquery_type types (fst nv)) = true) ->
  exists params : list ScalarQueryParameter,
    comprehension
      (fun nv =>
         rbind (bigquery_type types (fst nv))
           (fun bq =>
              Ok {| sqp_name := fst nv; sqp_type := bq; sqp_value := snd nv |}))
      natives
    = Ok params
    /\ map sqp_name params = map fst natives
    /\ map sqp_value params = map snd natives
    /\ Forall (fun prm => bigquery_type types (sqp_name prm) = Ok (sqp_type prm))
         params.
Proof.
  induction natives as [|nv natives IH]; intros H.
  - exists []. repeat split; constructor.
  - destruct IH as (params & E & Hn & Hv & Ht).
    { intros x Hx. apply H. now right. }
    assert (Hx : is_ok (bigquery_type types (fst nv)) = true)
      by (apply H; now left).
    cbn [comprehension].
    destruct (bigquery_type types (fst nv)) as [bq|] eqn:Eb; [|discriminate].
    cbn [rbind]. rewrite E. cbn [rbind]. eexists. split; [reflexivity|].
    cbn [map sqp_name sqp_value]. rewrite Hn, Hv.
    repeat split. constructor; [exact Eb | exact Ht].
Qed.

Lemma config_of_inputs (te : TypeEngine) (task_template : TaskTemplate)
  (inputs : option LiteralMap) (cfg : option QueryJobConfig) :
  match inputs with
  | Some lm =>
      exists jc : QueryJobConfig,
        job_config_of_inputs te task_template lm = Ok jc /\ cfg = Some jc
  | None => cfg = None
  end ->
  match inputs with
  | Some lm =>
      rbind (job_config_of_inputs te task_template lm) (fun c => Ok (Some c))
  | None => Ok None
  end = Ok cfg.
Proof.
  destruct inputs as [lm|]; [|now intros ->].
  intros (jc & -> & ->). reflexivity.
Qed.

(** What a call of [create] that returned has done: the steps of the
    call, read back from its result. *)
Lemma create_ok_inv (te : TypeEngine) (backend : JobBackend)
  (output_prefix : pystr) (task_template : TaskTemplate)
  (inputs : option LiteralMap) (t t' : list event)
  (resp : CreateTaskResponse) :
  create te backend output_prefix task_template inputs t = (Ok resp, t') ->
  exists (cfg : option QueryJobConfig) (c : list (pystr * pystr))
         (p l : pystr) (q : Sql) (id : pystr),
    match inputs with
    | Some lm =>
        exists jc : QueryJobConfig,
          job_config_of_inputs te task_template lm = Ok jc /\ cfg = Some jc
    | None => cfg = None
    end
    /\ custom task_template = Some c
    /\ getitem (lit "ProjectID") c = Ok p
    /\ getitem (lit "Location") c = Ok l
    /\ sql task_template = Some q
    /\ t' = (t ++ [EvClient (Some (p, l))]) ++ [EvQuery (statement q) cfg]
    /\ query backend (statement q) cfg = Ok id
    /\ encode_metadata {| job_id := PyStr id |} = Ok (resource_meta resp).
Proof.
  rewrite create_cases.
  destruct (match inputs with
            | Some lm =>
                rbind (job_config_of_inputs te task_template lm)
                  (fun c => Ok (Some c))
            | None => Ok None
            end) as [cfg|] eqn:Ecfg; [|discriminate].
  destruct (custom task_template) as [c|]; [|discriminate].
  destruct (getitem (lit "ProjectID") c) as [p|] eqn:Ep; [|discriminate].
  destruct (getitem (lit "Location") c) as [l|] eqn:El; [|discriminate].
  cbv zeta. destruct (sql task_template) as [q|]; [|discriminate].
  destruct (query backend (statement q) cfg) as [id|] eqn:Eq; [|discriminate].
  destruct (encode_metadata {| job_id := PyStr id |}) as [tok|] eqn:Et;
    [|discriminate].
  intros H. injection H as <- <-.
  exists cfg, c, p, l, q, id.
  split; [|repeat (split; [reflexivity || assumption|]); exact Et].
  destruct inputs as [lm|].
  - destruct (job_config_of_inputs te task_template lm) as [jc|];
      [|discriminate]. cbn [rbind] in Ecfg. apply Ok_inj in Ecfg.
    now exists jc.
  - now apply Ok_inj in Ecfg.
Qed.

End CreateFacts.

(** X1.  [create] and [get] agree on the job identifier.  Whenever
    [create] returns a token, the call made one client for the template's
    [ProjectID] and [Location] and submitted the template's statement once,
    with the job configuration built from the inputs; the identifier is
    the backend's answer to that submission; the token decodes to the
    record of that identifier; and a later [get] with the token, which
    makes its client without project or location, asks for the job of that
    identifier and for nothing else, on any backend and with any
    translator table. *)
Theorem create_then_get_same_job
  (te : Agent.TypeEngine) (backend : Agent.JobBackend) (output_prefix : pystr)
  (task_template : Agent.TaskTemplate) (inputs : option Agent.LiteralMap)
  (t t' : list Agent.event) (resp : Agent.CreateTaskResponse) :
  Agent.create te backend output_prefix task_template inputs t = (Ok resp, t') ->
  exists (cfg : option Agent.QueryJobConfig) (c : list (pystr * pystr))
         (p l : pystr) (q : Agent.Sql) (id : pystr),
    match inputs with
    | Some lm =>
        exists jc : Agent.QueryJobConfig,
          Agent.job_config_of_inputs te task_template lm = Ok jc
          /\ cfg = Some jc
    | None => cfg = None
    end
    /\ Agent.custom task_template = Some c
    /\ Agent.getitem (lit "ProjectID") c = Ok p
    /\ Agent.getitem (lit "Location") c = Ok l
    /\ Agent.sql task_template = Some q
    /\ t' = (t ++ [Agent.EvClient (Some (p, l))])
            ++ [Agent.EvQuery (Agent.statement q) cfg]
    /\ Agent.query backend (Agent.statement q) cfg = Ok id
    /\ Agent.decode_metadata (Agent.resource_meta resp)
       = Ok {| Agent.job_id := PyStr id |}
    /\ forall (backend' : Agent.JobBackend)
              (table : list (pystr * Agent.State)) (u : list Agent.event),
         snd (Agent.get backend' table (Agent.resource_meta resp) u)
         = (u ++ [Agent.EvClient None]) ++ [Agent.EvGetJob (PyStr id)].
Proof.
  intros H. apply CreateFacts.create_ok_inv in H.
  destruct H as (cfg & c & p & l & q & id
                 & Hin & Hc & Hp & Hl & Hq & Ht & Hid & He).
  exists cfg, c, p, l, q, id.
  pose proof (AgentFacts.decode_encode_metadata _ He) as Hd.
  repeat (split; [assumption|]).
  intros backend' table u.
  exact (@AgentFacts.get_trace backend' table _
           {| Agent.job_id := PyStr id |} u Hd).
Qed.

Lemma create_then_get_same_job_witness :
  exists (cfg : option Agent.QueryJobConfig) (c : list (pystr * pystr))
         (p l : pystr) (q : Agent.Sql) (id : pystr),
    (exists jc : Agent.QueryJobConfig,
       Agent.job_config_of_inputs Examples.stub_type_engine
         Examples.int_template Examples.int_inputs = Ok jc
       /\ cfg = Some jc)
    /\ Agent.custom Examples.int_template = Some c
    /\ Agent.getitem (lit "ProjectID") c = Ok p
    /\ Agent.getitem (lit "Location") c = Ok l
    /\ Agent.sql Examples.int_template = Some q
    /\ [Agent.EvClient (Some (lit "p", lit "US"));
        Agent.EvQuery (lit "SELECT @x")
          (Some {| Agent.query_parameters :=
                     [{| Agent.sqp_name := lit "x";
                         Agent.sqp_type := lit "INT64";
                         Agent.sqp_value := PyInt 5 |}] |})]
       = ([] ++ [Agent.EvClient (Some (p, l))])
         ++ [Agent.EvQuery (Agent.statement q) cfg]
    /\ Agent.query (Examples.stub_backend (lit "RUNNING"))
         (Agent.statement q) cfg = Ok id
    /\ Agent.decode_metadata Examples.token_job1
       = Ok {| Agent.job_id := PyStr id |}
    /\ forall (backend' : Agent.JobBackend)
              (table : list (pystr * Agent.State)) (u : list Agent.event),
         snd (Agent.get backend' table Examples.token_job1 u)
         = (u ++ [Agent.EvClient None]) ++ [Agent.EvGetJob (PyStr id)].
Proof.
  refine (@create_then_get_same_job
            Examples.stub_type_engine (Examples.stub_backend (lit "RUNNING"))
            (lit "s3://out") Examples.int_template (Some Examples.int_inputs)
            [] _ {| Agent.resource_meta := Examples.token_job1 |} _).
  vm_compute. reflexivity.
Defined.

(** X9.  The success path of [create]: with inputs that convert (or
    without inputs), a template that names project and location and holds
    a statement, and a backend that accepts the query under a valid
    identifier, [create] constructs one client for that project and
    location, submits the statement once with the job configuration, and
    returns a token that decodes to the record of the identifier. *)
Theorem create_submits_then_encodes
  (te : Agent.TypeEngine) (backend : Agent.JobBackend) (output_prefix : pystr)
  (task_template : Agent.TaskTemplate) (inputs : option Agent.LiteralMap)
  (cfg : option Agent.QueryJobConfig) (c : list (pystr * pystr))
  (p l id : pystr) (q : Agent.Sql) (t : list Agent.event) :
  match inputs with
  | Some lm =>
      exists jc : Agent.QueryJobConfig,
        Agent.job_config_of_inputs te task_template lm = Ok jc /\ cfg = Some jc
  | None => cfg = None
  end ->
  Agent.custom task_template = Some c ->
  Agent.getitem (lit "ProjectID") c = Ok p ->
  Agent.getitem (lit "Location") c = Ok l ->
  Agent.sql task_template = Some q ->
  Agent.query backend (Agent.statement q) cfg = Ok id ->
  Agent.valid_metadata {| Agent.job_id := PyStr id |} ->
  exists token : bytes,
    Agent.create te backend output_prefix task_template inputs t
    = (Ok {| Agent.resource_meta := token |},
       (t ++ [Agent.EvClient (Some (p, l))])
       ++ [Agent.EvQuery (Agent.statement q) cfg])
    /\ Agent.decode_metadata token = Ok {| Agent.job_id := PyStr id |}.
Proof.
  intros Hin Hc Hp Hl Hq Hid Hv.
  destruct (AgentFacts.encode_metadata_total Hv) as [token He].
  exists token. split.
  - rewrite CreateFacts.create_cases.
    rewrite (@CreateFacts.config_of_inputs te task_template inputs cfg Hin),
      Hc, Hp, Hl, Hq.
    cbv zeta. now rewrite Hid, He.
  - now apply AgentFacts.decode_encode_metadata.
Qed.

Lemma create_submits_then_encodes_witness :
  exists token : bytes,
    Agent.create Examples.stub_type_engine
      (Examples.stub_backend (lit "RUNNING")) (lit "s3://out")
      Examples.int_template None []
    = (Ok {| Agent.resource_meta := token |},
       ([] ++ [Agent.EvClient (Some (lit "p", lit "US"))])
       ++ [Agent.EvQuery (lit "SELECT @x") None])
    /\ Agent.decode_metadata token
       = Ok {| Agent.job_id := PyStr (lit "job-1") |}.
Proof.
  refine (@create_submits_then_encodes
            Examples.stub_type_engine (Examples.stub_backend (lit "RUNNING"))
            (lit "s3://out") Examples.int_template None None
            [(lit "ProjectID", lit "p"); (lit "Location", lit "US")]
            (lit "p") (lit "US") (lit "job-1")
            {| Agent.statement := lit "SELECT @x" |} [] _ _ _ _ _ _ _).
  - reflexivity.
  - reflexivity.
  - reflexivity.
  - reflexivity.
  - reflexivity.
  - reflexivity.
  - exists (lit "job-1"). split; [reflexivity|]. split; reflexivity.
Defined.

(** X10.  A template whose [custom] lacks [ProjectID] or [Location] makes
    [create] raise [KeyError] when it reads the key, before the client is
    constructed: nothing reaches the backend. *)
Theorem create_missing_custom_key
  (te : Agent.TypeEngine) (backend : Agent.JobBackend) (output_prefix : pystr)
  (task_template : Agent.TaskTemplate) (inputs : option Agent.LiteralMap)
  (c : list (pystr * pystr)) (t : list Agent.event) :
  match inputs with
  | Some lm => is_ok (Agent.job_config_of_inputs te task_template lm) = true
  | None => True
  end ->
  Agent.custom task_template = Some c ->
  is_ok (Agent.getitem (lit "ProjectID") c)
  && is_ok (Agent.getitem (lit "Location") c) = false ->
  Agent.create te backend output_prefix task_template inputs t
  = (Raise KeyError, t).
Proof.
  intros Hin Hc Hk. rewrite CreateFacts.create_cases.
  assert (E : exists cfg,
            match inputs with
            | Some lm =>
                rbind (Agent.job_config_of_inputs te task_template lm)
                  (fun c0 => Ok (Some c0))
            | None => Ok None
            end = Ok cfg).
  { destruct inputs as [lm|]; [|now exists None].
    destruct (Agent.job_config_of_inputs te task_template lm) as [jc|];
      [|discriminate]. now exists (Some jc). }
  destruct E as [cfg ->]. rewrite Hc.
  destruct (Agent.getitem (lit "ProjectID") c) as [p|e] eqn:Ep.
  - destruct (Agent.getitem (lit "Location") c) as [l|e] eqn:El;
      [discriminate|].
    now rewrite (AgentFacts.getitem_raises _ _ El).
  - now rewrite (AgentFacts.getitem_raises _ _ Ep).
Qed.

Lemma create_missing_custom_key_witness :
  Agent.create Examples.stub_type_engine (Examples.stub_backend (lit "RUNNING"))
    (lit "s3://out")
    {| Agent.interface_inputs := [];
       Agent.custom := Some [(lit "ProjectID", lit "p")];
       Agent.sql := Some {| Agent.statement := lit "SELECT 1" |} |}
    None []
  = (Raise KeyError, []).
Proof.
  refine (@create_missing_custom_key
            Examples.stub_type_engine (Examples.stub_backend (lit "RUNNING"))
            (lit "s3://out")
            {| Agent.interface_inputs := [];
               Agent.custom := Some [(lit "ProjectID", lit "p")];
               Agent.sql := Some {| Agent.statement := lit "SELECT 1" |} |}
            None [(lit "ProjectID", lit "p")] [] _ _ _).
  - exact I.
  - reflexivity.
  - vm_compute. reflexivity.
Defined.

(** X11.  When the backend refuses the query, [create] raises the
    backend's exception as it is and returns no token; the trace holds the
    client and the one submission, and [create] does not try again. *)
Theorem create_passes_submission_error_on
  (te : Agent.TypeEngine) (backend : Agent.JobBackend) (output_prefix : pystr)
  (task_template : Agent.TaskTemplate) (inputs : option Agent.LiteralMap)
  (cfg : option Agent.QueryJobConfig) (c : list (pystr * pystr))
  (p l : pystr) (q : Agent.Sql) (e : exn) (t : list Agent.event) :
  match inputs with
  | Some lm =>
      exists jc : Agent.QueryJobConfig,
        Agent.job_config_of_inputs te task_template lm = Ok jc /\ cfg = Some jc
  | None => cfg = None
  end ->
  Agent.custom task_template = Some c ->
  Agent.getitem (lit "ProjectID") c = Ok p ->
  Agent.getitem (lit "Location") c = Ok l ->
  Agent.sql task_template = Some q ->
  Agent.query backend (Agent.statement q) cfg = Raise e ->
  Agent.create te backend output_prefix task_template inputs t
  = (Raise e,
     (t ++ [Agent.EvClient (Some (p, l))])
     ++ [Agent.EvQuery (Agent.statement q) cfg]).
Proof.
  intros Hin Hc Hp Hl Hq He. rewrite CreateFacts.create_cases.
  rewrite (@CreateFacts.config_of_inputs te task_template inputs cfg Hin),
      Hc, Hp, Hl, Hq.
  cbv zeta. now rewrite He.
Qed.

Lemma create_passes_submission_error_on_witness :
  Agent.create Examples.stub_type_engine
    {| Agent.query := fun _ _ => Raise (BackendError (lit "BadRequest"));
       Agent.get_job := fun _ => Raise (BackendError (lit "NotFound"));
       Agent.cancel_job := fun _ => Ok tt |}
    (lit "s3://out") Examples.int_template None []
  = (Raise (BackendError (lit "BadRequest")),
     ([] ++ [Agent.EvClient (Some (lit "p", lit "US"))])
     ++ [Agent.EvQuery (lit "SELECT @x") None]).
Proof.
  refine (@create_passes_submission_error_on
            Examples.stub_type_engine
            {| Agent.query := fun _ _ => Raise (BackendError (lit "BadRequest"));
               Agent.get_job := fun _ => Raise (BackendError (lit "NotFound"));
               Agent.cancel_job := fun _ => Ok tt |}
            (lit "s3://out") Examples.int_template None None
            [(lit "ProjectID", lit "p"); (lit "Location", lit "US")]
            (lit "p") (lit "US") {| Agent.statement := lit "SELECT @x" |}
            (BackendError (lit "BadRequest")) [] _ _ _ _ _ _);
    reflexivity.
Defined.

(** X12.  When every input has a BigQuery parameter type, the job
    configuration holds one scalar query parameter for each native input,
    in the order of the inputs, under the input's name, with the input's
    value, and typed with the table's entry for the Python type that the
    interface declares for that name. *)
Theorem job_config_keeps_inputs
  (te : Agent.TypeEngine) (task_template : Agent.TaskTemplate)
  (lm : Agent.LiteralMap) (types : list (pystr * Agent.pytype))
  (natives : list (pystr * pyobj)) :
  Agent.python_interface_inputs te task_template = Ok types ->
  Agent.literal_map_to_kwargs te lm types = Ok natives ->
  (forall nv : pystr * pyobj,
     In nv natives -> is_ok (Agent.bigquery_type types (fst nv)) = true) ->
  exists params : list Agent.ScalarQueryParameter,
    Agent.job_config_of_inputs te task_template lm
    = Ok {| Agent.query_parameters := params |}
    /\ map Agent.sqp_name params = map fst natives
    /\ map Agent.sqp_value params = map snd natives
    /\ Forall
         (fun prm =>
            Agent.bigquery_type types (Agent.sqp_name prm)
            = Ok (Agent.sqp_type prm))
         params.
Proof.
  intros Ht Hn Hall.
  destruct (CreateFacts.parameters_of_natives types natives Hall)
    as (params & E & H1 & H2 & H3).
  exists params. split; [|now repeat split].
  unfold Agent.job_config_of_inputs. rewrite Ht. cbn [rbind].
  rewrite Hn. cbn [rbind]. rewrite E. reflexivity.
Qed.

Lemma job_config_keeps_inputs_witness :
  exists params : list Agent.ScalarQueryParameter,
    Agent.job_config_of_inputs Examples.stub_type_engine Examples.int_template
      Examples.int_inputs
    = Ok {| Agent.query_parameters := params |}
    /\ map Agent.sqp_name params = map fst [(lit "x", PyInt 5)]
    /\ map Agent.sqp_value params = map snd [(lit "x", PyInt 5)]
    /\ Forall
         (fun prm =>
            Agent.bigquery_type [(lit "x", Agent.py_int)] (Agent.sqp_name prm)
            = Ok (Agent.sqp_type prm))
         params.
Proof.
  refine (@job_config_keeps_inputs
            Examples.stub_type_engine Examples.int_template Examples.int_inputs
            [(lit "x", Agent.py_int)] [(lit "x", PyInt 5)] _ _ _).
  - reflexivity.
  - reflexivity.
  - intros nv [<-|[]]. vm_compute. reflexivity.
Defined.

(** X13.  [delete] on a token that is the UTF-8 text of a JSON object with
    the single key [job_id]: the client is constructed, the backend is
    asked once to cancel the job of that identifier, and the answer of the
    backend is the outcome of the call. *)
Theorem delete_cancels_json_job
  (backend : Agent.JobBackend) (json_loads : pystr -> result pyobj)
  (token : bytes) (text : pystr) (v : pyobj) (t : list Agent.event) :
  Utf8.decode token = Ok text ->
  json_loads text = Ok (PyDict [(PyStr (lit "job_id"), v)]) ->
  Agent.delete backend json_loads token t
  = (rbind (Agent.cancel_job backend v)
       (fun _ => Ok Agent.DeleteTaskResponse_ok),
     (t ++ [Agent.EvClient None]) ++ [Agent.EvCancelJob v]).
Proof.
  intros Hd Hj. rewrite AgentFacts.delete_cases, Hd. cbn [rbind].
  rewrite Hj. cbn [rbind].
  assert (E : Agent.Metadata_kwargs (PyDict [(PyStr (lit "job_id"), v)])
              = Ok {| Agent.job_id := v |}).
  { now apply AgentFacts.Metadata_kwargs_ok. }
  now rewrite E.
Qed.

Lemma delete_cancels_json_job_witness :
  Agent.delete (Examples.stub_backend (lit "RUNNING"))
    (fun _ => Ok (PyDict [(PyStr (lit "job_id"), PyStr (lit "job-1"))]))
    [x7b; x22; x6a; x6f; x62; x5f; x69; x64; x22; x3a; x20; x22; x6a; x6f;
     x62; x2d; x31; x22; x7d] []
  = (Ok Agent.DeleteTaskResponse_ok,
     [Agent.EvClient None; Agent.EvCancelJob (PyStr (lit "job-1"))]).
Proof.
  refine (@delete_cancels_json_job
            (Examples.stub_backend (lit "RUNNING"))
            (fun _ => Ok (PyDict [(PyStr (lit "job_id"), PyStr (lit "job-1"))]))
            [x7b; x22; x6a; x6f; x62; x5f; x69; x64; x22; x3a; x20; x22;
             x6a; x6f; x62; x2d; x31; x22; x7d]
            _ (PyStr (lit "job-1")) [] _ _).
  - vm_compute. reflexivity.
  - reflexivity.
Defined.

(* ----------------------------------------------------------------- *)
(** ** Further properties of the build command *)

Module PathFacts.
Import Build.
Local Open Scope string_scope.

Lemma append_assoc (a b c : string) : (a ++ b) ++ c = a ++ (b ++ c).
Proof. induction a as [|x a IH]; cbn; [reflexivity | now rewrite IH]. Qed.

Lemma append_nil_r (a : string) : a ++ EmptyString = a.
Proof. induction a as [|x a IH]; cbn; [reflexivity | now rewrite IH]. Qed.

Lemma length_append (a b : string) :
  String.length (a ++ b) = (String.length a + String.length b)%nat.
Proof. induction a as [|x a IH]; cbn; [reflexivity | now rewrite IH]. Qed.

Lemma prefix_cons (a b : ascii) (s1 s2 : string) :
  String.prefix (String a s1) (String b s2)
  = if ascii_dec a b then String.prefix s1 s2 else false.
Proof. reflexivity. Qed.

Lemma prefix_nil (s : string) : String.prefix EmptyString s = true.
Proof. now destruct s. Qed.

(** The last character decides [endswith "/"]. *)
Lemma endswith_sep_cons (c : ascii) (s : string) :
  s <> EmptyString -> endswith "/" (String c s) = endswith "/" s.
Proof.
  intros Hs. destruct s as [|d s]; [now elim Hs|].
  unfold endswith. cbn [String.length Nat.leb Nat.sub andb].
  rewrite !Nat.sub_0_r. reflexivity.
Qed.

Lemma endswith_no_sep (s : string) : no_sep s = true -> endswith "/" s = false.
Proof.
  induction s as [|c s IH]; [reflexivity|].
  cbn [no_sep]. rewrite andb_true_iff, negb_true_iff. intros [Hc Hs].
  destruct s as [|d s].
  - unfold endswith. cbn [String.length Nat.leb Nat.sub andb substring].
    cbn [String.eqb]. now rewrite Hc.
  - rewrite endswith_sep_cons by discriminate. now apply IH.
Qed.

Lemma endswith_append_plain (a b : string) :
  plain b -> endswith "/" (a ++ b) = false.
Proof.
  intros [Hne Hns]. induction a as [|x a IH].
  - now apply endswith_no_sep.
  - cbn [append]. rewrite endswith_sep_cons; [exact IH|].
    destruct a; [exact Hne | discriminate].
Qed.

Lemma plain_unanchored (c : string) : plain c -> unanchored c.
Proof.
  intros [Hne Hns]. destruct c as [|x c]; [now elim Hne|].
  cbn [no_sep] in Hns. apply andb_true_iff in Hns as [Hx _].
  apply negb_true_iff in Hx. now apply BuildFacts.unanchored_cons.
Qed.

(** Joining plain components puts a separator between them. *)
Lemma join_plain (p : string) (rest : list string) :
  p <> EmptyString -> endswith "/" p = false -> Forall plain rest ->
  exists suf : string,
    join p rest = p ++ suf
    /\ (suf = EmptyString \/ exists x : string, suf = String "/" x).
Proof.
  revert p. induction rest as [|b rest IH]; intros p Hp He Hr.
  - exists EmptyString. split; [now rewrite append_nil_r | now left].
  - inversion Hr as [|? ? Hb Hr']; subst. cbn [join fold_left].
    change (fold_left join_step rest (join_step p b))
      with (join (join_step p b) rest).
    assert (Hs : join_step p b = p ++ "/" ++ b).
    { unfold join_step. rewrite (plain_unanchored Hb), He, orb_false_r.
      destruct (String.eqb_spec p EmptyString); [contradiction | reflexivity]. }
    rewrite Hs.
    destruct (IH (p ++ "/" ++ b)) as (suf & E & _).
    + destruct p; [now elim Hp | discriminate].
    + change (p ++ "/" ++ b) with (p ++ ("/" ++ b)).
      rewrite <- append_assoc. now apply endswith_append_plain.
    + exact Hr'.
    + exists ("/" ++ b ++ suf). split; [|right; now exists (b ++ suf)].
      rewrite E. change ("/" ++ b) with (String "/" b).
      rewrite append_assoc. reflexivity.
Qed.

(** Whether a path starts with [..] is decided by its first component. *)
Lemma prefix_dotdot_append (c suf : string) :
  c <> EmptyString ->
  (suf = EmptyString \/ exists x : string, suf = String "/" x) ->
  String.prefix ".." (c ++ suf) = String.prefix ".." c.
Proof.
  intros Hc Hs. destruct c as [|a c]; [now elim Hc|].
  cbn [append]. rewrite !prefix_cons.
  destruct (ascii_dec "." a); [|reflexivity].
  destruct c as [|b c].
  - cbn [append]. destruct Hs as [->|[x ->]]; reflexivity.
  - cbn [append]. rewrite !prefix_cons.
    destruct (ascii_dec "." b); [|reflexivity]. now rewrite !prefix_nil.
Qed.

Lemma split_no_sep (s : string) : Forall (fun c => no_sep c = true) (split s).
Proof.
  induction s as [|c s IH]; cbn [split].
  - repeat constructor.
  - destruct (Ascii.eqb c "/") eqn:E.
    + constructor; [reflexivity | exact IH].
    + destruct (split s) as [|h t].
      * constructor; [|constructor]. cbn. now rewrite E.
      * inversion IH; subst. constructor; [|assumption].
        cbn [no_sep]. now rewrite E.
Qed.

Lemma components_plain (p : string) : Forall plain (components p).
Proof.
  unfold components. apply Forall_forall. intros x Hx.
  apply filter_In in Hx. destruct Hx as [Hx Hn].
  pose proof (split_no_sep p) as H. rewrite Forall_forall in H.
  split; [|now apply H].
  apply negb_true_iff in Hn. now apply String.eqb_neq.
Qed.

Lemma commonprefix_app (a b : list string) : commonprefix a (a ++ b) = a.
Proof.
  induction a as [|x a IH]; [now destruct b|].
  cbn. now rewrite String.eqb_refl, IH.
Qed.

Lemma is_prefix_app (a b : list string) : is_prefix a (a ++ b) = true.
Proof.
  induction a as [|x a IH]; [reflexivity|].
  cbn. now rewrite String.eqb_refl, IH.
Qed.

(** The relative path of a file below the start directory, and whether it
    starts with [..]. *)
Lemma relpath_below (path start c : string) (rest : list string) :
  components path = (components start ++ c :: rest)%list ->
  relpath path start = join c rest
  /\ String.prefix ".." (relpath path start) = String.prefix ".." c.
Proof.
  intros H. pose proof (components_plain path) as Hp. rewrite H in Hp.
  apply Forall_app in Hp as [_ Hp]. inversion Hp as [|? ? Hc Hr]; subst.
  assert (E : relpath path start = join c rest).
  { unfold relpath. rewrite H, commonprefix_app, Nat.sub_diag.
    cbn [repeat app].
    destruct (MsgpackFacts.firstn_skipn_exact (components start) (c :: rest))
      as [_ ->]. reflexivity. }
  split; [exact E|]. rewrite E.
  destruct (@join_plain c rest) as (suf & -> & Hs).
  - exact (proj1 Hc).
  - apply endswith_no_sep. exact (proj2 Hc).
  - exact Hr.
  - apply prefix_dotdot_append; [exact (proj1 Hc) | exact Hs].
Qed.

Lemma lookup_setitem_same {V} (k : string) (v : V) (d : list (string * V)) :
  lookup k (setitem k v d) = Some v.
Proof.
  induction d as [|[k' v'] d IH]; cbn.
  - now rewrite String.eqb_refl.
  - destruct (String.eqb k k') eqn:E; cbn; rewrite E; [reflexivity | exact IH].
Qed.

Lemma lookup_setitem_other {V} (k k0 : string) (v : V)
  (d : list (string * V)) :
  k0 <> k -> lookup k0 (setitem k v d) = lookup k0 d.
Proof.
  intros Hne. induction d as [|[k' v'] d IH]; cbn.
  - destruct (String.eqb_spec k0 k); [contradiction | reflexivity].
  - destruct (String.eqb_spec k k') as [->|Hk]; cbn.
    + destruct (String.eqb_spec k0 k'); [contradiction | reflexivity].
    + destruct (String.eqb k0 k'); [reflexivity | exact IH].
Qed.

End PathFacts.

Module CommandFacts.
Import Build.
Local Open Scope string_scope.

(** [get_command], case by case. *)
Lemma get_command_cases (entity : Type) (k_run k_root k_module : string)
  (find_root : string -> string)
  (load_entity : string -> string -> string -> result entity)
  (self : WorkflowCommand) (cwd exe_entity : string) (w : world) :
  get_command k_run k_root k_module find_root load_entity self cwd exe_entity w
  = if String.prefix ".." (relpath (_filename self) cwd)
    then (Raise ValueError, w)
    else
      let root := find_root (_filename self) in
      match relative_to (_filename self) root with
      | Raise e => (Raise e, w)
      | Ok rel =>
          match ctx_obj w with
          | None => (Raise TypeError, w)
          | Some o =>
              match lookup k_run o with
              | None => (Raise KeyError, w)
              | Some ps =>
                  let m := module_name rel in
                  let ps1 := setitem k_root (CStr root) ps in
                  let ps2 := setitem k_module (CStr m) ps1 in
                  let w2 :=
                    {| ctx_obj :=
                         Some (setitem k_run ps2 (setitem k_run ps1 o));
                       loaded := (loaded w ++ [(m, exe_entity, root)])%list |} in
                  match load_entity m exe_entity root with
                  | Raise e => (Raise e, w2)
                  | Ok ent =>
                      (Ok {| name := exe_entity;
                             callback := ent;
                             help := "Build an image for " ++ m ++ "."
                                     ++ exe_entity ++ "." |},
                       w2)
                  end
              end
          end
      end.
Proof.
  unfold get_command, module_name.
  destruct (String.prefix ".." (relpath (_filename self) cwd)); [reflexivity|].
  cbv zeta.
  destruct (relative_to (_filename self) (find_root (_filename self)))
    as [rel|e]; [|reflexivity].
  cbv beta iota delta [sbind sret sraise set_run_level_param load].
  destruct (ctx_obj w) as [o|] eqn:Eo; [|reflexivity].
  destruct (lookup k_run o) as [ps|] eqn:Ep; [|reflexivity].
  cbn [ctx_obj loaded]. rewrite PathFacts.lookup_setitem_same.
  cbn [ctx_obj loaded].
  destruct (load_entity _ exe_entity _); reflexivity.
Qed.

End CommandFacts.

(** X14.  The guard of [get_command] looks at the text of the relative
    path, so it also refuses a file that is below the working directory
    when the first path component below that directory starts with two
    dots (a directory named [..data], say): the call raises [ValueError]
    and leaves the world as it was. *)
Theorem get_command_refuses_dotdot_names
  (entity : Type) (k_run k_root k_module : string)
  (find_root : string -> string)
  (load_entity : string -> string -> string -> result entity)
  (self : Build.WorkflowCommand) (cwd exe_entity c : string)
  (rest : list string) (w : Build.world) :
  Build.components (Build._filename self)
  = Build.components cwd ++ c :: rest ->
  String.prefix ".." c = true ->
  Build.get_command k_run k_root k_module find_root load_entity
    self cwd exe_entity w
  = (Raise ValueError, w).
Proof.
  intros Hc Hp. apply BuildFacts.get_command_guard.
  destruct (@PathFacts.relpath_below (Build._filename self) cwd c rest Hc)
    as [_ ->]. exact Hp.
Qed.

Lemma get_command_refuses_dotdot_names_witness :
  Build.get_command "run_level_params" "project_root" "module"
    (fun _ => "/home/u/proj"%string) (fun _ _ _ => Ok tt)
    {| Build._filename := "/home/u/proj/..data/wf.py" |} "/home/u/proj" "wf"
    {| Build.ctx_obj := Some [("run_level_params"%string, [])];
       Build.loaded := [] |}
  = (Raise ValueError,
     {| Build.ctx_obj := Some [("run_level_params"%string, [])];
        Build.loaded := [] |}).
Proof.
  refine (@get_command_refuses_dotdot_names unit
            "run_level_params" "project_root" "module"
            (fun _ => "/home/u/proj"%string) (fun _ _ _ => Ok tt)
            {| Build._filename := "/home/u/proj/..data/wf.py" |}
            "/home/u/proj" "wf" "..data"%string ["wf.py"%string]
            {| Build.ctx_obj := Some [("run_level_params"%string, [])];
               Build.loaded := [] |} _ _).
  - reflexivity.
  - reflexivity.
Defined.

(** X15.  A file that is not below the project root that
    [_find_project_root] reports never gets through: either the guard on
    the working directory or [relative_to] raises [ValueError], before the
    context is touched and before any entity is loaded. *)
Theorem get_command_outside_project_root
  (entity : Type) (k_run k_root k_module : string)
  (find_root : string -> string)
  (load_entity : string -> string -> string -> result entity)
  (self : Build.WorkflowCommand) (cwd exe_entity : string) (w : Build.world) :
  Build.is_prefix (Build.components (find_root (Build._filename self)))
    (Build.components (Build._filename self)) = false ->
  Build.get_command k_run k_root k_module find_root load_entity
    self cwd exe_entity w
  = (Raise ValueError, w).
Proof.
  intros Hr. rewrite CommandFacts.get_command_cases.
  destruct (String.prefix ".." _); [reflexivity|].
  cbv zeta. unfold Build.relative_to. now rewrite Hr.
Qed.

Lemma get_command_outside_project_root_witness :
  Build.get_command "run_level_params" "project_root" "module"
    (fun _ => "/srv/other"%string) (fun _ _ _ => Ok tt)
    {| Build._filename := "/home/u/proj/wf.py" |} "/home/u/proj" "wf"
    {| Build.ctx_obj := Some [("run_level_params"%string, [])];
       Build.loaded := [] |}
  = (Raise ValueError,
     {| Build.ctx_obj := Some [("run_level_params"%string, [])];
        Build.loaded := [] |}).
Proof.
  refine (@get_command_outside_project_root unit
            "run_level_params" "project_root" "module"
            (fun _ => "/srv/other"%string) (fun _ _ _ => Ok tt)
            {| Build._filename := "/home/u/proj/wf.py" |}
            "/home/u/proj" "wf"
            {| Build.ctx_obj := Some [("run_level_params"%string, [])];
               Build.loaded := [] |} _).
  reflexivity.
Defined.

Module SplitextFacts.
Import Build.
Local Open Scope string_scope.

Lemma rfind_from_without (c : ascii) (s : string) (i : nat)
  (last : option nat) :
  without c s = true -> rfind_from c s i last = last.
Proof.
  revert i last. induction s as [|x s IH]; intros i last; [reflexivity|].
  cbn [without rfind_from]. rewrite andb_true_iff, negb_true_iff.
  intros [Hx Hs]. rewrite Hx. now apply IH.
Qed.

Lemma rfind_from_append (c : ascii) (a b : string) (i : nat)
  (last : option nat) :
  rfind_from c (a ++ b) i last
  = rfind_from c b (i + String.length a) (rfind_from c a i last).
Proof.
  revert i last. induction a as [|x a IH]; intros i last.
  - cbn. now rewrite Nat.add_0_r.
  - cbn [append rfind_from String.length]. rewrite IH.
    now rewrite Nat.add_succ_r.
Qed.

(** The last occurrence of a character, when none follows it. *)
Lemma rfind_last (c : ascii) (a b : string) :
  without c b = true -> rfind c (a ++ String c b) = Some (String.length a).
Proof.
  intros Hb. unfold rfind. rewrite rfind_from_append.
  cbn [rfind_from]. rewrite Ascii.eqb_refl.
  now rewrite rfind_from_without.
Qed.

Lemma rfind_none (c : ascii) (s : string) :
  without c s = true -> rfind c s = None.
Proof. intros H. unfold rfind. now apply rfind_from_without. Qed.

Lemma without_append (c : ascii) (a b : string) :
  without c (a ++ b) = without c a && without c b.
Proof.
  induction a as [|x a IH]; [reflexivity|].
  cbn [append without]. now rewrite IH, andb_assoc.
Qed.

Lemma substring_prefix (a b : string) :
  substring 0 (String.length a) (a ++ b) = a.
Proof.
  induction a as [|x a IH]; cbn; [now destruct b | now rewrite IH].
Qed.

Lemma substring_skip (a b : string) (n : nat) :
  substring (String.length a) n (a ++ b) = substring 0 n b.
Proof. induction a as [|x a IH]; cbn; [reflexivity | exact IH]. Qed.

Lemma substring_all (b : string) : substring 0 (String.length b) b = b.
Proof. induction b as [|x b IH]; cbn; [reflexivity | now rewrite IH]. Qed.

Lemma replace_append (old new : ascii) (a b : string) :
  replace old new (a ++ b) = replace old new a ++ replace old new b.
Proof. induction a as [|x a IH]; cbn; [reflexivity | now rewrite IH]. Qed.

Lemma replace_without (old new : ascii) (s : string) :
  without old s = true -> replace old new s = s.
Proof.
  induction s as [|x s IH]; [reflexivity|].
  cbn [without replace]. rewrite andb_true_iff, negb_true_iff.
  intros [Hx Hs]. now rewrite Hx, IH.
Qed.

(** [splitext] on a path whose last component is [stem.ext]. *)
Lemma splitext_name (dir stem ext : string) :
  (dir = EmptyString \/ exists d : string, dir = d ++ "/") ->
  without "/" stem = true -> all_dots stem = false ->
  without "." ext = true -> without "/" ext = true ->
  splitext (dir ++ stem ++ "." ++ ext) = (dir ++ stem, "." ++ ext).
Proof.
  intros Hdir Hs Hd He1 He2. unfold splitext.
  assert (Hdot : rfind "." (dir ++ stem ++ "." ++ ext)
                 = Some (String.length (dir ++ stem))).
  { rewrite <- PathFacts.append_assoc. now apply rfind_last. }
  assert (Hsep : match rfind "/" (dir ++ stem ++ "." ++ ext) with
                 | Some s => S s
                 | None => O
                 end = String.length dir).
  { assert (Hn : without "/" (stem ++ "." ++ ext) = true).
    { rewrite without_append, Hs. cbn. exact He2. }
    destruct Hdir as [->|[d ->]].
    - cbn [append]. now rewrite rfind_none.
    - rewrite PathFacts.append_assoc.
      change ("/" ++ stem ++ "." ++ ext) with (String "/" (stem ++ "." ++ ext)).
      rewrite rfind_last by exact Hn.
      rewrite PathFacts.length_append. cbn. lia. }
  rewrite Hdot, Hsep, PathFacts.length_append.
  replace (String.length dir + String.length stem - String.length dir)%nat
    with (String.length stem) by lia.
  destruct (Nat.leb_spec (String.length dir)
              (String.length dir + String.length stem)) as [_|H]; [|lia].
  rewrite substring_skip.
  assert (Hst : substring 0 (String.length stem) (stem ++ "." ++ ext) = stem)
    by apply substring_prefix.
  rewrite Hst, Hd. cbn [negb andb].
  rewrite <- PathFacts.length_append.
  rewrite <- (PathFacts.append_assoc dir stem ("." ++ ext)).
  rewrite substring_prefix, substring_skip.
  rewrite PathFacts.length_append.
  replace (String.length (dir ++ stem) + String.length ("." ++ ext)
           - String.length (dir ++ stem))%nat
    with (String.length ("." ++ ext)) by lia.
  now rewrite substring_all.
Qed.

End SplitextFacts.

(** X16.  The module name of a Python file: for a path relative to the
    project root whose last component is [stem.ext] (a stem that is not
    made of dots only, an extension without a dot), the module that
    [get_command] loads is the path without the extension and with every
    separator turned into a dot. *)
Theorem module_name_of_file (dir stem ext : string) :
  (dir = EmptyString \/ exists d : string, dir = (d ++ "/")%string) ->
  Build.without "/" stem = true ->
  Build.all_dots stem = false ->
  Build.without "." ext = true ->
  Build.without "/" ext = true ->
  Build.module_name (dir ++ stem ++ "." ++ ext)
  = (Build.replace "/" "." dir ++ stem)%string.
Proof.
  intros Hdir Hs Hd He1 He2. unfold Build.module_name.
  rewrite (@SplitextFacts.splitext_name dir stem ext Hdir Hs Hd He1 He2).
  cbn [fst]. rewrite SplitextFacts.replace_append.
  now rewrite (@SplitextFacts.replace_without "/" "." stem Hs).
Qed.

Lemma module_name_of_file_witness :
  Build.module_name "pkg/sub/wf.py" = "pkg.sub.wf"%string.
Proof.
  refine (@module_name_of_file "pkg/sub/" "wf" "py" _ _ _ _ _).
  - right. exists "pkg/sub"%string. reflexivity.
  - reflexivity.
  - reflexivity.
  - reflexivity.
  - reflexivity.
Defined.

(** X17.  What a successful [get_command] has done: the command carries
    the name it was asked for and the entity that [load_naive_entity]
    found for the module of the file; exactly one entity was loaded, with
    that module, that name and the project root; and the run-level
    parameters of the context now hold the module and (under a different
    key) the project root, every other parameter and every other entry of
    [ctx.obj] being what it was. *)
Theorem get_command_postcondition
  (entity : Type) (k_run k_root k_module : string)
  (find_root : string -> string)
  (load_entity : string -> string -> string -> result entity)
  (self : Build.WorkflowCommand) (cwd exe_entity : string)
  (w w' : Build.world) (cmd : Build.Command entity) :
  Build.get_command k_run k_root k_module find_root load_entity
    self cwd exe_entity w
  = (Ok cmd, w') ->
  exists (rel : string) (o o' : list (string * Build.params))
         (ps ps' : Build.params),
    let root := find_root (Build._filename self) in
    let m := Build.module_name rel in
    Build.relative_to (Build._filename self) root = Ok rel
    /\ Build.name cmd = exe_entity
    /\ load_entity m exe_entity root = Ok (Build.callback cmd)
    /\ Build.loaded w' = Build.loaded w ++ [(m, exe_entity, root)]
    /\ Build.ctx_obj w = Some o /\ Build.lookup k_run o = Some ps
    /\ Build.ctx_obj w' = Some o' /\ Build.lookup k_run o' = Some ps'
    /\ Build.lookup k_module ps' = Some (Build.CStr m)
    /\ (k_root <> k_module -> Build.lookup k_root ps' = Some (Build.CStr root))
    /\ (forall k : string,
          k <> k_root -> k <> k_module ->
          Build.lookup k ps' = Build.lookup k ps)
    /\ (forall k : string, k <> k_run -> Build.lookup k o' = Build.lookup k o).
Proof.
  rewrite CommandFacts.get_command_cases.
  destruct (String.prefix ".." _); [discriminate|]. cbv zeta.
  destruct (Build.relative_to _ _) as [rel|] eqn:Er; [|discriminate].
  destruct (Build.ctx_obj w) as [o|] eqn:Eo; [|discriminate].
  destruct (Build.lookup k_run o) as [ps|] eqn:Ep; [|discriminate].
  destruct (load_entity _ exe_entity _) as [ent|] eqn:El; [|discriminate].
  intros H. injection H as <- <-.
  eexists rel, o, _, ps, _. cbv zeta. cbn [Build.name Build.callback
    Build.loaded Build.ctx_obj].
  repeat (split;
          [first [ reflexivity | eassumption
                 | apply PathFacts.lookup_setitem_same ]|]).
  split; [|split].
  - intros Hne. rewrite PathFacts.lookup_setitem_other by exact Hne.
    apply PathFacts.lookup_setitem_same.
  - intros k H1 H2. now rewrite !PathFacts.lookup_setitem_other.
  - intros k Hk. now rewrite !PathFacts.lookup_setitem_other.
Qed.

Lemma get_command_postcondition_witness :
  exists (rel : string) (o o' : list (string * Build.params))
         (ps ps' : Build.params),
    Build.relative_to "/home/u/proj/pkg/wf.py" "/home/u/proj" = Ok rel
    /\ "wf"%string = "wf"%string
    /\ Ok tt = Ok tt
    /\ [(Build.module_name "pkg/wf.py", "wf"%string, "/home/u/proj"%string)]
       = [] ++ [(Build.module_name rel, "wf"%string, "/home/u/proj"%string)]
    /\ Some [("run_level_params"%string, [("fast"%string, Build.CBool false)])]
       = Some o
    /\ Build.lookup "run_level_params" o = Some ps
    /\ Some [("run_level_params"%string,
              [("fast"%string, Build.CBool false);
               ("project_root"%string, Build.CStr "/home/u/proj");
               ("module"%string, Build.CStr "pkg.wf")])]
       = Some o'
    /\ Build.lookup "run_level_params" o' = Some ps'
    /\ Build.lookup "module" ps' = Some (Build.CStr (Build.module_name rel))
    /\ ("project_root"%string <> "module"%string ->
        Build.lookup "project_root" ps' = Some (Build.CStr "/home/u/proj"))
    /\ (forall k : string,
          k <> "project_root"%string -> k <> "module"%string ->
          Build.lookup k ps' = Build.lookup k ps)
    /\ (forall k : string,
          k <> "run_level_params"%string ->
          Build.lookup k o' = Build.lookup k o).
Proof.
  refine (@get_command_postcondition unit
            "run_level_params" "project_root" "module"
            (fun _ => "/home/u/proj"%string) (fun _ _ _ => Ok tt)
            {| Build._filename := "/home/u/proj/pkg/wf.py" |}
            "/home/u/proj" "wf"
            {| Build.ctx_obj :=
                 Some [("run_level_params"%string,
                        [("fast"%string, Build.CBool false)])];
               Build.loaded := [] |}
            {| Build.ctx_obj :=
                 Some [("run_level_params"%string,
                        [("fast"%string, Build.CBool false);
                         ("project_root"%string, Build.CStr "/home/u/proj");
                         ("module"%string, Build.CStr "pkg.wf")])];
               Build.loaded :=
                 [(Build.module_name "pkg/wf.py", "wf"%string,
                   "/home/u/proj"%string)] |}
            {| Build.name := "wf"; Build.callback := tt;
               Build.help := "Build an image for pkg.wf.wf." |} _).
  vm_compute. reflexivity.
Defined.

(** X18.  With a [ctx.obj] that is [None] or an empty dict,
    [BuildCommand.get_command] stores nothing (the test [if ctx.obj:]
    fails), and the [get_command] of the file command it returns then
    fails when it writes the project root: [TypeError] on [None],
    [KeyError] on the empty dict, in the world as it was and with no
    entity loaded. *)
Theorem get_command_needs_truthy_context
  (entity : Type) (k_run k_root k_module : string)
  (find_root : string -> string)
  (load_entity : string -> string -> string -> result entity)
  (resolve : string -> string) (ctx_params : Build.params)
  (filename cwd exe_entity c rel : string) (rest : list string)
  (w : Build.world) :
  Build.ctx_obj w = None \/ Build.ctx_obj w = Some [] ->
  Build.components (resolve filename) = Build.components cwd ++ c :: rest ->
  String.prefix ".." c = false ->
  Build.relative_to (resolve filename) (find_root (resolve filename)) = Ok rel ->
  Build.build_get_command k_run resolve ctx_params filename w
  = (Ok {| Build._filename := resolve filename |}, w)
  /\ Build.get_command k_run k_root k_module find_root load_entity
       {| Build._filename := resolve filename |} cwd exe_entity w
     = (Raise match Build.ctx_obj w with
              | None => TypeError
              | Some _ => KeyError
              end,
        w).
Proof.
  intros Hctx Hc Hp Hr. split.
  - unfold Build.build_get_command. now destruct Hctx as [-> | ->].
  - rewrite CommandFacts.get_command_cases. cbn [Build._filename].
    destruct (@PathFacts.relpath_below (resolve filename) cwd c rest Hc)
      as [_ ->].
    rewrite Hp. cbv zeta. rewrite Hr.
    now destruct Hctx as [-> | ->].
Qed.

Lemma get_command_needs_truthy_context_witness :
  Build.build_get_command "run_level_params" (fun f => f)
    [("fast"%string, Build.CBool true)] "/home/u/proj/wf.py"
    {| Build.ctx_obj := Some []; Build.loaded := [] |}
  = (Ok {| Build._filename := "/home/u/proj/wf.py" |},
     {| Build.ctx_obj := Some []; Build.loaded := [] |})
  /\ Build.get_command "run_level_params" "project_root" "module"
       (fun _ => "/home/u/proj"%string) (fun _ _ _ => Ok tt)
       {| Build._filename := "/home/u/proj/wf.py" |} "/home/u/proj" "wf"
       {| Build.ctx_obj := Some []; Build.loaded := [] |}
     = (Raise KeyError, {| Build.ctx_obj := Some []; Build.loaded := [] |}).
Proof.
  refine (@get_command_needs_truthy_context unit
            "run_level_params" "project_root" "module"
            (fun _ => "/home/u/proj"%string) (fun _ _ _ => Ok tt)
            (fun f => f) [("fast"%string, Build.CBool true)]
            "/home/u/proj/wf.py" "/home/u/proj" "wf" "wf.py" "wf.py" []
            {| Build.ctx_obj := Some []; Build.loaded := [] |} _ _ _ _).
  - right. reflexivity.
  - reflexivity.
  - reflexivity.
  - reflexivity.
Defined.

(** X19.  When [load_naive_entity] fails, [get_command] raises its
    exception, but the context has been written by then: the run-level
    parameters already hold the module of the file, and the failed load
    is the one recorded. *)
Theorem get_command_load_failure
  (entity : Type) (k_run k_root k_module : string)
  (find_root : string -> string)
  (load_entity : string -> string -> string -> result entity)
  (self : Build.WorkflowCommand) (cwd exe_entity c rel : string)
  (rest : list string) (o : list (string * Build.params))
  (ps : Build.params) (e : exn) (w : Build.world) :
  Build.components (Build._filename self)
  = Build.components cwd ++ c :: rest ->
  String.prefix ".." c = false ->
  Build.relative_to (Build._filename self) (find_root (Build._filename self))
  = Ok rel ->
  Build.ctx_obj w = Some o ->
  Build.lookup k_run o = Some ps ->
  load_entity (Build.module_name rel) exe_entity
    (find_root (Build._filename self))
  = Raise e ->
  exists (w' : Build.world) (o' : list (string * Build.params))
         (ps' : Build.params),
    Build.get_command k_run k_root k_module find_root load_entity
      self cwd exe_entity w
    = (Raise e, w')
    /\ Build.loaded w'
       = Build.loaded w
         ++ [(Build.module_name rel, exe_entity,
              find_root (Build._filename self))]
    /\ Build.ctx_obj w' = Some o'
    /\ Build.lookup k_run o' = Some ps'
    /\ Build.lookup k_module ps' = Some (Build.CStr (Build.module_name rel)).
Proof.
  intros Hc Hp Hr Ho Hps Hl. rewrite CommandFacts.get_command_cases.
  destruct (@PathFacts.relpath_below (Build._filename self) cwd c rest Hc)
    as [_ ->].
  rewrite Hp. cbv zeta. rewrite Hr, Ho, Hps, Hl.
  eexists _, _, _. split; [reflexivity|]. cbn [Build.loaded Build.ctx_obj].
  split; [reflexivity|]. split; [reflexivity|].
  split; apply PathFacts.lookup_setitem_same.
Qed.

Lemma get_command_load_failure_witness :
  exists (w' : Build.world) (o' : list (string * Build.params))
         (ps' : Build.params),
    Build.get_command "run_level_params" "project_root" "module"
      (fun _ => "/home/u/proj"%string)
      (fun _ _ _ => @Raise unit (BackendError (lit "ModuleNotFoundError")))
      {| Build._filename := "/home/u/proj/pkg/wf.py" |} "/home/u/proj" "wf"
      {| Build.ctx_obj := Some [("run_level_params"%string, [])];
         Build.loaded := [] |}
    = (Raise (BackendError (lit "ModuleNotFoundError")), w')
    /\ Build.loaded w'
       = [] ++ [(Build.module_name "pkg/wf.py", "wf"%string,
                 "/home/u/proj"%string)]
    /\ Build.ctx_obj w' = Some o'
    /\ Build.lookup "run_level_params" o' = Some ps'
    /\ Build.lookup "module" ps'
       = Some (Build.CStr (Build.module_name "pkg/wf.py")).
Proof.
  refine (@get_command_load_failure unit
            "run_level_params" "project_root" "module"
            (fun _ => "/home/u/proj"%string)
            (fun _ _ _ => Raise (BackendError (lit "ModuleNotFoundError")))
            {| Build._filename := "/home/u/proj/pkg/wf.py" |}
            "/home/u/proj" "wf" "pkg" "pkg/wf.py" ["wf.py"%string]
            [("run_level_params"%string, [])] []
            (BackendError (lit "ModuleNotFoundError"))
            {| Build.ctx_obj := Some [("run_level_params"%string, [])];
               Build.loaded := [] |} _ _ _ _ _ _);
    reflexivity.
Defined.

(** X20.  From the build command to the callback: when
    [BuildCommand.get_command] has stored the build parameters in a truthy
    [ctx.obj] and the [get_command] of the file command has returned a
    command, the callback of that command serialises the loaded entity
    with the project and the domain of the build parameters, with the
    service account as option when one is given, and with the project
    root of the file as source root unless [--fast] is set, in which case
    the source root stays unset.  The context keys for the root and the
    module are distinct and are none of the parameter names read here. *)
Theorem build_callback_settings
  (entity image : Type) (auto_default_image : image)
  (k_run k_root k_module : string) (find_root : string -> string)
  (load_entity : string -> string -> string -> result entity)
  (resolve : string -> string) (ctx_params : Build.params)
  (filename cwd exe_entity : string) (kv : string * Build.params)
  (o : list (string * Build.params)) (w w2 : Build.world)
  (cmd : Build.Command entity) :
  Build.ctx_obj w = Some (kv :: o) ->
  Build.get_command k_run k_root k_module find_root load_entity
    {| Build._filename := resolve filename |} cwd exe_entity
    (snd (Build.build_get_command k_run resolve ctx_params filename w))
  = (Ok cmd, w2) ->
  k_root <> k_module ->
  ~ In k_root Build.build_params ->
  ~ In k_module Build.build_params ->
  exists call : Build.serialize_call entity image,
    Build._build k_run k_root auto_default_image (Build.callback cmd) w2
    = Ok call
    /\ Build.call_entity call = Build.callback cmd
    /\ Build.project (Build.settings call)
       = Build.get_param "project" ctx_params
    /\ Build.domain (Build.settings call)
       = Build.get_param "domain" ctx_params
    /\ Build.source_root (Build.settings call)
       = (if Build.truthy (Build.get_param "fast" ctx_params)
          then Build.CNone
          else Build.CStr (find_root (resolve filename)))
    /\ Build.options call
       = (if Build.truthy (Build.get_param "service_account" ctx_params)
          then Some {| Build.k8s_service_account :=
                         Build.get_param "service_account" ctx_params |}
          else None).
Proof.
  intros Hctx Hget Hne Hroot Hmod.
  unfold Build.build_get_command in Hget. rewrite Hctx in Hget.
  cbn [snd] in Hget. rewrite CommandFacts.get_command_cases in Hget.
  destruct (String.prefix ".." _); [discriminate|]. cbv zeta in Hget.
  destruct (Build.relative_to _ _) as [rel|]; [|discriminate].
  cbn [Build.ctx_obj Build.loaded Build._filename] in Hget.
  rewrite PathFacts.lookup_setitem_same in Hget.
  destruct (load_entity _ exe_entity _) as [ent|]; [|discriminate].
  injection Hget as <- <-.
  unfold Build._build. cbn [Build.ctx_obj Build.callback].
  rewrite PathFacts.lookup_setitem_same.
  assert (G : forall k : string,
            In k Build.build_params ->
            Build.get_param k
              (Build.setitem k_module
                 (Build.CStr (Build.module_name rel))
                 (Build.setitem k_root
                    (Build.CStr (find_root (resolve filename))) ctx_params))
            = Build.get_param k ctx_params).
  { intros k Hk. unfold Build.get_param.
    rewrite !PathFacts.lookup_setitem_other; [reflexivity| |];
      intros ->; contradiction. }
  assert (R : Build.get_param k_root
                (Build.setitem k_module
                   (Build.CStr (Build.module_name rel))
                   (Build.setitem k_root
                      (Build.CStr (find_root (resolve filename))) ctx_params))
              = Build.CStr (find_root (resolve filename))).
  { unfold Build.get_param.
    rewrite PathFacts.lookup_setitem_other by exact Hne.
    now rewrite PathFacts.lookup_setitem_same. }
  eexists. split; [reflexivity|].
  cbn [Build.call_entity Build.settings Build.project Build.domain
       Build.source_root Build.options].
  rewrite R.
  rewrite !G by (unfold Build.build_params; cbn [In]; tauto).
  repeat split. now destruct (Build.truthy (Build.get_param "fast" ctx_params)).
Qed.

Lemma build_callback_settings_witness :
  exists call : Build.serialize_call unit unit,
    Build._build "run_level_params" "project_root" tt tt
      {| Build.ctx_obj :=
           Some [("pkgs"%string, []);
                 ("run_level_params"%string,
                  [("fast"%string, Build.CBool false);
                   ("project"%string, Build.CStr "p");
                   ("project_root"%string, Build.CStr "/home/u/proj");
                   ("module"%string, Build.CStr "pkg.wf")])];
         Build.loaded :=
           [("pkg.wf"%string, "wf"%string, "/home/u/proj"%string)] |}
    = Ok call
    /\ Build.call_entity call = tt
    /\ Build.project (Build.settings call)
       = Build.get_param "project"
           [("fast"%string, Build.CBool false);
            ("project"%string, Build.CStr "p")]
    /\ Build.domain (Build.settings call)
       = Build.get_param "domain"
           [("fast"%string, Build.CBool false);
            ("project"%string, Build.CStr "p")]
    /\ Build.source_root (Build.settings call)
       = (if Build.truthy
               (Build.get_param "fast"
                  [("fast"%string, Build.CBool false);
                   ("project"%string, Build.CStr "p")])
          then Build.CNone
          else Build.CStr "/home/u/proj")
    /\ Build.options call
       = (if Build.truthy
               (Build.get_param "service_account"
                  [("fast"%string, Build.CBool false);
                   ("project"%string, Build.CStr "p")])
          then Some {| Build.k8s_service_account :=
                         Build.get_param "service_account"
                           [("fast"%string, Build.CBool false);
                            ("project"%string, Build.CStr "p")] |}
          else None).
Proof.
  refine (@build_callback_settings unit unit tt
            "run_level_params" "project_root" "module"
            (fun _ => "/home/u/proj"%string) (fun _ _ _ => Ok tt)
            (fun f => f)
            [("fast"%string, Build.CBool false);
             ("project"%string, Build.CStr "p")]
            "/home/u/proj/pkg/wf.py" "/home/u/proj" "wf"
            ("pkgs"%string, []) []
            {| Build.ctx_obj := Some [("pkgs"%string, [])];
               Build.loaded := [] |}
            {| Build.ctx_obj :=
                 Some [("pkgs"%string, []);
                       ("run_level_params"%string,
                        [("fast"%string, Build.CBool false);
                         ("project"%string, Build.CStr "p");
                         ("project_root"%string, Build.CStr "/home/u/proj");
                         ("module"%string, Build.CStr "pkg.wf")])];
               Build.loaded :=
                 [("pkg.wf"%string, "wf"%string, "/home/u/proj"%string)] |}
            {| Build.name := "wf"; Build.callback := tt;
               Build.help := "Build an image for pkg.wf.wf." |}
            _ _ _ _ _).
  - reflexivity.
  - vm_compute. reflexivity.
  - discriminate.
  - vm_compute. intuition discriminate.
  - vm_compute. intuition discriminate.
Defined.

(** X21.  Tokens tell jobs apart: two records whose job identifiers are
    strings have the same token only if the identifiers are the same, so
    [create] never hands out one token for two different jobs. *)
Theorem tokens_identify_jobs (s1 s2 : pystr) (token : bytes) :
  Agent.encode_metadata {| Agent.job_id := PyStr s1 |} = Ok token ->
  Agent.encode_metadata {| Agent.job_id := PyStr s2 |} = Ok token ->
  s1 = s2.
Proof.
  intros H1 H2.
  apply AgentFacts.decode_encode_metadata in H1.
  apply AgentFacts.decode_encode_metadata in H2.
  rewrite H1 in H2. now injection H2.
Qed.

Lemma tokens_identify_jobs_witness : lit "job-1" = lit "job-1".
Proof.
  refine (@tokens_identify_jobs (lit "job-1") (lit "job-1")
            Examples.token_job1 _ _).
  - vm_compute. reflexivity.
  - vm_compute. reflexivity.
Defined.

(** X22.  [delete] touches the backend for one purpose only.  When the
    token does not decode, because the UTF-8 decoder, the JSON reader or
    the constructor of the record raises, [delete] ends with that
    exception and has made the client and nothing more: no job is
    cancelled.  When the token decodes to a record, the trace gains the
    client and then exactly one cancellation, of the job of the record.
    Either way no query is submitted and no status is asked for. *)
Theorem delete_only_cancels
  (backend : Agent.JobBackend) (json_loads : pystr -> result pyobj)
  (token : bytes) (t : list Agent.event) :
  (forall e : exn,
     rbind (Utf8.decode token)
       (fun s => rbind (json_loads s) Agent.Metadata_kwargs) = Raise e ->
     Agent.delete backend json_loads token t
     = (Raise e, t ++ [Agent.EvClient None]))
  /\ (forall m : Agent.Metadata,
        rbind (Utf8.decode token)
          (fun s => rbind (json_loads s) Agent.Metadata_kwargs) = Ok m ->
        snd (Agent.delete backend json_loads token t)
        = (t ++ [Agent.EvClient None])
          ++ [Agent.EvCancelJob (Agent.job_id m)]).
Proof.
  split.
  - intros e H. now rewrite AgentFacts.delete_cases, H.
  - intros m H. now rewrite AgentFacts.delete_cases, H.
Qed.

Lemma delete_only_cancels_witness :
  Agent.delete (Examples.stub_backend (lit "RUNNING")) Examples.stub_json_loads
    [xff] []
  = (Raise UnicodeDecodeError, [] ++ [Agent.EvClient None]).
Proof.
  exact (proj1 (@delete_only_cancels (Examples.stub_backend (lit "RUNNING"))
                  Examples.stub_json_loads [xff] [])
           UnicodeDecodeError eq_refl).
Defined.

(** X23.  [create] submits at most one query and does nothing else to the
    backend: in every outcome the trace grows by nothing, by the client
    alone, or by the client followed by one submission; a status request
    or a cancellation never occurs, and a failed call is not retried. *)
Theorem create_submits_at_most_once
  (te : Agent.TypeEngine) (backend : Agent.JobBackend) (output_prefix : pystr)
  (task_template : Agent.TaskTemplate) (inputs : option Agent.LiteralMap)
  (t : list Agent.event) :
  let t' :=
    snd (Agent.create te backend output_prefix task_template inputs t) in
  t' = t
  \/ (exists pl : pystr * pystr, t' = t ++ [Agent.EvClient (Some pl)])
  \/ exists (pl : pystr * pystr) (stmt : pystr)
            (cfg : option Agent.QueryJobConfig),
       t' = (t ++ [Agent.EvClient (Some pl)]) ++ [Agent.EvQuery stmt cfg].
Proof.
  cbv zeta. rewrite CreateFacts.create_cases.
  destruct (match inputs with
            | Some lm =>
                rbind (Agent.job_config_of_inputs te task_template lm)
                  (fun c => Ok (Some c))
            | None => Ok None
            end) as [cfg|]; [|now left].
  destruct (Agent.custom task_template) as [c|]; [|now left].
  destruct (Agent.getitem (lit "ProjectID") c) as [p|]; [|now left].
  destruct (Agent.getitem (lit "Location") c) as [l|]; [|now left].
  cbv zeta. destruct (Agent.sql task_template) as [q|].
  - right. right. exists (p, l), (Agent.statement q), cfg.
    destruct (Agent.query backend (Agent.statement q) cfg) as [id|];
      [|reflexivity].
    destruct (Agent.encode_metadata _); reflexivity.
  - right. left. now exists (p, l).
Qed.
